(** * Excel-to-CSV converter: the conversion pipeline of [src/App.tsx]

    A shallow embedding of the two event handlers of the [App] component,
    [handleFolderSelect] and [handleConvert], together with the JavaScript
    string primitives they call ([toLowerCase], [endsWith], [trim], [split],
    [join], [replace] with a regular expression), and of the arithmetic of
    the progress value, which the source computes on IEEE 754 doubles. *)

From Stdlib Require Import List Ascii String ZArith Lia Bool Arith.
From Stdlib Require Import SpecFloat.
Import ListNotations.

Set Implicit Arguments.

(** ** JavaScript strings

    A string is a sequence of code units.  The model keeps the code units
    0..255 (Latin-1), on which the primitives below act as ECMAScript
    prescribes; the regular expression of the source has no [u] flag and
    therefore works on code units too. *)

Module JsString.

Definition t := list ascii.

Definition str (s : string) : t := list_ascii_of_string s.

Definition code (c : ascii) : nat := nat_of_ascii c.

Definition eqb_char (a b : ascii) : bool := Ascii.eqb a b.

Fixpoint eqb (s1 s2 : t) : bool :=
  match s1, s2 with
  | [], [] => true
  | a :: r1, b :: r2 => eqb_char a b && eqb r1 r2
  | _, _ => false
  end.

(** [String.prototype.toLowerCase] on Latin-1: A..Z, and the accented
    capitals U+00C0..U+00DE except the multiplication sign U+00D7, move up
    by 32. *)
Definition lower_char (c : ascii) : ascii :=
  let n := code c in
  if ((65 <=? n) && (n <=? 90)) || ((192 <=? n) && (n <=? 222) && negb (n =? 215))
  then ascii_of_nat (n + 32)
  else c.

Definition toLowerCase (s : t) : t := map lower_char s.

(** [s.endsWith(suf)]: the code units of [s] from position
    [s.length - suf.length] on are those of [suf]. *)
Definition endsWith (s suf : t) : bool :=
  (List.length suf <=? List.length s) && eqb (skipn (List.length s - List.length suf) s) suf.

(** White space and line terminators of ECMAScript that fit in Latin-1:
    TAB, LF, VT, FF, CR, SP and NBSP. *)
Definition is_space (c : ascii) : bool :=
  let n := code c in
  ((9 <=? n) && (n <=? 13)) || (n =? 32) || (n =? 160).

Fixpoint trimStart (s : t) : t :=
  match s with
  | c :: r => if is_space c then trimStart r else s
  | [] => []
  end.

Definition trimEnd (s : t) : t := rev (trimStart (rev s)).

Definition trim (s : t) : t := trimEnd (trimStart s).

(** [s.split('/')]: the result always has at least one element. *)
Definition slash : ascii := "/"%char.
Definition dot : ascii := "."%char.
Definition dollar : ascii := "$"%char.

Fixpoint split_slash (s : t) : list t :=
  match s with
  | [] => [[]]
  | c :: r =>
      if eqb_char c slash then [] :: split_slash r
      else match split_slash r with
           | seg :: segs => (c :: seg) :: segs
           | [] => [[c]]
           end
  end.

(** [parts.join('/')] *)
Fixpoint join_slash (parts : list t) : t :=
  match parts with
  | [] => []
  | [p] => p
  | p :: ps => p ++ slash :: join_slash ps
  end.

(** The regular expression [/\.[^/.]+$/] tried at the start of [s]: a dot,
    then one or more code units that are neither a slash nor a dot, then
    the end of the input. *)
Definition ext_char (c : ascii) : bool :=
  negb (eqb_char c slash) && negb (eqb_char c dot).

Definition match_ext_here (s : t) : bool :=
  match s with
  | c :: ((_ :: _) as r) => eqb_char c dot && forallb ext_char r
  | _ => false
  end.

(** [GetSubstitution] for a pattern without capture groups: [$$] is a
    dollar, [$&] the matched text, [$`] the text before the match, [$']
    the text after it; every other dollar stands for itself. *)
Fixpoint getSubstitution (matched before after repl : t) : t :=
  match repl with
  | [] => []
  | c :: r =>
      if eqb_char c dollar then
        match r with
        | d :: r' =>
            if eqb_char d dollar then dollar :: getSubstitution matched before after r'
            else if eqb_char d "&"%char then matched ++ getSubstitution matched before after r'
            else if eqb_char d "`"%char then before ++ getSubstitution matched before after r'
            else if eqb_char d "'"%char then after ++ getSubstitution matched before after r'
            else c :: getSubstitution matched before after r
        | [] => [c]
        end
      else c :: getSubstitution matched before after r
  end.

(** [s.replace(/\.[^/.]+$/, repl)]: the leftmost match is replaced, and
    the string is returned as it is when there is none.  [before] holds, in
    reverse, the code units already passed. *)
Fixpoint replace_ext_from (before s repl : t) : t :=
  if match_ext_here s then rev before ++ getSubstitution s (rev before) [] repl
  else match s with
       | [] => rev before
       | c :: r => replace_ext_from (c :: before) r repl
       end.

Definition replace_ext (s repl : t) : t := replace_ext_from [] s repl.

(** Whether the regular expression matches somewhere in [s]. *)
Fixpoint has_ext (s : t) : bool :=
  match_ext_here s ||
  match s with
  | [] => false
  | _ :: r => has_ext r
  end.

(** Texts without a slash (a path segment) and without a dollar (a
    replacement that stands for itself); the folders of a path, every
    segment followed by a slash. *)
Definition no_slash (s : t) : bool :=
  forallb (fun c => negb (eqb_char c slash)) s.

Definition no_dot (s : t) : bool :=
  forallb (fun c => negb (eqb_char c dot)) s.

Definition no_dollar (s : t) : bool :=
  forallb (fun c => negb (eqb_char c dollar)) s.

Definition folders (mids : list t) : t :=
  flat_map (fun m => m ++ [slash]) mids.

(** [p] is the beginning of [s]. *)
Fixpoint prefixb (p s : t) : bool :=
  match p, s with
  | [], _ => true
  | a :: p', b :: s' => eqb_char a b && prefixb p' s'
  | _ :: _, [] => false
  end.

(** Two texts are apart when they differ and neither is the other one
    followed by an underscore and more. *)
Definition underscore : ascii := "_"%char.

Definition apartb (s1 s2 : t) : bool :=
  negb (eqb s1 s2) && negb (prefixb (s1 ++ [underscore]) s2)
  && negb (prefixb (s2 ++ [underscore]) s1).

(** The endings that the sheets step puts after a stem. *)
Definition ending (x : t) : Prop :=
  x = str ".csv" \/ exists sheetName, x = underscore :: sheetName ++ str ".csv".

Fixpoint pairwiseb {A} (r : A -> A -> bool) (l : list A) : bool :=
  match l with
  | [] => true
  | a :: l' => forallb (r a) l' && pairwiseb r l'
  end.

Fixpoint nodupb (l : list t) : bool :=
  match l with
  | [] => true
  | a :: l' => negb (existsb (eqb a) l') && nodupb l'
  end.

End JsString.

(** ** JavaScript numbers

    A number is an IEEE 754 binary64 value.  The operations are those of
    the Standard Library's executable specification of floating-point
    arithmetic, at precision 53 and maximal exponent 1024, which round to
    nearest with ties to even as ECMAScript does. *)

Module JsNumber.

Definition prec : Z := 53.
Definition emax : Z := 1024.

Definition number := spec_float.

(** An integer as a number: exact below 2^53, rounded above. *)
Definition of_Z (z : Z) : number := binary_normalize prec emax z 0 false.

(** An array index or length, a natural number below 2^32, is a number
    exactly. *)
Definition of_nat (n : nat) : number := of_Z (Z.of_nat n).

Definition div (x y : number) : number := SFdiv prec emax x y.
Definition mul (x y : number) : number := SFmul prec emax x y.

Definition hundred : number := of_Z 100.

(** [Math.round]: the integer nearest to [x], the larger one on a tie,
    that is the floor of [x + 1/2] computed exactly.  The result is given as
    an integer; NaN and the infinities, which [Math.round] returns as they
    are, have none and are sent to 0 (the quotient of two positive integers
    below 2^53 times 100 never is one of them, see [progress_float_spec]). *)
Definition Math_round (x : number) : Z :=
  match x with
  | S754_finite s m e =>
      let sm := if s then Z.neg m else Z.pos m in
      if (0 <=? e)%Z then (sm * 2 ^ e)%Z
      else ((2 * sm + 2 ^ (- e)) / (2 * 2 ^ (- e)))%Z
  | _ => 0%Z
  end.

(** [((i + 1) / files.length) * 100], with [a] for [i + 1] and [n] for
    [files.length]. *)
Definition progress_float (a n : Z) : number :=
  mul (div (of_Z a) (of_Z n)) hundred.

(** [Math.round(((i + 1) / files.length) * 100)], with [completed] for
    [i + 1] and [total] for [files.length]. *)
Definition progress_value (completed total : nat) : Z :=
  Math_round (progress_float (Z.of_nat completed) (Z.of_nat total)).

(** The percentage as the specification words it,
    round(100 * completed / total), rounded once and exactly: the floor of
    [100 * completed / total + 1/2]. *)
Definition exact_percent (completed total : nat) : Z :=
  ((200 * Z.of_nat completed + Z.of_nat total) / (2 * Z.of_nat total))%Z.

(** A significand of 53 digits, and the 2^52 that bounds the relative
    error of one rounding. *)
Definition normal (m : positive) : Prop := (2 ^ 52 <= Z.pos m < 2 ^ 53)%Z.

Definition two52 : Z := (2 ^ 52)%Z.

End JsNumber.

Import JsString JsNumber.

(** ** Exceptions and the trace of a handler

    [handleConvert] runs inside [try ... catch (err)]: every call that can
    throw or reject returns a [result], and the handler's visible effects
    (the React state setters, the calls on the archive, the download) are
    recorded in order as a trace of events. *)

(** A thrown value, of which the handler reads [err.message]. *)
Record Exn := { message : option JsString.t }.

Inductive result (A : Type) : Type :=
| Ok (a : A)
| Throw (e : Exn).

Arguments Ok {A} a.
Arguments Throw {A} e.

(** Modelled from the spec: the archive library ([JSZip]) is not part of
    the source.  Section 4.6: the archive under construction is the named
    text entries added so far, path and text of each in order of
    insertion. *)
Definition JSZip := list (JsString.t * JsString.t).

(** Modelled from the spec: [zip.file(path, content)] is the archive
    library's.  Section 4.6, [addEntry(path, content)]: inserts a named text
    entry, and silently overwrites the prior entry of the same path. *)
Fixpoint zip_file (path content : JsString.t) (zip : JSZip) : JSZip :=
  match zip with
  | [] => [(path, content)]
  | (p, c) :: rest =>
      if JsString.eqb p path then (p, content) :: rest
      else (p, c) :: zip_file path content rest
  end.

(** The archive after a sequence of [zip.file] calls, and the number of
    its entries at a path. *)
Definition apply_call (zip : JSZip) (call : JsString.t * JsString.t) : JSZip :=
  zip_file (fst call) (snd call) zip.

Definition archive_after (calls : list (JsString.t * JsString.t)) (zip : JSZip) : JSZip :=
  fold_left apply_call calls zip.

Definition count_path (path : JsString.t) (zip : JSZip) : nat :=
  List.length (filter (fun entry => JsString.eqb (fst entry) path) zip).

Definition paths (zip : JSZip) : list JsString.t := map fst zip.

Section Pipeline.

(** The collaborators of the handlers: the browser's [File] objects, the
    spreadsheet library and the archive library's finalisation. *)
Variable Data : Type.
Variable Sheet : Type.
Variable Blob : Type.

(** A [File] of the selection: its [name], its [webkitRelativePath] and
    what [file.arrayBuffer()] resolves to or rejects with. *)
Record File := {
  name : JsString.t;
  webkitRelativePath : JsString.t;
  arrayBuffer : result Data
}.

(** A decoded workbook: [SheetNames] and the [Sheets] object. *)
Record Workbook := {
  SheetNames : list JsString.t;
  Sheets : list (JsString.t * Sheet)
}.

(** [XLSX.read(data, { type: 'array' })] *)
Variable XLSX_read : Data -> result Workbook.
(** [XLSX.utils.sheet_to_csv(ws)]; [ws] is [undefined] ([None]) when the
    [Sheets] object has no such property. *)
Variable sheet_to_csv : option Sheet -> result JsString.t.
(** [zip.generateAsync({ type: 'blob' })] *)
Variable generateAsync : JSZip -> result Blob.

Inductive Event : Type :=
| SetIsConverting (b : bool)
| SetError (e : option JsString.t)
| SetSuccess (b : bool)
| SetProgress (p : Z)
| ReadFile (file : File)
| XlsxRead (data : Data)
| ZipFile (path csv : JsString.t)
| GenerateAsync (zip : JSZip)
| SaveAs (blob : Blob) (filename : JsString.t)
| ConsoleError (e : Exn).

(** A computation that emits events and then returns or throws. *)
Definition M (A : Type) : Type := (list Event * result A)%type.

Definition ret {A} (a : A) : M A := ([], Ok a).

Definition bind {A B} (m : M A) (f : A -> M B) : M B :=
  match m with
  | (tr, Ok a) => let (tr', r) := f a in (tr ++ tr', r)
  | (tr, Throw e) => (tr, Throw e)
  end.

Definition emit (ev : Event) : M unit := ([ev], Ok tt).

Definition lift {A} (r : result A) : M A := ([], r).

Notation "x <- m ;; k" := (bind m (fun x => k))
  (at level 61, m at next level, right associativity).
Notation "m ;;; k" := (bind m (fun _ => k))
  (at level 61, right associativity).

(** [workbook.Sheets[sheetName]] *)
Fixpoint get_sheet (sheets : list (JsString.t * Sheet)) (sheetName : JsString.t)
  : option Sheet :=
  match sheets with
  | [] => None
  | (k, v) :: rest => if JsString.eqb k sheetName then Some v else get_sheet rest sheetName
  end.

(** [pathParts[0] = v]: an assignment at index 0 (that would extend an
    empty array, which [split] never returns). *)
Definition set_first (v : JsString.t) (parts : list JsString.t) : list JsString.t :=
  match parts with
  | [] => [v]
  | _ :: rest => v :: rest
  end.

(** Lines 70 to 73: the relative path with its first segment replaced by
    the trimmed output folder name. *)
Definition newPathBase (outputFolderName : JsString.t) (file : File) : JsString.t :=
  let pathParts := split_slash (webkitRelativePath file) in
  let pathParts := set_first (trim outputFolderName) pathParts in
  join_slash pathParts.

(** The rewritten path without its extension: what [replace] keeps. *)
Definition stem (outputFolderName : JsString.t) (file : File) : JsString.t :=
  replace_ext (newPathBase outputFolderName file) [].

(** The paths that the sheets step hands over when no call throws, and
    those of a file, none when it cannot be read or decoded. *)
Definition planned (base : JsString.t) (workbook : Workbook) : list JsString.t :=
  match SheetNames workbook with
  | [_] => [replace_ext base (str ".csv")]
  | names => map (fun sheetName => replace_ext base (str "_" ++ sheetName ++ str ".csv")) names
  end.

Definition plan (outputFolderName : JsString.t) (file : File) : list JsString.t :=
  match arrayBuffer file with
  | Ok data =>
      match XLSX_read data with
      | Ok workbook => planned (newPathBase outputFolderName file) workbook
      | Throw _ => []
      end
  | Throw _ => []
  end.

(** The same with the texts: the pairs that lines 79 and 85 hand to
    [zip.file] for the sheets that the serialiser returns a text for (all
    of them in a step that does not throw). *)
Definition sheet_entry (base : JsString.t) (workbook : Workbook)
  (replacement sheetName : JsString.t) : list (JsString.t * JsString.t) :=
  match sheet_to_csv (get_sheet (Sheets workbook) sheetName) with
  | Ok csv => [(replace_ext base replacement, csv)]
  | Throw _ => []
  end.

Definition planned_entries (base : JsString.t) (workbook : Workbook)
  : list (JsString.t * JsString.t) :=
  match SheetNames workbook with
  | [sheetName] => sheet_entry base workbook (str ".csv") sheetName
  | names =>
      flat_map (fun sheetName =>
                  sheet_entry base workbook (str "_" ++ sheetName ++ str ".csv") sheetName)
               names
  end.

Definition plan_entries (outputFolderName : JsString.t) (file : File)
  : list (JsString.t * JsString.t) :=
  match arrayBuffer file with
  | Ok data =>
      match XLSX_read data with
      | Ok workbook => planned_entries (newPathBase outputFolderName file) workbook
      | Throw _ => []
      end
  | Throw _ => []
  end.

(** [zip.file(path, csv)] on the archive of the run. *)
Definition zip_add (path csv : JsString.t) (zip : JSZip) : M JSZip :=
  emit (ZipFile path csv) ;;; ret (zip_file path csv zip).

(** Lines 82 to 86: [workbook.SheetNames.forEach(sheetName => ...)]. *)
Fixpoint forEach_sheet (base : JsString.t) (sheets : list (JsString.t * Sheet))
  (names : list JsString.t) (zip : JSZip) : M JSZip :=
  match names with
  | [] => ret zip
  | sheetName :: rest =>
      csv <- lift (sheet_to_csv (get_sheet sheets sheetName)) ;;
      let newPathCsvSheet :=
        replace_ext base (str "_" ++ sheetName ++ str ".csv") in
      zip <- zip_add newPathCsvSheet csv zip ;;
      forEach_sheet base sheets rest zip
  end.

(** Lines 75 to 87: one entry for a workbook of exactly one sheet,
    [forEach] otherwise. *)
Definition sheets_step (base : JsString.t) (workbook : Workbook) (zip : JSZip)
  : M JSZip :=
  match SheetNames workbook with
  | [sheetName] =>
      csv <- lift (sheet_to_csv (get_sheet (Sheets workbook) sheetName)) ;;
      let newPathCsv := replace_ext base (str ".csv") in
      zip_add newPathCsv csv zip
  | names => forEach_sheet base (Sheets workbook) names zip
  end.

(** Lines 66 to 89: the body of the loop, for the file at index [i]. *)
Definition convert_file (outputFolderName : JsString.t) (total i : nat)
  (file : File) (zip : JSZip) : M JSZip :=
  emit (ReadFile file) ;;;
  data <- lift (arrayBuffer file) ;;
  emit (XlsxRead data) ;;;
  workbook <- lift (XLSX_read data) ;;
  let newPathBase := newPathBase outputFolderName file in
  zip <- sheets_step newPathBase workbook zip ;;
  emit (SetProgress (progress_value (i + 1) total)) ;;;
  ret zip.

(** Lines 65 to 90: [for (let i = 0; i < files.length; i++)], from index
    [i] on, [rest] being the files not yet visited. *)
Fixpoint convert_loop (outputFolderName : JsString.t) (total i : nat)
  (rest : list File) (zip : JSZip) : M JSZip :=
  match rest with
  | [] => ret zip
  | file :: rest' =>
      zip <- convert_file outputFolderName total i file zip ;;
      convert_loop outputFolderName total (S i) rest' zip
  end.

(** ** The state of the component *)

Record AppState := {
  files : list File;
  outputFolderName : JsString.t;
  isConverting : bool;
  progress : Z;
  error : option JsString.t;
  success : bool
}.

Definition initialState : AppState :=
  {| files := []; outputFolderName := str "converted_csvs";
     isConverting := false; progress := 0; error := None; success := false |}.

(** Lines 22 to 44.  [selected] is [event.target.files], [None] for
    [null]. *)
Definition is_excel (file : File) : bool :=
  let name := toLowerCase (name file) in
  endsWith name (str ".xlsx") || endsWith name (str ".xls").

Definition handleFolderSelect (st : AppState) (selected : option (list File))
  : AppState :=
  match selected with
  | None => st
  | Some selectedFiles =>
      let excelFiles := filter is_excel selectedFiles in
      let folder :=
        match excelFiles with
        | [] => outputFolderName st
        | first :: _ =>
            match split_slash (webkitRelativePath first) with
            | ((_ :: _) as rootFolder) :: _ => rootFolder ++ str "_csv"
            | _ => outputFolderName st
            end
        end in
      {| files := excelFiles; outputFolderName := folder;
         isConverting := isConverting st; progress := 0;
         error := None; success := false |}
  end.

(** [err.message || 'An error occurred during conversion.'] *)
Definition error_text (e : Exn) : JsString.t :=
  match message e with
  | Some ((_ :: _) as m) => m
  | _ => str "An error occurred during conversion."
  end.

(** Lines 62 to 94: the body of [try]. *)
Definition try_body (st : AppState) : M unit :=
  let zip : JSZip := [] in
  zip <- convert_loop (outputFolderName st) (List.length (files st)) 0 (files st) zip ;;
  emit (GenerateAsync zip) ;;;
  zipBlob <- lift (generateAsync zip) ;;
  emit (SaveAs zipBlob (trim (outputFolderName st) ++ str ".zip")) ;;;
  emit (SetSuccess true).

(** Lines 57 to 60: the run is marked as converting and the state of the
    previous run is reset. *)
Definition header : list Event :=
  [SetIsConverting true; SetError None; SetSuccess false; SetProgress 0].

(** Lines 46 to 101. *)
Definition handleConvert (st : AppState) : list Event :=
  match files st with
  | [] => [SetError (Some (str "Please select a folder containing Excel files first."))]
  | _ :: _ =>
      match trim (outputFolderName st) with
      | [] => [SetError (Some (str "Please provide an output folder name."))]
      | _ :: _ =>
          header
          ++ (let (tr, r) := try_body st in
              tr ++ match r with
                    | Ok _ => []
                    | Throw err => [ConsoleError err; SetError (Some (error_text err))]
                    end)
          ++ [SetIsConverting false]
      end
  end.

(** The state setters among the events, applied to the state. *)
Definition apply_event (st : AppState) (ev : Event) : AppState :=
  match ev with
  | SetIsConverting b =>
      {| files := files st; outputFolderName := outputFolderName st;
         isConverting := b; progress := progress st;
         error := error st; success := success st |}
  | SetError e =>
      {| files := files st; outputFolderName := outputFolderName st;
         isConverting := isConverting st; progress := progress st;
         error := e; success := success st |}
  | SetSuccess b =>
      {| files := files st; outputFolderName := outputFolderName st;
         isConverting := isConverting st; progress := progress st;
         error := error st; success := b |}
  | SetProgress p =>
      {| files := files st; outputFolderName := outputFolderName st;
         isConverting := isConverting st; progress := p;
         error := error st; success := success st |}
  | _ => st
  end.

Definition run (st : AppState) : AppState :=
  fold_left apply_event (handleConvert st) st.

(** What a trace shows: the progress values, the archive entries handed
    over, the files read and decoded, the finalisation and the download,
    and whether the run was started. *)
Definition progress_of (ev : Event) : option Z :=
  match ev with SetProgress p => Some p | _ => None end.

Definition zip_call_of (ev : Event) : option (JsString.t * JsString.t) :=
  match ev with ZipFile p c => Some (p, c) | _ => None end.

Fixpoint collect {A B} (f : A -> option B) (l : list A) : list B :=
  match l with
  | [] => []
  | a :: r => match f a with
              | Some b => b :: collect f r
              | None => collect f r
              end
  end.

Definition progress_seq (tr : list Event) : list Z := collect progress_of tr.
Definition zip_calls (tr : list Event) : list (JsString.t * JsString.t) :=
  collect zip_call_of tr.

Definition read_of (ev : Event) : option File :=
  match ev with ReadFile f => Some f | _ => None end.
Definition files_read (tr : list Event) : list File := collect read_of tr.

Definition finalize_of (ev : Event) : option JSZip :=
  match ev with GenerateAsync zip => Some zip | _ => None end.
Definition finalized (tr : list Event) : list JSZip := collect finalize_of tr.

Definition download_of (ev : Event) : option (Blob * JsString.t) :=
  match ev with SaveAs blob filename => Some (blob, filename) | _ => None end.
Definition downloads (tr : list Event) : list (Blob * JsString.t) :=
  collect download_of tr.

Definition is_zip_call (ev : Event) : bool :=
  match ev with ZipFile _ _ => true | _ => false end.
(** The events of the loop: reading, decoding, archive calls, progress. *)
Definition is_loop_event (ev : Event) : bool :=
  match ev with
  | ReadFile _ | XlsxRead _ | ZipFile _ _ | SetProgress _ => true
  | _ => false
  end.
Definition is_decode (ev : Event) : bool :=
  match ev with ReadFile _ | XlsxRead _ => true | _ => false end.
Definition is_download (ev : Event) : bool :=
  match ev with SaveAs _ _ => true | _ => false end.
Definition is_finalize (ev : Event) : bool :=
  match ev with GenerateAsync _ => true | _ => false end.
Definition is_running (ev : Event) : bool :=
  match ev with SetIsConverting true => true | _ => false end.

End Pipeline.

Arguments Build_File {Data} _ _ _.
Arguments Build_Workbook {Sheet} _ _.
Arguments SetIsConverting {Data Blob} b.
Arguments SetError {Data Blob} e.
Arguments SetSuccess {Data Blob} b.
Arguments SetProgress {Data Blob} p.
Arguments ReadFile {Data Blob} file.
Arguments XlsxRead {Data Blob} data.
Arguments ZipFile {Data Blob} path csv.
Arguments GenerateAsync {Data Blob} zip.
Arguments SaveAs {Data Blob} blob filename.
Arguments ConsoleError {Data Blob} e.
Arguments is_excel {Data} file.
Arguments is_running {Data Blob} ev.
Arguments is_decode {Data Blob} ev.
Arguments is_finalize {Data Blob} ev.
Arguments is_download {Data Blob} ev.
Arguments progress_of {Data Blob} ev.
Arguments read_of {Data Blob} ev.
Arguments finalize_of {Data Blob} ev.
Arguments download_of {Data Blob} ev.
Arguments is_zip_call {Data Blob} ev.
Arguments apply_event {Data Blob} st ev.
Arguments header {Data Blob}.
Arguments is_loop_event {Data Blob} ev.
Arguments zip_call_of {Data Blob} ev.
Arguments ret {Data Blob A} a.
Arguments bind {Data Blob A B} m f.
Arguments emit {Data Blob} ev.
Arguments lift {Data Blob A} r.
Arguments zip_add {Data Blob} path csv zip.
Arguments forEach_sheet {Data Sheet Blob} sheet_to_csv base sheets names zip.
Arguments sheets_step {Data Sheet Blob} sheet_to_csv base workbook zip.
Arguments stem {Data} outputFolderName file.
Arguments planned {Sheet} base workbook.
Arguments plan {Data Sheet} XLSX_read outputFolderName file.
Arguments sheet_entry {Sheet} sheet_to_csv base workbook replacement sheetName.
Arguments planned_entries {Sheet} sheet_to_csv base workbook.
Arguments plan_entries {Data Sheet} XLSX_read sheet_to_csv outputFolderName file.
Arguments convert_file {Data Sheet Blob} XLSX_read sheet_to_csv outputFolderName total i file zip.
Arguments convert_loop {Data Sheet Blob} XLSX_read sheet_to_csv outputFolderName total i rest zip.

(** ** What the component renders

    The conditions and lists of the returned JSX that depend on the
    state. *)

Section View.

Variable Data : Type.
Variable Blob : Type.

(** Line 236: [disabled={isConverting || files.length === 0 ||
    !outputFolderName.trim()}]. *)
Definition convert_disabled (st : AppState Data) : bool :=
  isConverting st
  || (List.length (files st) =? 0)
  || match trim (outputFolderName st) with [] => true | _ :: _ => false end.

(** Line 258: [error && ...]; [null] and the empty string are falsy. *)
Definition show_error (st : AppState Data) : bool :=
  match error st with
  | Some (_ :: _) => true
  | _ => false
  end.

(** Line 270: [success && !isConverting && ...]. *)
Definition show_success (st : AppState Data) : bool :=
  success st && negb (isConverting st).

(** Line 305: [files.slice(0, 50)], the files listed in the preview. *)
Definition preview_files (st : AppState Data) : list (File Data) :=
  firstn 50 (files st).

(** Lines 321 to 325: [files.length > 50 && ...], the count shown in
    "And [files.length - 50] more files...". *)
Definition more_files (st : AppState Data) : option nat :=
  if 50 <? List.length (files st) then Some (List.length (files st) - 50)
  else None.

(** The events that set [isConverting]. *)
Definition is_set_converting (ev : Event Data Blob) : bool :=
  match ev with SetIsConverting _ => true | _ => false end.

End View.

Arguments convert_disabled {Data} st.
Arguments show_error {Data} st.
Arguments show_success {Data} st.
Arguments preview_files {Data} st.
Arguments more_files {Data} st.
Arguments is_set_converting {Data Blob} ev.

(** ** The sheet serialiser

    [XLSX.utils.sheet_to_csv] belongs to the spreadsheet library, which is
    not part of the source; the handlers above take it as a parameter, and
    this module gives the serialiser that section 4.4 of the specification
    describes. *)

Module SheetSerializer.

(** Modelled from the spec: the sheet type of the spreadsheet library is
    not part of the source.  Section 4.4: a sheet is an ordered grid of
    cells, each rendered as its display text. *)
Definition Grid := list (list JsString.t).

Definition comma : ascii := ","%char.
Definition dquote : ascii := ascii_of_nat 34.
Definition LF : ascii := ascii_of_nat 10.
Definition CR : ascii := ascii_of_nat 13.

Definition special (c : ascii) : bool :=
  eqb_char c comma || eqb_char c dquote || eqb_char c LF || eqb_char c CR.

Definition needs_quotes (text : JsString.t) : bool := existsb special text.

Fixpoint double_quotes (text : JsString.t) : JsString.t :=
  match text with
  | [] => []
  | c :: r => if eqb_char c dquote then dquote :: dquote :: double_quotes r
              else c :: double_quotes r
  end.

(** Modelled from the spec: the cell rule of [XLSX.utils.sheet_to_csv],
    which is not part of the source.  Section 4.4: a cell's text is quoted
    (wrapped in double quotes, internal double quotes doubled) if it
    contains a comma, a double quote, or a line break; otherwise
    unquoted. *)
Definition csv_field (text : JsString.t) : JsString.t :=
  if needs_quotes text then dquote :: double_quotes text ++ [dquote] else text.

Fixpoint csv_row (cells : list JsString.t) : JsString.t :=
  match cells with
  | [] => []
  | [c] => csv_field c
  | c :: r => csv_field c ++ comma :: csv_row r
  end.

(** Modelled from the spec: [XLSX.utils.sheet_to_csv], which is not part
    of the source.  Section 4.4: rows in storage order, columns left to
    right separated by commas, every row ended by one line break. *)
Definition sheet_to_csv (g : Grid) : JsString.t :=
  flat_map (fun row => csv_row row ++ [LF]) g.

End SheetSerializer.

(** ** A concrete set of collaborators

    File contents that are either the sheets of a workbook, in order, or
    bytes that are no spreadsheet; a reader that fails on the latter; the
    serialiser above; an archive finalisation that returns the entries. *)

Module Sample.

Definition Sheet := SheetSerializer.Grid.
Definition Data := option (list (JsString.t * Sheet)).
Definition Blob := JSZip.

Definition parse_error : Exn := {| message := Some (str "Unsupported file") |}.

Definition XLSX_read (d : Data) : result (Workbook Sheet) :=
  match d with
  | Some sheets => Ok (Build_Workbook (map fst sheets) sheets)
  | None => Throw parse_error
  end.

Definition sheet_to_csv (ws : option Sheet) : result JsString.t :=
  match ws with
  | Some g => Ok (SheetSerializer.sheet_to_csv g)
  | None => Throw {| message := Some (str "Cannot read properties of undefined") |}
  end.

Definition generateAsync (zip : JSZip) : result Blob := Ok zip.

Definition grid1 : Sheet := [[str "a,b"; str "1"]; [str "x"; str "y"]].
Definition grid2 : Sheet := [[str "2"]].

Definition book (path : string) (sheets : list (JsString.t * Sheet)) : File Data :=
  let p := str path in
  Build_File (last (split_slash p) []) p (Ok (Some sheets)).

Definition corrupt (path : string) : File Data :=
  let p := str path in
  Build_File (last (split_slash p) []) p (Ok None).

Definition state_of (fs : list (File Data)) (root : string) : AppState Data :=
  {| files := fs; outputFolderName := str root; isConverting := false;
     progress := 0; error := None; success := false |}.

Definition convert (st : AppState Data) : list (Event Data Blob) :=
  handleConvert XLSX_read sheet_to_csv generateAsync st.

Definition after (st : AppState Data) : AppState Data :=
  run XLSX_read sheet_to_csv generateAsync st.

Definition report : File Data := book "A/B/report.xlsx" [(str "Sheet1", grid1)].
Definition data2 : File Data :=
  book "A/data.xlsx" [(str "Sheet1", grid1); (str "Sheet2", grid2)].
Definition dollars : File Data :=
  book "A/data.xlsx" [(str "a$", grid1); (str "a$$", grid2)].
Definition empty_book : File Data := book "A/empty.xlsx" [].
(** [count] single-sheet workbooks [A/x.xlsx], [A/xx.xlsx], ... *)
Definition numbered (i : nat) : File Data :=
  let leaf := repeat "x"%char (S i) ++ str ".xlsx" in
  Build_File leaf (str "A/" ++ leaf) (Ok (Some [(str "Sheet1", grid1)])).

Definition many (count : nat) : list (File Data) := map numbered (seq 0 count).
Definition data_xlsx : File Data := book "A/data.xlsx" [(str "Sheet1", grid1)].
Definition data_xls : File Data := book "A/data.xls" [(str "Sheet1", grid2)].

(** A file that the browser cannot read, a file picked without its folder,
    and a finalisation that is rejected without a message. *)
Definition read_error : Exn := {| message := Some (str "The file could not be read") |}.

Definition unreadable (path : string) : File Data :=
  let p := str path in
  Build_File (last (split_slash p) []) p (Throw read_error).

Definition bare : File Data := book "data.xlsx" [(str "Sheet1", grid1)].
Definition notes : File Data := book "Docs/notes.txt" [].

Definition finalize_error : Exn := {| message := None |}.
Definition generateAsync_fails (zip : JSZip) : result Blob := Throw finalize_error.

(** An archive library in the environment of one run: the blob holds the
    entries and the time at which the run was made, as the modification
    dates of a zip container do when the caller gives none. *)
Definition DatedBlob : Type := (Z * JSZip)%type.
Definition generateAsync_at (now : Z) (zip : JSZip) : result DatedBlob := Ok (now, zip).

End Sample.

(** * Properties *)

(** ** Strings *)

Module JsStringFacts.

Lemma eqb_char_true (a b : ascii) : eqb_char a b = true <-> a = b.
Proof. unfold eqb_char. apply Ascii.eqb_eq. Qed.

Lemma eqb_char_refl (a : ascii) : eqb_char a a = true.
Proof. apply eqb_char_true. reflexivity. Qed.

Lemma eqb_true (s1 s2 : JsString.t) : JsString.eqb s1 s2 = true <-> s1 = s2.
Proof.
  revert s2. induction s1 as [|a r1 IH]; intros [|b r2]; simpl; split;
    try discriminate; try reflexivity.
  - intros H. apply andb_true_iff in H as [Hc Hr].
    apply eqb_char_true in Hc. apply IH in Hr. congruence.
  - intros H. injection H as -> ->. rewrite eqb_char_refl. simpl.
    apply IH. reflexivity.
Qed.

Lemma eqb_refl (s : JsString.t) : JsString.eqb s s = true.
Proof. apply eqb_true. reflexivity. Qed.

Lemma eqb_false (s1 s2 : JsString.t) : JsString.eqb s1 s2 = false <-> s1 <> s2.
Proof.
  split.
  - intros H E. apply eqb_true in E. congruence.
  - intros H. destruct (JsString.eqb s1 s2) eqn:E; [|reflexivity].
    apply eqb_true in E. contradiction.
Qed.

(** [endsWith] holds exactly of the strings that are some text followed by
    the suffix. *)
Lemma endsWith_spec (s suf : JsString.t) :
  endsWith s suf = true <-> exists p, s = p ++ suf.
Proof.
  unfold endsWith. rewrite andb_true_iff, Nat.leb_le, eqb_true. split.
  - intros [Hlen Hsk]. exists (firstn (List.length s - List.length suf) s).
    rewrite <- (firstn_skipn (List.length s - List.length suf) s) at 1.
    f_equal. exact Hsk.
  - intros [p ->]. rewrite length_app. split; [lia|].
    replace (List.length p + List.length suf - List.length suf)
      with (List.length p + 0) by lia.
    rewrite skipn_app, Nat.add_0_r, skipn_all.
    replace (List.length p - List.length p) with 0 by lia. reflexivity.
Qed.

(** *** The regular expression and the replacement *)

Lemma has_dot_not_ext (p ext : JsString.t) :
  forallb ext_char (p ++ dot :: ext) = false.
Proof.
  rewrite forallb_app. cbn [forallb].
  replace (ext_char dot) with false by reflexivity. apply andb_false_r.
Qed.

Lemma match_ext_here_dot (ext : JsString.t) :
  ext <> [] -> forallb ext_char ext = true -> match_ext_here (dot :: ext) = true.
Proof.
  intros Hne Hext. destruct ext as [|c r]; [contradiction|].
  unfold match_ext_here. rewrite eqb_char_refl, Hext. reflexivity.
Qed.

Lemma match_ext_here_before (c : ascii) (p ext : JsString.t) :
  match_ext_here (c :: p ++ dot :: ext) = false.
Proof.
  unfold match_ext_here.
  destruct (p ++ dot :: ext) as [|x r] eqn:E.
  - destruct p; discriminate.
  - rewrite <- E, has_dot_not_ext. apply andb_false_r.
Qed.

(** The match is at the last dot: everything before it is kept, and the
    replacement is expanded with the extension as the matched text. *)
Lemma replace_ext_from_found (repl ext : JsString.t) :
  ext <> [] -> forallb ext_char ext = true ->
  forall p before,
    replace_ext_from before (p ++ dot :: ext) repl =
    rev before ++ p ++ getSubstitution (dot :: ext) (rev before ++ p) [] repl.
Proof.
  intros Hne Hext. induction p as [|c p IH]; intros before.
  - cbn [app]. rewrite app_nil_r.
    destruct ext as [|x r]; [contradiction|].
    cbn [replace_ext_from]. rewrite (match_ext_here_dot (ext := x :: r)) by assumption.
    reflexivity.
  - cbn [app replace_ext_from]. rewrite match_ext_here_before, IH.
    cbn [rev]. rewrite <- !app_assoc. reflexivity.
Qed.

Lemma replace_ext_found (repl ext p : JsString.t) :
  ext <> [] -> forallb ext_char ext = true ->
  replace_ext (p ++ dot :: ext) repl = p ++ getSubstitution (dot :: ext) p [] repl.
Proof.
  intros Hne Hext. unfold replace_ext.
  rewrite replace_ext_from_found by assumption. reflexivity.
Qed.

Lemma getSubstitution_plain (matched before after repl : JsString.t) :
  no_dollar repl = true -> getSubstitution matched before after repl = repl.
Proof.
  unfold no_dollar. induction repl as [|c r IH]; simpl; [reflexivity|].
  intros H. apply andb_true_iff in H as [Hc Hr].
  destruct (eqb_char c dollar); [discriminate|]. rewrite IH by assumption.
  reflexivity.
Qed.

(** *** Splitting and joining a path *)

Lemma split_slash_not_nil (s : JsString.t) : split_slash s <> [].
Proof.
  induction s as [|c r IH]; simpl; [discriminate|].
  destruct (eqb_char c slash); [discriminate|].
  destruct (split_slash r); discriminate.
Qed.

Lemma join_slash_cons (a : JsString.t) (l : list JsString.t) :
  l <> [] -> join_slash (a :: l) = a ++ slash :: join_slash l.
Proof. destruct l; [contradiction | reflexivity]. Qed.

Lemma join_slash_cons_char (c : ascii) (seg : JsString.t) (segs : list JsString.t) :
  join_slash ((c :: seg) :: segs) = c :: join_slash (seg :: segs).
Proof. destruct segs; reflexivity. Qed.

Lemma join_split (s : JsString.t) : join_slash (split_slash s) = s.
Proof.
  induction s as [|c r IH]; [reflexivity|].
  cbn [split_slash]. destruct (eqb_char c slash) eqn:Ec.
  - apply eqb_char_true in Ec. subst c.
    rewrite join_slash_cons by apply split_slash_not_nil. rewrite IH. reflexivity.
  - pose proof (split_slash_not_nil r) as Hne.
    destruct (split_slash r) as [|seg segs]; [contradiction|].
    rewrite join_slash_cons_char, IH. reflexivity.
Qed.

Lemma split_slash_first (a rest : JsString.t) :
  no_slash a = true -> split_slash (a ++ slash :: rest) = a :: split_slash rest.
Proof.
  unfold no_slash. induction a as [|c a IH]; intros H.
  - cbn [app split_slash]. rewrite eqb_char_refl. reflexivity.
  - simpl in H. apply andb_true_iff in H as [Hc Ha].
    cbn [app split_slash]. destruct (eqb_char c slash); [discriminate|].
    rewrite IH by assumption. reflexivity.
Qed.

Lemma join_slash_snoc (mids : list JsString.t) (leaf : JsString.t) :
  join_slash (mids ++ [leaf]) = folders mids ++ leaf.
Proof.
  induction mids as [|m mids IH]; [reflexivity|].
  cbn [app folders flat_map]. rewrite join_slash_cons.
  - rewrite IH. unfold folders. rewrite <- !app_assoc. reflexivity.
  - destruct mids; discriminate.
Qed.

(** *** Prefixes and texts that are apart *)

Lemma prefixb_spec (p s : JsString.t) :
  prefixb p s = true <-> exists r, s = p ++ r.
Proof.
  revert s. induction p as [|a p IH]; intros s; cbn [prefixb].
  - split; [intros _; exists s; reflexivity | reflexivity].
  - destruct s as [|b s].
    + split; [discriminate | intros [r Hr]; discriminate].
    + rewrite andb_true_iff, eqb_char_true, IH. split.
      * intros [-> [r ->]]. exists r. reflexivity.
      * intros [r Hr]. injection Hr as -> ->. split; [reflexivity | exists r; reflexivity].
Qed.

Lemma apartb_spec (s1 s2 : JsString.t) :
  apartb s1 s2 = true ->
  s1 <> s2 /\ (forall r, s2 <> s1 ++ underscore :: r) /\
  (forall r, s1 <> s2 ++ underscore :: r).
Proof.
  unfold apartb. rewrite !andb_true_iff, !negb_true_iff. intros [[H1 H2] H3].
  split; [apply eqb_false; exact H1|]. split; intros r Hr.
  - assert (prefixb (s1 ++ [underscore]) s2 = true); [|congruence].
    apply prefixb_spec. exists r. rewrite Hr, <- app_assoc. reflexivity.
  - assert (prefixb (s2 ++ [underscore]) s1 = true); [|congruence].
    apply prefixb_spec. exists r. rewrite Hr, <- app_assoc. reflexivity.
Qed.

Lemma nodupb_spec (l : list JsString.t) : nodupb l = true -> NoDup l.
Proof.
  induction l as [|a l IH]; cbn [nodupb]; [constructor|].
  rewrite andb_true_iff, negb_true_iff. intros [Ha Hl].
  constructor; [|apply IH; exact Hl].
  intros Hin. assert (existsb (JsString.eqb a) l = true); [|congruence].
  apply existsb_exists. exists a. split; [exact Hin | apply eqb_refl].
Qed.

(** Stems that are apart never meet, whatever the endings. *)
Lemma apart_endings (s1 s2 x1 x2 : JsString.t) :
  apartb s1 s2 = true -> ending x1 -> ending x2 -> s1 ++ x1 <> s2 ++ x2.
Proof.
  intros Hap H1 H2 Heq.
  destruct (apartb_spec s1 s2 Hap) as (Hne & Hp1 & Hp2).
  assert (Hcut : forall a b n m : JsString.t,
             a ++ n ++ str ".csv" = b ++ m ++ str ".csv" -> a ++ n = b ++ m).
  { intros a b n m H. rewrite !app_assoc in H. apply app_inv_tail in H. exact H. }
  assert (Hcmp : forall a b n m : JsString.t,
             a <> b -> (forall r, b <> a ++ underscore :: r) ->
             (forall r, a <> b ++ underscore :: r) ->
             a ++ underscore :: n = b ++ underscore :: m -> False).
  { intros a b n m Hab Hb Ha H. apply app_eq_app in H.
    destruct H as [l [[Hl1 Hl2]|[Hl1 Hl2]]].
    - destruct l as [|c l]; [rewrite app_nil_r in Hl1; contradiction|].
      injection Hl2 as <- _. exact (Ha l Hl1).
    - destruct l as [|c l]; [rewrite app_nil_r in Hl1; congruence|].
      injection Hl2 as <- _. exact (Hb l Hl1). }
  destruct H1 as [->|[n1 ->]]; destruct H2 as [->|[n2 ->]].
  - apply app_inv_tail in Heq. contradiction.
  - apply (Hcut s1 s2 [] (underscore :: n2)) in Heq.
    rewrite app_nil_r in Heq. exact (Hp2 n2 Heq).
  - apply (Hcut s1 s2 (underscore :: n1) []) in Heq.
    rewrite app_nil_r in Heq. symmetry in Heq. exact (Hp1 n1 Heq).
  - apply (Hcut s1 s2 (underscore :: n1) (underscore :: n2)) in Heq.
    exact (Hcmp s1 s2 n1 n2 Hne Hp1 Hp2 Heq).
Qed.

(** *** Lower case and the extension of a spreadsheet name *)

Lemma lower_char_dot (c : ascii) : lower_char c = dot -> c = dot.
Proof.
  destruct c as [b0 b1 b2 b3 b4 b5 b6 b7].
  destruct b0, b1, b2, b3, b4, b5, b6, b7; vm_compute; intros H;
    first [reflexivity | discriminate H].
Qed.

Lemma lower_char_ext (c : ascii) : ext_char (lower_char c) = true -> ext_char c = true.
Proof.
  destruct c as [b0 b1 b2 b3 b4 b5 b6 b7].
  destruct b0, b1, b2, b3, b4, b5, b6, b7; vm_compute; intros H;
    first [reflexivity | discriminate H].
Qed.

Lemma lower_ext (ext : JsString.t) :
  forallb ext_char (toLowerCase ext) = true -> forallb ext_char ext = true.
Proof.
  unfold toLowerCase. induction ext as [|c r IH]; cbn [map forallb]; [reflexivity|].
  rewrite !andb_true_iff. intros [Hc Hr]. split; [apply lower_char_ext; exact Hc | auto].
Qed.

(** A name that ends, lowercased, with a dot and an extension, ends with
    a dot and as many code units, none of them a slash or a dot. *)
Lemma lower_suffix (s p ext : JsString.t) :
  toLowerCase s = p ++ dot :: ext -> forallb ext_char ext = true ->
  exists p' ext', s = p' ++ dot :: ext' /\
    List.length ext' = List.length ext /\ forallb ext_char ext' = true.
Proof.
  unfold toLowerCase. intros H Hext. apply map_eq_app in H.
  destruct H as (p' & r & -> & _ & Hr).
  destruct r as [|c ext']; [discriminate|]. cbn [map] in Hr.
  injection Hr as Hc Hr. apply lower_char_dot in Hc. subst c.
  exists p', ext'. split; [reflexivity|]. split.
  - rewrite <- Hr. symmetry. apply length_map.
  - apply lower_ext. unfold toLowerCase. rewrite Hr. exact Hext.
Qed.

(** The first segment of a path that has a folder part. *)
Lemma first_segment (dir : JsString.t) :
  exists a x, no_slash a = true /\
    forall y, dir ++ slash :: y = a ++ slash :: x ++ y.
Proof.
  induction dir as [|c dir IH].
  - exists [], []. split; reflexivity.
  - destruct (eqb_char c slash) eqn:Ec.
    + apply eqb_char_true in Ec. subst c. exists [], (dir ++ [slash]).
      split; [reflexivity|]. intros y. cbn [app]. rewrite <- app_assoc. reflexivity.
    + destruct IH as (a & x & Ha & Hx). exists (c :: a), x. split.
      * unfold no_slash in *. cbn [forallb]. rewrite Ec, Ha. reflexivity.
      * intros y. cbn [app]. rewrite Hx. reflexivity.
Qed.

End JsStringFacts.

(** ** More on strings: trimming, segments, paths without extension *)

Module JsStringLaws.

Import JsStringFacts.
Local Unset Implicit Arguments.

(** *** [trim] *)

Lemma trimStart_split (s : JsString.t) :
  exists p, s = p ++ trimStart s /\ forallb is_space p = true.
Proof.
  induction s as [|c r IH]; [exists []; split; reflexivity|].
  cbn [trimStart]. destruct (is_space c) eqn:Ec.
  - destruct IH as (p & Hp & Hsp). exists (c :: p). split.
    + cbn [app]. f_equal. exact Hp.
    + cbn [forallb]. rewrite Ec, Hsp. reflexivity.
  - exists []. split; reflexivity.
Qed.

Lemma trimStart_head (s : JsString.t) (c : ascii) (r : JsString.t) :
  trimStart s = c :: r -> is_space c = false.
Proof.
  induction s as [|x s IH]; [discriminate|].
  cbn [trimStart]. destruct (is_space x) eqn:Ex; [exact IH|].
  intros H. injection H as <- _. exact Ex.
Qed.

Lemma trimStart_fixed (c : ascii) (r : JsString.t) :
  is_space c = false -> trimStart (c :: r) = c :: r.
Proof. intros H. cbn [trimStart]. rewrite H. reflexivity. Qed.

Lemma trimStart_blank (s : JsString.t) :
  forallb is_space s = true -> trimStart s = [].
Proof.
  induction s as [|c r IH]; [reflexivity|].
  cbn [forallb trimStart]. intros H. apply andb_true_iff in H as [Hc Hr].
  rewrite Hc. apply IH. exact Hr.
Qed.

Lemma forallb_rev (f : ascii -> bool) (l : JsString.t) :
  forallb f l = true -> forallb f (rev l) = true.
Proof.
  rewrite !forallb_forall. intros H x Hx. apply H. apply in_rev. exact Hx.
Qed.

Lemma trimEnd_split (s : JsString.t) :
  exists q, s = trimEnd s ++ q /\ forallb is_space q = true.
Proof.
  unfold trimEnd. destruct (trimStart_split (rev s)) as (p & Hp & Hsp).
  exists (rev p). split; [|apply forallb_rev; exact Hsp].
  rewrite <- rev_app_distr, <- Hp, rev_involutive. reflexivity.
Qed.

(** A text that starts with a code unit that is no white space keeps it
    under [trimEnd]. *)
Lemma trimEnd_head (c : ascii) (r : JsString.t) :
  is_space c = false -> exists r', trimEnd (c :: r) = c :: r'.
Proof.
  intros Hc. destruct (trimEnd_split (c :: r)) as (q & Hq & Hsq).
  destruct (trimEnd (c :: r)) as [|c' r'].
  - cbn [app] in Hq. subst q. cbn [forallb] in Hsq. rewrite Hc in Hsq. discriminate.
  - cbn [app] in Hq. injection Hq as <- _. exists r'. reflexivity.
Qed.

Lemma trimEnd_fixed (s : JsString.t) (c : ascii) (r : JsString.t) :
  rev s = c :: r -> is_space c = false -> trimEnd s = s.
Proof.
  intros Hr Hc. unfold trimEnd. rewrite Hr, (@trimStart_fixed c r Hc), <- Hr.
  apply rev_involutive.
Qed.

(** *** Segments *)

Lemma split_slash_app (x y : JsString.t) :
  split_slash (x ++ slash :: y) = split_slash x ++ split_slash y.
Proof.
  induction x as [|c x IH].
  - cbn [app split_slash]. rewrite eqb_char_refl. reflexivity.
  - cbn [app split_slash]. destruct (eqb_char c slash); rewrite IH.
    + reflexivity.
    + pose proof (split_slash_not_nil x) as Hne.
      destruct (split_slash x) as [|seg segs]; [contradiction | reflexivity].
Qed.

Lemma split_slash_no_slash (s : JsString.t) :
  no_slash s = true -> split_slash s = [s].
Proof.
  unfold no_slash. induction s as [|c r IH]; [reflexivity|].
  cbn [forallb split_slash]. intros H. apply andb_true_iff in H as [Hc Hr].
  destruct (eqb_char c slash); [discriminate|]. rewrite (IH Hr). reflexivity.
Qed.

Lemma split_slash_segments (s : JsString.t) :
  Forall (fun seg => no_slash seg = true) (split_slash s).
Proof.
  induction s as [|c r IH]; [repeat constructor|].
  cbn [split_slash]. destruct (eqb_char c slash) eqn:Ec.
  - constructor; [reflexivity | exact IH].
  - pose proof (split_slash_not_nil r) as Hne.
    destruct (split_slash r) as [|seg segs]; [contradiction|].
    inversion IH as [|x l Hseg Hsegs]. subst. constructor; [|exact Hsegs].
    unfold no_slash in *. cbn [forallb]. rewrite Ec, Hseg. reflexivity.
Qed.

Lemma split_join (l : list JsString.t) :
  l <> [] -> Forall (fun seg => no_slash seg = true) l ->
  split_slash (join_slash l) = l.
Proof.
  induction l as [|p l IH]; [contradiction|]. intros _ Hall.
  inversion Hall as [|x l' Hp Hl]. subst.
  destruct l as [|p2 ps].
  - cbn [join_slash]. apply split_slash_no_slash. exact Hp.
  - rewrite join_slash_cons by discriminate.
    rewrite (@split_slash_first p (join_slash (p2 :: ps)) Hp).
    f_equal. apply IH; [discriminate | exact Hl].
Qed.

(** *** Paths without an extension *)

Lemma match_ext_here_true (s : JsString.t) :
  match_ext_here s = true ->
  exists ext, s = dot :: ext /\ ext <> [] /\ forallb ext_char ext = true.
Proof.
  destruct s as [|c [|x r]]; try discriminate. cbn [match_ext_here].
  intros H. apply andb_true_iff in H as [Hc Hext].
  apply eqb_char_true in Hc. subst c.
  exists (x :: r). split; [reflexivity|]. split; [discriminate | exact Hext].
Qed.

Lemma replace_ext_from_none (repl : JsString.t) (s : JsString.t) :
  has_ext s = false ->
  forall before, replace_ext_from before s repl = rev before ++ s.
Proof.
  induction s as [|c r IH]; intros H before.
  - cbn [has_ext] in H. apply orb_false_iff in H as [Hm _].
    cbn [replace_ext_from]. rewrite Hm, app_nil_r. reflexivity.
  - cbn [has_ext] in H. apply orb_false_iff in H as [Hm Hr].
    cbn [replace_ext_from]. rewrite Hm, (IH Hr). cbn [rev].
    rewrite <- app_assoc. reflexivity.
Qed.

Lemma has_ext_found (p ext : JsString.t) :
  ext <> [] -> forallb ext_char ext = true -> has_ext (p ++ dot :: ext) = true.
Proof.
  intros Hne Hext. induction p as [|c p IH].
  - cbn [app has_ext]. rewrite (@match_ext_here_dot ext Hne Hext). reflexivity.
  - cbn [app has_ext]. rewrite IH. apply orb_true_r.
Qed.

Lemma has_ext_inv (s : JsString.t) :
  has_ext s = true ->
  exists p ext, s = p ++ dot :: ext /\ ext <> [] /\ forallb ext_char ext = true.
Proof.
  induction s as [|c r IH]; cbn [has_ext]; intros H.
  - rewrite orb_false_r in H. discriminate H.
  - apply orb_true_iff in H as [H|H].
    + destruct (@match_ext_here_true _ H) as (ext & Hs & Hne & Hext). rewrite Hs.
      exists [], ext. auto.
    + destruct (IH H) as (p & ext & -> & Hne & Hext).
      exists (c :: p), ext. auto.
Qed.

Lemma trim_nil_blank (s : JsString.t) :
  trim s = [] -> forallb is_space s = true.
Proof.
  intros Ht. destruct (trimStart_split s) as (p & Hp & Hsp).
  destruct (trimEnd_split (trimStart s)) as (q & Hq & Hsq).
  unfold trim in Ht. rewrite Ht in Hq. cbn [app] in Hq.
  rewrite Hp, Hq, forallb_app, Hsp, Hsq. reflexivity.
Qed.

(** *** What the handlers rely on *)

(** [trim] removes white space at both ends and nothing else: the text is
    white space, the trimmed text, white space; the trimmed text neither
    starts nor ends with white space; trimming twice is trimming once; and
    the trimmed text is empty exactly when the text is all white space. *)
Theorem trim_strips_white_space (s : JsString.t) :
  (exists p q, s = p ++ trim s ++ q /\
     forallb is_space p = true /\ forallb is_space q = true) /\
  (forall c r, trim s = c :: r -> is_space c = false) /\
  (forall c r, rev (trim s) = c :: r -> is_space c = false) /\
  trim (trim s) = trim s /\
  (trim s = [] <-> forallb is_space s = true).
Proof.
  destruct (trimStart_split s) as (p & Hp & Hsp).
  destruct (trimEnd_split (trimStart s)) as (q & Hq & Hsq).
  assert (Hhead : forall c r, trim s = c :: r -> is_space c = false).
  { intros c r H. unfold trim in H.
    destruct (trimStart s) as [|c0 r0] eqn:Et; [discriminate H|].
    pose proof (trimStart_head s _ _ Et) as Hc0.
    destruct (trimEnd_head c0 r0 Hc0) as (r' & Hr'). rewrite Hr' in H.
    injection H as <- _. exact Hc0. }
  assert (Hlast : forall c r, rev (trim s) = c :: r -> is_space c = false).
  { intros c r H. unfold trim, trimEnd in H. rewrite rev_involutive in H.
    exact (trimStart_head _ _ _ H). }
  split; [|split; [exact Hhead | split; [exact Hlast | split]]].
  - exists p, q. unfold trim. rewrite <- Hq. auto.
  - destruct (trim s) as [|c r] eqn:Et; [reflexivity|].
    unfold trim at 1. rewrite (@trimStart_fixed c r (Hhead c r eq_refl)).
    destruct (rev (c :: r)) as [|c' r'] eqn:Er.
    + apply (f_equal (@rev ascii)) in Er. rewrite rev_involutive in Er. discriminate Er.
    + apply (@trimEnd_fixed (c :: r) c' r' Er). apply (Hlast c' r'). reflexivity.
  - split.
    + intros Ht. unfold trim in Ht. rewrite Ht in Hq. cbn [app] in Hq.
      rewrite Hp, Hq, forallb_app, Hsp, Hsq. reflexivity.
    + intros Hs. unfold trim. rewrite (trimStart_blank s Hs). reflexivity.
Qed.

(** A leaf without a dot has no extension to replace, also when a folder
    name holds a dot: the path is returned as it is. *)
Theorem replace_ext_needs_dot_in_leaf (dir leaf repl : JsString.t) :
  no_dot leaf = true ->
  replace_ext (dir ++ slash :: leaf) repl = dir ++ slash :: leaf.
Proof.
  intros Hleaf. unfold replace_ext.
  rewrite replace_ext_from_none; [reflexivity|].
  destruct (has_ext (dir ++ slash :: leaf)) eqn:E; [exfalso | reflexivity].
  destruct (has_ext_inv _ E) as (p & ext & Heq & Hne & Hext).
  apply app_eq_app in Heq. destruct Heq as [l [[H1 H2]|[H1 H2]]].
  - destruct l as [|c l]; cbn [app] in H2.
    + injection H2 as H2 _. unfold slash, dot in H2. discriminate H2.
    + injection H2 as _ H2. rewrite H2, forallb_app in Hext. cbn [forallb] in Hext.
      replace (ext_char slash) with false in Hext by reflexivity.
      rewrite andb_false_r in Hext. discriminate Hext.
  - destruct l as [|c l]; cbn [app] in H2.
    + injection H2 as H2 _. unfold slash, dot in H2. discriminate H2.
    + injection H2 as _ H2. rewrite H2 in Hleaf.
      unfold no_dot in Hleaf. rewrite forallb_app in Hleaf. cbn [forallb] in Hleaf.
      rewrite eqb_char_refl in Hleaf. cbn [negb andb] in Hleaf.
      rewrite andb_false_r in Hleaf. discriminate Hleaf.
Qed.

End JsStringLaws.

(** ** Numbers *)

Module JsNumberFacts.

Local Open Scope Z_scope.
Local Unset Implicit Arguments.

Lemma digits_log2 (p : positive) : Z.pos (digits2_pos p) = Z.log2 (Z.pos p) + 1.
Proof.
  induction p as [p IH|p IH|]; cbn [digits2_pos]; try reflexivity.
  - rewrite Pos2Z.inj_succ, IH.
    change (Z.pos p~1) with (2 * Z.pos p + 1).
    rewrite Z.log2_succ_double by lia. lia.
  - rewrite Pos2Z.inj_succ, IH.
    change (Z.pos p~0) with (2 * Z.pos p).
    rewrite Z.log2_double by lia. lia.
Qed.

Lemma digits_bounds (p : positive) (d : Z) :
  0 < d -> (Z.pos (digits2_pos p) = d <-> 2 ^ (d - 1) <= Z.pos p < 2 ^ d).
Proof.
  intros Hd. rewrite digits_log2. split.
  - intros H. replace d with (Z.succ (Z.log2 (Z.pos p))) at 2 by lia.
    replace (d - 1) with (Z.log2 (Z.pos p)) by lia.
    apply Z.log2_spec. lia.
  - intros H. rewrite (Z.log2_unique (Z.pos p) (d - 1)); [lia | lia |].
    replace (Z.succ (d - 1)) with d by lia. exact H.
Qed.

Lemma shr_1_m (mrs : shr_record) :
  0 <= shr_m mrs -> shr_m (shr_1 mrs) = shr_m mrs / 2.
Proof.
  destruct mrs as [m r s]. cbn [shr_m shr_1]. intros H.
  rewrite <- Z.div2_div.
  destruct m as [|[p|p|]|p]; try reflexivity. lia.
Qed.

Lemma iter_pos_shr_m (n : positive) :
  forall mrs, 0 <= shr_m mrs ->
    shr_m (iter_pos shr_1 n mrs) = shr_m mrs / 2 ^ Z.pos n.
Proof.
  assert (Hnn : forall mrs, 0 <= shr_m mrs -> 0 <= shr_m (shr_1 mrs)).
  { intros mrs H. rewrite shr_1_m by exact H. apply Z.div_pos; lia. }
  induction n as [n IH|n IH|]; intros mrs H; cbn [iter_pos].
  - assert (Hp : 0 < 2 ^ Z.pos n) by (apply Z.pow_pos_nonneg; lia).
    assert (H1 : 0 <= shr_m (shr_1 mrs)) by auto.
    assert (H2 : 0 <= shr_m (iter_pos shr_1 n (shr_1 mrs))).
    { rewrite IH by auto. apply Z.div_pos; auto. }
    rewrite IH, IH, shr_1_m by auto.
    rewrite !Z.div_div by lia.
    f_equal. replace (Z.pos n~1) with (1 + Z.pos n + Z.pos n) by lia.
    rewrite !Z.pow_add_r by lia. lia.
  - assert (Hp : 0 < 2 ^ Z.pos n) by (apply Z.pow_pos_nonneg; lia).
    assert (H2 : 0 <= shr_m (iter_pos shr_1 n mrs)).
    { rewrite IH by auto. apply Z.div_pos; auto. }
    rewrite IH, IH by auto.
    rewrite !Z.div_div by lia.
    f_equal. replace (Z.pos n~0) with (Z.pos n + Z.pos n) by lia.
    rewrite !Z.pow_add_r by lia. lia.
  - rewrite shr_1_m by exact H. reflexivity.
Qed.

Lemma shr_record_of_loc_m (m : Z) (l : location) : shr_m (shr_record_of_loc m l) = m.
Proof. destruct l as [|[]]; reflexivity. Qed.

(** Shifting right by [k] places. *)
Lemma shr_m_spec (m : Z) (l : location) (e k : Z) :
  0 <= m -> 0 <= k ->
  shr_m (fst (shr (shr_record_of_loc m l) e k)) = m / 2 ^ k /\
  snd (shr (shr_record_of_loc m l) e k) = e + k.
Proof.
  intros Hm Hk. unfold shr. destruct k as [|p|p]; cbn [fst snd].
  - rewrite shr_record_of_loc_m, Z.div_1_r. lia.
  - rewrite iter_pos_shr_m by (rewrite shr_record_of_loc_m; exact Hm).
    rewrite shr_record_of_loc_m. auto.
  - lia.
Qed.

Lemma round_nearest_even_near (m : Z) (l : location) :
  round_nearest_even m l = m \/ round_nearest_even m l = m + 1.
Proof.
  destruct l as [|[]]; cbn [round_nearest_even]; auto.
  destruct (Z.even m); auto.
Qed.

Lemma fexp_eq (e : Z) : fexp prec emax e = Z.max (e - 53) (-1074).
Proof. reflexivity. Qed.

Lemma Zdigits2_bounds (m d : Z) :
  0 < d -> 2 ^ (d - 1) <= m < 2 ^ d -> Zdigits2 m = d.
Proof.
  intros Hd H. assert (0 < 2 ^ (d - 1)) by (apply Z.pow_pos_nonneg; lia).
  destruct m as [|p|p]; try lia. cbn [Zdigits2]. apply digits_bounds; assumption.
Qed.

(** The first step of rounding: a significand of [53 + k] digits is
    shifted right by [k] places. *)
Lemma shr_fexp_spec (mx ex : Z) (lx : location) (k : Z) :
  0 <= k -> 2 ^ (52 + k) <= mx < 2 ^ (53 + k) -> -1074 <= ex + k ->
  shr_m (fst (shr_fexp prec emax mx ex lx)) = mx / 2 ^ k /\
  snd (shr_fexp prec emax mx ex lx) = ex + k.
Proof.
  intros Hk Hm He. unfold shr_fexp.
  rewrite (Zdigits2_bounds mx (53 + k)), fexp_eq.
  - replace (Z.max (53 + k + ex - 53) (-1074) - ex) with k by lia.
    apply shr_m_spec; [|exact Hk].
    assert (0 < 2 ^ (52 + k)) by (apply Z.pow_pos_nonneg; lia). lia.
  - lia.
  - replace (53 + k - 1) with (52 + k) by lia. exact Hm.
Qed.

(** Rounding a significand of [53 + k] digits: the result is finite and
    normal, and is the significand shifted right by [k] places or the next
    one. *)
Lemma binary_round_aux_spec (mx ex : Z) (lx : location) (k : Z) :
  0 <= k -> 2 ^ (52 + k) <= mx < 2 ^ (53 + k) ->
  -1074 <= ex + k -> ex + k + 1 <= 971 ->
  exists m e,
    binary_round_aux prec emax false mx ex lx = S754_finite false m e /\
    2 ^ 52 <= Z.pos m < 2 ^ 53 /\
    ((e = ex + k /\ mx / 2 ^ k <= Z.pos m <= mx / 2 ^ k + 1) \/
     (e = ex + k + 1 /\ Z.pos m = 2 ^ 52 /\ mx / 2 ^ k + 1 = 2 ^ 53)).
Proof.
  intros Hk Hm He1 He2.
  assert (Hpk : 0 < 2 ^ k) by (apply Z.pow_pos_nonneg; lia).
  assert (Hmm : 2 ^ 52 <= mx / 2 ^ k < 2 ^ 53).
  { split.
    - apply Z.div_le_lower_bound; [exact Hpk|].
      rewrite Z.mul_comm, <- Z.pow_add_r by lia. apply Hm.
    - apply Z.div_lt_upper_bound; [exact Hpk|].
      rewrite <- Z.pow_add_r by lia. replace (k + 53) with (53 + k) by lia. apply Hm. }
  unfold binary_round_aux.
  destruct (shr_fexp_spec mx ex lx k Hk Hm He1) as [H1 H2].
  destruct (shr_fexp prec emax mx ex lx) as [mrs' e'] eqn:E1. cbn [fst snd] in H1, H2.
  subst e'. rewrite H1.
  set (mm := mx / 2 ^ k) in *.
  set (m1 := round_nearest_even mm (loc_of_shr_record mrs')).
  assert (Hm1 : m1 = mm \/ m1 = mm + 1) by apply round_nearest_even_near.
  destruct (Z.ltb_spec m1 (2 ^ 53)) as [Hlt|Hge].
  - (* no carry *)
    assert (Hb : 2 ^ (52 + 0) <= m1 < 2 ^ (53 + 0)).
    { change (52 + 0) with 52. change (53 + 0) with 53. lia. }
    destruct (shr_fexp_spec m1 (ex + k) loc_Exact 0 ltac:(lia) Hb ltac:(lia)) as [H3 H4].
    destruct (shr_fexp prec emax m1 (ex + k) loc_Exact) as [mrs'' e''] eqn:E2.
    cbn [fst snd] in H3, H4. rewrite H3, Z.div_1_r. subst e''.
    destruct m1 as [|p|p] eqn:Ep; try lia.
    replace (ex + k + 0 <=? emax - prec) with true
      by (symmetry; apply Z.leb_le; unfold emax, prec; lia).
    exists p, (ex + k + 0). split; [reflexivity|]. split; [lia|].
    left. split; lia.
  - (* the carry makes a power of two *)
    assert (Hm1' : m1 = 2 ^ 53) by lia.
    assert (Hb : 2 ^ (52 + 1) <= m1 < 2 ^ (53 + 1)).
    { rewrite Hm1'. change (52 + 1) with 53. change (53 + 1) with 54. lia. }
    destruct (shr_fexp_spec m1 (ex + k) loc_Exact 1 ltac:(lia) Hb ltac:(lia)) as [H3 H4].
    destruct (shr_fexp prec emax m1 (ex + k) loc_Exact) as [mrs'' e''] eqn:E2.
    cbn [fst snd] in H3, H4. rewrite H3, Hm1'. subst e''.
    change (2 ^ 53 / 2 ^ 1) with (Z.pos (2 ^ 52)).
    replace (ex + k + 1 <=? emax - prec) with true
      by (symmetry; apply Z.leb_le; unfold emax, prec; lia).
    exists (2 ^ 52)%positive, (ex + k + 1). split; [reflexivity|]. split; [lia|].
    right. split; [reflexivity|]. split; [reflexivity | lia].
Qed.

(** A normal significand with an exact location is kept by rounding. *)
Lemma binary_round_aux_exact (p : positive) (ex : Z) :
  normal p -> -1074 <= ex <= 971 ->
  binary_round_aux prec emax false (Z.pos p) ex loc_Exact = S754_finite false p ex.
Proof.
  intros Hn He. unfold binary_round_aux, shr_fexp.
  rewrite (Zdigits2_bounds (Z.pos p) 53), fexp_eq by (unfold normal in Hn; lia).
  replace (Z.max (53 + ex - 53) (-1074) - ex) with 0 by lia.
  cbn [shr shr_record_of_loc shr_m loc_of_shr_record round_nearest_even].
  rewrite (Zdigits2_bounds (Z.pos p) 53), fexp_eq by (unfold normal in Hn; lia).
  replace (Z.max (53 + ex - 53) (-1074) - ex) with 0 by lia.
  cbn [shr shr_record_of_loc shr_m].
  replace (ex <=? emax - prec) with true
    by (symmetry; apply Z.leb_le; unfold emax, prec; lia).
  reflexivity.
Qed.

Lemma iter_xO (p c : positive) : Z.pos (Pos.iter xO p c) = Z.pos p * 2 ^ Z.pos c.
Proof.
  induction c as [|c IH] using Pos.peano_ind.
  - cbn [Pos.iter]. lia.
  - rewrite Pos.iter_succ, Pos2Z.inj_xO, IH, Pos2Z.inj_succ, Z.pow_succ_r by lia. lia.
Qed.

(** A positive integer below 2^53 is a number exactly: its significand is
    the integer shifted left up to 53 digits. *)
Lemma of_Z_spec (z : Z) :
  0 < z < 2 ^ 53 ->
  exists m e,
    of_Z z = S754_finite false m e /\ normal m /\ -52 <= e <= 0 /\
    Z.pos m = z * 2 ^ (- e).
Proof.
  intros Hz. destruct z as [|p|p]; try lia.
  unfold of_Z, binary_normalize, binary_round.
  set (d := Z.pos (digits2_pos p)).
  assert (Hd : 2 ^ (d - 1) <= Z.pos p < 2 ^ d) by (apply digits_bounds; [lia | reflexivity]).
  assert (Hd53 : 1 <= d <= 53).
  { split; [unfold d; lia|].
    destruct (Z.le_gt_cases d 53) as [H|H]; [exact H|].
    assert (2 ^ 53 <= 2 ^ (d - 1)) by (apply Z.pow_le_mono_r; lia). lia. }
  rewrite fexp_eq. replace (Z.max (d + 0 - 53) (-1074)) with (d - 53) by lia.
  unfold shl_align.
  destruct (d - 53 - 0) as [|c|c] eqn:Ec; try lia.
  - assert (Hn : normal p).
    { unfold normal. replace d with 53 in Hd by lia. exact Hd. }
    rewrite binary_round_aux_exact by (auto; lia).
    exists p, 0. split; [reflexivity|]. split; [exact Hn|]. split; [lia|].
    change (2 ^ (- 0)) with 1. lia.
  - assert (Hc : Z.pos c = 53 - d) by lia.
    assert (Hm : Z.pos (Pos.iter xO p c) = Z.pos p * 2 ^ (53 - d)).
    { rewrite iter_xO, Hc. reflexivity. }
    assert (Hn : normal (Pos.iter xO p c)).
    { unfold normal. rewrite Hm. split.
      - replace 52 with ((d - 1) + (53 - d)) by lia. rewrite Z.pow_add_r by lia.
        apply Z.mul_le_mono_nonneg_r; [apply Z.pow_nonneg; lia | lia].
      - replace 53 with (d + (53 - d)) at 2 by lia. rewrite Z.pow_add_r by lia.
        apply Z.mul_lt_mono_pos_r; [apply Z.pow_pos_nonneg; lia | lia]. }
    rewrite binary_round_aux_exact by (auto; lia).
    exists (Pos.iter xO p c), (d - 53). split; [reflexivity|]. split; [exact Hn|].
    split; [lia|]. rewrite Hm. f_equal. f_equal. lia.
Qed.

Lemma new_location_zero (nb : Z) : new_location nb 0 = loc_Exact.
Proof. unfold new_location. destruct (Z.even nb); reflexivity. Qed.

(** The quotient, the exponent and the location that division hands to
    rounding. *)
Lemma SFdiv_core_spec (ma mn : positive) (ea en : Z) :
  normal ma -> normal mn -> -1021 <= ea - en ->
  SFdiv_core_binary prec emax (Z.pos ma) ea (Z.pos mn) en =
    (Z.pos ma * 2 ^ 53 / Z.pos mn, ea - en - 53,
     new_location (Z.pos mn) ((Z.pos ma * 2 ^ 53) mod Z.pos mn)).
Proof.
  intros Ha Hn He. unfold SFdiv_core_binary.
  rewrite (Zdigits2_bounds (Z.pos ma) 53), (Zdigits2_bounds (Z.pos mn) 53), fexp_eq
    by (unfold normal in *; lia).
  replace (Z.min (Z.max (53 + ea - (53 + en) - 53) (-1074)) (ea - en))
    with (ea - en - 53) by lia.
  replace (ea - en - (ea - en - 53)) with 53 by lia.
  rewrite Z.shiftl_mul_pow2 by lia.
  unfold Z.div, Z.modulo.
  destruct (Z.div_eucl (Z.pos ma * 2 ^ 53) (Z.pos mn)) as [q r].
  reflexivity.
Qed.

(** Division of two normal positive numbers: the result is normal, and
    within one part in 2^52 of the quotient. *)
Lemma div_spec (ma mn : positive) (ea en : Z) :
  normal ma -> normal mn -> -60 <= ea <= 0 -> -60 <= en <= 0 ->
  exists m c,
    SFdiv prec emax (S754_finite false ma ea) (S754_finite false mn en) =
      S754_finite false m (ea - en - c) /\
    normal m /\ 51 <= c <= 53 /\
    two52 * (Z.pos ma * 2 ^ c) <= (two52 + 1) * (Z.pos m * Z.pos mn) /\
    two52 * (Z.pos m * Z.pos mn) <= (two52 + 1) * (Z.pos ma * 2 ^ c).
Proof.
  intros Ha Hn Hea Hen. unfold SFdiv.
  rewrite (SFdiv_core_spec ma mn ea en Ha Hn ltac:(lia)).
  cbn [xorb].
  set (l := new_location (Z.pos mn) ((Z.pos ma * 2 ^ 53) mod Z.pos mn)).
  set (T := Z.pos ma * 2 ^ 53). set (q := T / Z.pos mn).
  assert (Hq : q * Z.pos mn <= T < (q + 1) * Z.pos mn).
  { pose proof (Z.div_mod T (Z.pos mn) ltac:(lia)) as H1.
    pose proof (Z.mod_pos_bound T (Z.pos mn) ltac:(lia)) as H2.
    fold q in H1. lia. }
  assert (Hqb : 2 ^ 52 <= q < 2 ^ 54).
  { unfold normal in *. split.
    - apply Z.div_le_lower_bound; [lia|]. unfold T.
      change (2 ^ 53) with (2 * 2 ^ 52). nia.
    - apply Z.div_lt_upper_bound; [lia|]. unfold T.
      change (2 ^ 54) with (2 ^ 53 * 2). change (2 ^ 53) with 9007199254740992 in *.
      change (2 ^ 52) with 4503599627370496 in *. nia. }
  destruct (Z.ltb_spec q (2 ^ 53)) as [Hlt|Hge].
  - assert (Hb : 2 ^ (52 + 0) <= q < 2 ^ (53 + 0)).
    { change (52 + 0) with 52. change (53 + 0) with 53. lia. }
    destruct (binary_round_aux_spec q (ea - en - 53) l 0 ltac:(lia) Hb ltac:(lia) ltac:(lia))
      as (m & e & Hr & Hm & Hcase).
    rewrite Hr. rewrite Z.div_1_r in Hcase.
    destruct Hcase as [[He Hmq]|[He [Hm52 Hq53]]].
    + exists m, 53. replace (ea - en - 53) with e by lia.
      split; [reflexivity|]. split; [exact Hm|]. split; [lia|].
      fold T. unfold two52. change (2 ^ 52) with 4503599627370496 in *. nia.
    + exists m, 52. replace (ea - en - 52) with e by lia.
      split; [reflexivity|]. split; [exact Hm|]. split; [lia|].
      replace (Z.pos ma * 2 ^ 52) with (T / 2)
        by (unfold T; change (2 ^ 53) with (2 ^ 52 * 2); rewrite Z.mul_assoc, Z.div_mul; lia).
      assert (HT : T = 2 * (T / 2)).
      { unfold T. change (2 ^ 53) with (2 ^ 52 * 2).
        rewrite Z.mul_assoc, Z.div_mul by lia. lia. }
      unfold two52. change (2 ^ 52) with 4503599627370496 in *.
      change (2 ^ 53) with 9007199254740992 in *. nia.
  - assert (Hb : 2 ^ (52 + 1) <= q < 2 ^ (53 + 1)).
    { change (52 + 1) with 53. change (53 + 1) with 54. lia. }
    destruct (binary_round_aux_spec q (ea - en - 53) l 1 ltac:(lia) Hb ltac:(lia) ltac:(lia))
      as (m & e & Hr & Hm & Hcase).
    rewrite Hr. change (2 ^ 1) with 2 in Hcase.
    set (h := q / 2) in *.
    assert (Hh : 2 * h <= q <= 2 * h + 1).
    { pose proof (Z.div_mod q 2 ltac:(lia)) as H1.
      pose proof (Z.mod_pos_bound q 2 ltac:(lia)) as H2. fold h in H1. lia. }
    set (T2 := Z.pos ma * 2 ^ 52).
    assert (HT : T = 2 * T2).
    { unfold T, T2. change (2 ^ 53) with (2 ^ 52 * 2). lia. }
    assert (H1 : h * Z.pos mn <= T2) by nia.
    assert (H2 : T2 < (h + 1) * Z.pos mn) by nia.
    destruct Hcase as [[He Hmq]|[He [Hm52 Hq53]]].
    + exists m, 52. replace (ea - en - 52) with e by lia.
      split; [reflexivity|]. split; [exact Hm|]. split; [lia|].
      fold T2. unfold two52, normal in *. change (2 ^ 52) with 4503599627370496 in *. nia.
    + exists m, 51. replace (ea - en - 51) with e by lia.
      split; [reflexivity|]. split; [exact Hm|]. split; [lia|].
      set (T3 := Z.pos ma * 2 ^ 51).
      assert (HT3 : T2 = 2 * T3).
      { unfold T2, T3. change (2 ^ 52) with (2 ^ 51 * 2). lia. }
      unfold two52, normal in *. change (2 ^ 52) with 4503599627370496 in *.
      change (2 ^ 53) with 9007199254740992 in *. nia.
Qed.

Lemma hundred_eq : hundred = S754_finite false 7036874417766400 (-46).
Proof. reflexivity. Qed.

Lemma div_mod_bounds (a b : Z) : 0 < b -> (a / b) * b <= a < (a / b + 1) * b.
Proof.
  intros Hb. pose proof (Z.div_mod a b ltac:(lia)) as H1.
  pose proof (Z.mod_pos_bound a b Hb) as H2. lia.
Qed.

(** Multiplication of a normal positive number by 100: the result is
    normal, and within one part in 2^52 of the product. *)
Lemma mul_hundred_spec (m : positive) (e : Z) :
  normal m -> -200 <= e <= 0 ->
  exists m' c,
    SFmul prec emax (S754_finite false m e) hundred = S754_finite false m' (e + c) /\
    normal m' /\ 6 <= c <= 8 /\
    two52 * (100 * Z.pos m) <= (two52 + 1) * (Z.pos m' * 2 ^ c) /\
    two52 * (Z.pos m' * 2 ^ c) <= (two52 + 1) * (100 * Z.pos m).
Proof.
  intros Hm He. rewrite hundred_eq. unfold SFmul. cbn [xorb].
  rewrite Pos2Z.inj_mul.
  set (P := Z.pos m * 7036874417766400).
  assert (HP : P = 100 * Z.pos m * 2 ^ 46) by (unfold P; change (2 ^ 46) with 70368744177664; lia).
  assert (HPb : 2 ^ 104 <= P < 2 ^ 106).
  { unfold normal in Hm. unfold P.
    change (2 ^ 52) with 4503599627370496 in Hm.
    change (2 ^ 53) with 9007199254740992 in Hm.
    change (2 ^ 104) with 20282409603651670423947251286016.
    change (2 ^ 106) with 81129638414606681695789005144064. lia. }
  destruct (Z.ltb_spec P (2 ^ 105)) as [Hlt|Hge].
  - assert (Hb : 2 ^ (52 + 52) <= P < 2 ^ (53 + 52)).
    { change (52 + 52) with 104. change (53 + 52) with 105. lia. }
    destruct (binary_round_aux_spec P (e + -46) loc_Exact 52
                ltac:(lia) Hb ltac:(lia) ltac:(lia)) as (m' & e' & Hr & Hm' & Hcase).
    rewrite Hr.
    pose proof (div_mod_bounds P (2 ^ 52) ltac:(lia)) as Hmm.
    set (mm := P / 2 ^ 52) in *.
    unfold two52, normal in *.
    change (2 ^ 46) with 70368744177664 in *.
    change (2 ^ 52) with 4503599627370496 in *.
    change (2 ^ 53) with 9007199254740992 in *.
    destruct Hcase as [[He' Hmq]|[He' [Hm52 Hq53]]].
    + exists m', 6. replace (e + 6) with e' by lia.
      split; [reflexivity|]. split; [exact Hm'|]. split; [lia|].
      change (2 ^ 6) with 64. lia.
    + exists m', 7. replace (e + 7) with e' by lia.
      split; [reflexivity|]. split; [exact Hm'|]. split; [lia|].
      change (2 ^ 7) with 128. lia.
  - assert (Hb : 2 ^ (52 + 53) <= P < 2 ^ (53 + 53)).
    { change (52 + 53) with 105. change (53 + 53) with 106. lia. }
    destruct (binary_round_aux_spec P (e + -46) loc_Exact 53
                ltac:(lia) Hb ltac:(lia) ltac:(lia)) as (m' & e' & Hr & Hm' & Hcase).
    rewrite Hr.
    pose proof (div_mod_bounds P (2 ^ 53) ltac:(lia)) as Hmm.
    set (mm := P / 2 ^ 53) in *.
    unfold two52, normal in *.
    change (2 ^ 46) with 70368744177664 in *.
    change (2 ^ 52) with 4503599627370496 in *.
    change (2 ^ 53) with 9007199254740992 in *.
    destruct Hcase as [[He' Hmq]|[He' [Hm52 Hq53]]].
    + exists m', 7. replace (e + 7) with e' by lia.
      split; [reflexivity|]. split; [exact Hm'|]. split; [lia|].
      change (2 ^ 7) with 128. lia.
    + exists m', 8. replace (e + 8) with e' by lia.
      split; [reflexivity|]. split; [exact Hm'|]. split; [lia|].
      change (2 ^ 8) with 256. lia.
Qed.

(** The number that is rounded to the progress value: positive, below
    2^-43 in exponent, and within two parts in 2^52 of [100 * a / n]. *)
Lemma progress_float_spec (a n : Z) :
  0 < a <= n -> n < 2 ^ 53 ->
  exists m e,
    progress_float a n = S754_finite false m e /\ e < 0 /\
    two52 * two52 * (Z.pos m * n) <= (two52 + 1) * (two52 + 1) * (100 * a * 2 ^ (- e)) /\
    two52 * two52 * (100 * a * 2 ^ (- e)) <= (two52 + 1) * (two52 + 1) * (Z.pos m * n).
Proof.
  intros Ha Hn. unfold progress_float, mul, div.
  destruct (of_Z_spec a ltac:(lia)) as (ma & ea & -> & Hma & Hea & Hva).
  destruct (of_Z_spec n ltac:(lia)) as (mn & en & -> & Hmn & Hen & Hvn).
  assert (Hle : ea <= en).
  { destruct (Z.le_gt_cases ea en) as [H|H]; [exact H|]. exfalso.
    assert (H2 : 2 * 2 ^ (- ea) <= 2 ^ (- en)).
    { rewrite <- Z.pow_succ_r by lia. apply Z.pow_le_mono_r; lia. }
    assert (0 < 2 ^ (- ea)) by (apply Z.pow_pos_nonneg; lia).
    unfold normal in *. change (2 ^ 53) with (2 * 2 ^ 52) in *. nia. }
  destruct (div_spec ma mn ea en Hma Hmn ltac:(lia) ltac:(lia))
    as (m1 & c1 & -> & Hm1 & Hc1 & Hd1 & Hd2).
  destruct (mul_hundred_spec m1 (ea - en - c1) Hm1 ltac:(lia))
    as (m2 & c2 & -> & Hm2 & Hc2 & Hx1 & Hx2).
  exists m2, (ea - en - c1 + c2). split; [reflexivity|]. split; [lia|].
  set (D := 2 ^ (- (ea - en - c1 + c2))).
  set (W := 2 ^ c2 * 2 ^ (- en)).
  assert (HW : 0 < W).
  { unfold W. apply Z.mul_pos_pos; apply Z.pow_pos_nonneg; lia. }
  assert (Hpow : 2 ^ (- ea) * 2 ^ c1 = D * W).
  { unfold D, W. rewrite Z.mul_assoc, <- !Z.pow_add_r by lia. f_equal. lia. }
  assert (HE : 0 < two52) by reflexivity.
  set (u := Z.pos m2 * 2 ^ c2) in *.
  set (t := Z.pos ma * 2 ^ c1) in *.
  assert (Ht : t = a * (D * W)) by (unfold t; rewrite Hva, <- Hpow; ring).
  assert (Hun : u * Z.pos mn = Z.pos m2 * n * W) by (unfold u, W; rewrite Hvn; ring).
  assert (G1 : two52 * two52 * (u * Z.pos mn) <= (two52 + 1) * (two52 + 1) * (100 * t)).
  { assert (S1 : two52 * u * Z.pos mn <= (two52 + 1) * (100 * Z.pos m1) * Z.pos mn)
      by (apply Z.mul_le_mono_nonneg_r; lia).
    clear - S1 Hd2. unfold two52 in *. change (2 ^ 52) with 4503599627370496 in *. lia. }
  assert (G2 : two52 * two52 * (100 * t) <= (two52 + 1) * (two52 + 1) * (u * Z.pos mn)).
  { assert (S1 : two52 * (100 * Z.pos m1) * Z.pos mn <= (two52 + 1) * u * Z.pos mn)
      by (apply Z.mul_le_mono_nonneg_r; lia).
    clear - S1 Hd1. unfold two52 in *. change (2 ^ 52) with 4503599627370496 in *. lia. }
  rewrite Hun, Ht in G1, G2.
  split.
  - apply (Z.mul_le_mono_pos_r _ _ W HW).
    replace (two52 * two52 * (Z.pos m2 * n) * W) with (two52 * two52 * (Z.pos m2 * n * W)) by ring.
    replace ((two52 + 1) * (two52 + 1) * (100 * a * D) * W)
      with ((two52 + 1) * (two52 + 1) * (100 * (a * (D * W)))) by ring.
    exact G1.
  - apply (Z.mul_le_mono_pos_r _ _ W HW).
    replace ((two52 + 1) * (two52 + 1) * (Z.pos m2 * n) * W)
      with ((two52 + 1) * (two52 + 1) * (Z.pos m2 * n * W)) by ring.
    replace (two52 * two52 * (100 * a * D) * W) with (two52 * two52 * (100 * (a * (D * W)))) by ring.
    exact G2.
Qed.

Lemma Math_round_finite (m : positive) (e : Z) :
  e < 0 ->
  Math_round (S754_finite false m e) = (2 * Z.pos m + 2 ^ (- e)) / (2 * 2 ^ (- e)).
Proof.
  intros He. unfold Math_round.
  destruct (Z.leb_spec 0 e) as [H|H]; [lia | reflexivity].
Qed.

(** [Math.round] keeps the order of two positive numbers with negative
    exponents. *)
Lemma Math_round_mono (m1 m2 : positive) (e1 e2 : Z) :
  e1 < 0 -> e2 < 0 ->
  Z.pos m1 * 2 ^ (- e2) <= Z.pos m2 * 2 ^ (- e1) ->
  Math_round (S754_finite false m1 e1) <= Math_round (S754_finite false m2 e2).
Proof.
  intros H1 H2 Hle. rewrite !Math_round_finite by assumption.
  set (A := 2 ^ (- e1)) in *. set (B := 2 ^ (- e2)) in *.
  assert (HA : 0 < A) by (apply Z.pow_pos_nonneg; lia).
  assert (HB : 0 < B) by (apply Z.pow_pos_nonneg; lia).
  apply Z.div_le_lower_bound; [lia|].
  pose proof (div_mod_bounds (2 * Z.pos m1 + A) (2 * A) ltac:(lia)) as [Hu _].
  set (u := (2 * Z.pos m1 + A) / (2 * A)) in *.
  apply (Z.mul_le_mono_pos_r _ _ A HA).
  assert (Hub : u * (2 * A) * B <= (2 * Z.pos m1 + A) * B)
    by (apply Z.mul_le_mono_nonneg_r; lia).
  replace (2 * B * u * A) with (u * (2 * A) * B) by ring.
  replace ((2 * Z.pos m2 + B) * A) with (2 * (Z.pos m2 * A) + A * B) by ring.
  replace ((2 * Z.pos m1 + A) * B) with (2 * (Z.pos m1 * B) + A * B) in Hub by ring.
  lia.
Qed.

(** The progress values do not decrease with the completed count. *)
Lemma progress_float_mono (a b n : Z) :
  0 < a <= b -> b <= n -> n < 2 ^ 32 ->
  Math_round (progress_float a n) <= Math_round (progress_float b n).
Proof.
  intros Hab Hbn Hn.
  destruct (Z.eq_dec a b) as [->|Hne]; [lia|].
  assert (Hn53 : n < 2 ^ 53).
  { assert (2 ^ 32 < 2 ^ 53) by reflexivity. lia. }
  destruct (progress_float_spec a n ltac:(lia) Hn53) as (ma & ea & -> & Hea & Ha1 & _).
  destruct (progress_float_spec b n ltac:(lia) Hn53) as (mb & eb & -> & Heb & _ & Hb2).
  apply Math_round_mono; try assumption.
  set (Da := 2 ^ (- ea)) in *. set (Db := 2 ^ (- eb)) in *.
  assert (HDa : 0 < Da) by (apply Z.pow_pos_nonneg; lia).
  assert (HDb : 0 < Db) by (apply Z.pow_pos_nonneg; lia).
  assert (HE : 0 < two52) by reflexivity.
  assert (HK : (two52 + 1) * (two52 + 1) * ((two52 + 1) * (two52 + 1)) * a <= two52 * two52 * (two52 * two52) * b).
  { unfold two52. change (2 ^ 52) with 4503599627370496.
    change (2 ^ 32) with 4294967296 in Hn. lia. }
  set (C := two52 * two52 * (two52 * two52) * (100 * b * n)).
  assert (HC : 0 < C).
  { unfold C. repeat apply Z.mul_pos_pos; lia. }
  apply (Z.mul_le_mono_pos_r _ _ C HC).
  assert (S1 : (two52 * two52 * (Z.pos ma * n)) * (two52 * two52 * (100 * b * Db)) <=
               ((two52 + 1) * (two52 + 1) * (100 * a * Da)) * ((two52 + 1) * (two52 + 1) * (Z.pos mb * n))).
  { apply Z.mul_le_mono_nonneg; try assumption;
      repeat apply Z.mul_nonneg_nonneg; lia. }
  assert (S2 : ((two52 + 1) * (two52 + 1) * ((two52 + 1) * (two52 + 1)) * a) * (100 * n * (Z.pos mb * Da)) <=
               (two52 * two52 * (two52 * two52) * b) * (100 * n * (Z.pos mb * Da))).
  { apply Z.mul_le_mono_nonneg_r; [|exact HK].
    repeat apply Z.mul_nonneg_nonneg; lia. }
  replace (Z.pos ma * Db * C)
    with ((two52 * two52 * (Z.pos ma * n)) * (two52 * two52 * (100 * b * Db))) by (unfold C; ring).
  replace (Z.pos mb * Da * C)
    with ((two52 * two52 * (two52 * two52) * b) * (100 * n * (Z.pos mb * Da))) by (unfold C; ring).
  eapply Z.le_trans; [exact S1|].
  eapply Z.le_trans; [|exact S2].
  apply Z.eq_le_incl. ring.
Qed.

(** With more than 200 files the first progress value is 0. *)
Lemma progress_float_first_zero (n : Z) :
  200 < n -> n < 2 ^ 32 -> Math_round (progress_float 1 n) = 0.
Proof.
  intros Hn Hn32.
  assert (Hn53 : n < 2 ^ 53).
  { assert (2 ^ 32 < 2 ^ 53) by reflexivity. lia. }
  destruct (progress_float_spec 1 n ltac:(lia) Hn53) as (m & e & -> & He & H1 & _).
  rewrite Math_round_finite by exact He.
  set (D := 2 ^ (- e)) in *.
  assert (HD : 0 < D) by (apply Z.pow_pos_nonneg; lia).
  assert (Hmn : Z.pos m * 201 <= Z.pos m * n) by (apply Z.mul_le_mono_nonneg_l; lia).
  apply Z.div_small. split; [lia|].
  unfold two52 in H1. change (2 ^ 52) with 4503599627370496 in H1. lia.
Qed.

(** The last progress value is 100. *)
Lemma progress_float_last (n : Z) :
  0 < n -> n < 2 ^ 53 -> Math_round (progress_float n n) = 100.
Proof.
  intros Hn Hn53. unfold progress_float, mul, div.
  destruct (of_Z_spec n ltac:(lia)) as (m & e & -> & Hm & He & _).
  unfold SFdiv. rewrite (SFdiv_core_spec m m e e Hm Hm ltac:(lia)).
  rewrite (Z.mul_comm (Z.pos m) (2 ^ 53)).
  rewrite Z.mod_mul, new_location_zero, Z.div_mul by lia.
  replace (e - e - 53) with (-53) by lia.
  reflexivity.
Qed.

(** Up to 200 files the first progress value is positive. *)
Lemma progress_float_first_pos (n : nat) :
  (1 <= n <= 200)%nat -> 0 < Math_round (progress_float 1 (Z.of_nat n)).
Proof.
  intros Hn.
  assert (H : forallb (fun k => 0 <? Math_round (progress_float 1 (Z.of_nat k)))
                (seq 1 200) = true) by (vm_compute; reflexivity).
  rewrite forallb_forall in H. apply Z.ltb_lt. apply H. apply in_seq. lia.
Qed.

End JsNumberFacts.

Module JsNumberLaws.

Local Open Scope Z_scope.
Local Unset Implicit Arguments.

(** The number that is rounded to the progress value rounds to an
    integer that is not negative. *)
Lemma progress_float_nonneg (a n : Z) :
  0 < a <= n -> n < 2 ^ 53 -> 0 <= Math_round (progress_float a n).
Proof.
  intros Ha Hn.
  destruct (JsNumberFacts.progress_float_spec a n Ha Hn) as (m & e & -> & He & _).
  rewrite JsNumberFacts.Math_round_finite by exact He.
  assert (0 < 2 ^ (- e)) by (apply Z.pow_pos_nonneg; lia).
  apply Z.div_pos; lia.
Qed.

End JsNumberLaws.

(** ** The sheet serialiser *)

(** ** The archive *)

Module ArchiveFacts.

Import JsStringFacts.

Lemma paths_zip_file (path content : JsString.t) (zip : JSZip) :
  paths (zip_file path content zip) =
  if existsb (fun p => JsString.eqb p path) (paths zip) then paths zip
  else paths zip ++ [path].
Proof.
  unfold paths. induction zip as [|[p c] zip IH]; [reflexivity|].
  cbn [zip_file map fst existsb].
  destruct (JsString.eqb p path) eqn:E; cbn [orb map fst].
  - reflexivity.
  - rewrite IH. destruct (existsb _ (map fst zip)); reflexivity.
Qed.

Lemma existsb_eqb_In (path : JsString.t) (l : list JsString.t) :
  existsb (fun p => JsString.eqb p path) l = true <-> In path l.
Proof.
  rewrite existsb_exists. split.
  - intros (p & Hin & Heq). apply eqb_true in Heq. subst. exact Hin.
  - intros Hin. exists path. split; [exact Hin | apply eqb_refl].
Qed.

Lemma zip_file_has_path (path content : JsString.t) (zip : JSZip) :
  In path (paths (zip_file path content zip)).
Proof.
  rewrite paths_zip_file.
  destruct (existsb _ (paths zip)) eqn:E.
  - apply existsb_eqb_In. exact E.
  - apply in_or_app. right. left. reflexivity.
Qed.

Lemma zip_file_keeps_paths (path content p : JsString.t) (zip : JSZip) :
  In p (paths zip) -> In p (paths (zip_file path content zip)).
Proof.
  intros H. rewrite paths_zip_file.
  destruct (existsb _ (paths zip)); [exact H|].
  apply in_or_app. left. exact H.
Qed.

Lemma zip_file_NoDup (path content : JsString.t) (zip : JSZip) :
  NoDup (paths zip) -> NoDup (paths (zip_file path content zip)).
Proof.
  intros H. rewrite paths_zip_file.
  destruct (existsb _ (paths zip)) eqn:E; [exact H|].
  apply NoDup_app; [exact H | repeat constructor; intros [] | ].
  intros x Hx [<-|[]].
  apply existsb_eqb_In in Hx. congruence.
Qed.

Lemma archive_after_keeps_paths (calls : list (JsString.t * JsString.t)) :
  forall zip p, In p (paths zip) -> In p (paths (archive_after calls zip)).
Proof.
  induction calls as [|[q c] calls IH]; intros zip p H; [exact H|].
  apply IH. apply zip_file_keeps_paths. exact H.
Qed.

Lemma archive_after_NoDup (calls : list (JsString.t * JsString.t)) :
  forall zip, NoDup (paths zip) -> NoDup (paths (archive_after calls zip)).
Proof.
  induction calls as [|[q c] calls IH]; intros zip H; [exact H|].
  apply IH. apply zip_file_NoDup. exact H.
Qed.

Lemma archive_after_app (c1 c2 : list (JsString.t * JsString.t)) (zip : JSZip) :
  archive_after (c1 ++ c2) zip = archive_after c2 (archive_after c1 zip).
Proof. apply fold_left_app. Qed.

(** Every path handed over is a path of the archive. *)
Lemma archive_after_has_call (calls : list (JsString.t * JsString.t)) :
  forall zip p, In p (map fst calls) -> In p (paths (archive_after calls zip)).
Proof.
  induction calls as [|[q c] calls IH]; intros zip p H; [destruct H|].
  change (archive_after ((q, c) :: calls) zip)
    with (archive_after calls (zip_file q c zip)).
  cbn [map fst] in H. destruct H as [<-|H].
  - apply archive_after_keeps_paths. apply zip_file_has_path.
  - apply IH. exact H.
Qed.

Lemma count_path_absent (p : JsString.t) (zip : JSZip) :
  ~ In p (paths zip) -> count_path p zip = 0.
Proof.
  induction zip as [|[q c] zip IH]; [reflexivity|].
  intros H. unfold count_path in *. cbn [filter fst paths map] in *.
  destruct (JsString.eqb q p) eqn:E.
  - apply eqb_true in E. subst. exfalso. apply H. left. reflexivity.
  - apply IH. intros Hin. apply H. right. exact Hin.
Qed.

(** An archive holds one entry at each of its paths. *)
Lemma count_path_one (p : JsString.t) (zip : JSZip) :
  NoDup (paths zip) -> In p (paths zip) -> count_path p zip = 1.
Proof.
  induction zip as [|[q c] zip IH]; [intros _ []|].
  intros Hnd Hin. inversion Hnd as [|x l Hq Hnd']. subst.
  unfold count_path in *. cbn [filter fst paths map] in *.
  destruct (JsString.eqb q p) eqn:E.
  - apply eqb_true in E. subst. cbn [List.length]. f_equal.
    apply (count_path_absent p zip Hq).
  - destruct Hin as [->|Hin]; [rewrite eqb_refl in E; discriminate|].
    apply IH; assumption.
Qed.

End ArchiveFacts.

(** ** The handlers *)

Section PipelineFacts.

Context {Data Sheet Blob : Type}.
Variable XLSX_read : Data -> result (Workbook Sheet).
Variable sheet_to_csv : option Sheet -> result JsString.t.
Variable generateAsync : JSZip -> result Blob.

Local Abbreviation Trace := (list (Event Data Blob)).
Local Abbreviation handle := (handleConvert XLSX_read sheet_to_csv generateAsync).
Local Abbreviation body := (try_body XLSX_read sheet_to_csv generateAsync).
Local Abbreviation after := (run XLSX_read sheet_to_csv generateAsync).
Local Abbreviation loop := (@convert_loop Data Sheet Blob XLSX_read sheet_to_csv).
Local Abbreviation one := (@convert_file Data Sheet Blob XLSX_read sheet_to_csv).
Local Abbreviation each := (@forEach_sheet Data Sheet Blob sheet_to_csv).
Local Abbreviation step := (@sheets_step Data Sheet Blob sheet_to_csv).

(** *** The monad and the traces *)

Lemma bind_assoc {A B C} (m : M Data Blob A) (f : A -> M Data Blob B)
  (g : B -> M Data Blob C) :
  bind (bind m f) g = bind m (fun x => bind (f x) g).
Proof.
  destruct m as [tr [a|e]]; simpl; [|reflexivity].
  destruct (f a) as [tr1 [b|e]]; simpl; [|reflexivity].
  destruct (g b) as [tr2 r]. rewrite app_assoc. reflexivity.
Qed.

Lemma bind_ret_r {A} (m : M Data Blob A) : bind m (fun x => ret x) = m.
Proof.
  destruct m as [tr [a|e]]; simpl; [|reflexivity].
  rewrite app_nil_r. reflexivity.
Qed.

Lemma collect_app {A B} (f : A -> option B) (l1 l2 : list A) :
  collect f (l1 ++ l2) = collect f l1 ++ collect f l2.
Proof.
  induction l1 as [|a l1 IH]; simpl; [reflexivity|].
  destruct (f a); simpl; rewrite IH; reflexivity.
Qed.

(** A trace made of archive calls only shows nothing else. *)
Lemma only_zip_calls (tr : Trace) :
  forallb is_zip_call tr = true ->
  progress_seq tr = [] /\ files_read tr = [] /\
  existsb is_finalize tr = false /\ existsb is_download tr = false /\
  existsb is_running tr = false.
Proof.
  induction tr as [|ev tr IH]; simpl; [auto|].
  intros H. apply andb_true_iff in H as [Hev Htr].
  destruct ev; try discriminate. simpl. auto.
Qed.

Lemma forEach_sheet_only_zip (base : JsString.t) (sheets : list (JsString.t * Sheet))
  (names : list JsString.t) (zip : JSZip) :
  forallb is_zip_call (fst (each base sheets names zip)) = true.
Proof.
  revert zip. induction names as [|n names IH]; intros zip; simpl; [reflexivity|].
  destruct (sheet_to_csv (get_sheet sheets n)) as [csv|e]; simpl; [|reflexivity].
  specialize (IH (zip_file (replace_ext base (str "_" ++ n ++ str ".csv")) csv zip)).
  destruct (each base sheets names _) as [tr r]. simpl in *. exact IH.
Qed.

Lemma sheets_step_only_zip (base : JsString.t) (wb : Workbook Sheet) (zip : JSZip) :
  forallb is_zip_call (fst (step base wb zip)) = true.
Proof.
  unfold sheets_step.
  destruct (SheetNames wb) as [|n [|n' names]].
  - reflexivity.
  - simpl. destruct (sheet_to_csv _); reflexivity.
  - apply forEach_sheet_only_zip.
Qed.

(** The loop body, once the file is read and decoded. *)
Lemma convert_file_decoded (root : JsString.t) (total i : nat) (f : File Data)
  (zip : JSZip) (d : Data) (wb : Workbook Sheet) :
  arrayBuffer f = Ok d -> XLSX_read d = Ok wb ->
  one root total i f zip =
    let (tr, r) := step (newPathBase root f) wb zip in
    match r with
    | Ok z => (ReadFile f :: XlsxRead d :: tr ++ [SetProgress (progress_value (i + 1) total)], Ok z)
    | Throw e => (ReadFile f :: XlsxRead d :: tr, Throw e)
    end.
Proof.
  intros Hd Hwb. unfold convert_file. rewrite Hd. simpl. rewrite Hwb. simpl.
  destruct (step _ wb zip) as [tr [z|e]]; reflexivity.
Qed.

Lemma convert_file_read_fails (root : JsString.t) (total i : nat) (f : File Data)
  (zip : JSZip) (e : Exn) :
  arrayBuffer f = Throw e ->
  one root total i f zip = ([ReadFile f], Throw e).
Proof. intros H. unfold convert_file. rewrite H. reflexivity. Qed.

Lemma convert_file_decode_fails (root : JsString.t) (total i : nat) (f : File Data)
  (zip : JSZip) (d : Data) (e : Exn) :
  arrayBuffer f = Ok d -> XLSX_read d = Throw e ->
  one root total i f zip = ([ReadFile f; XlsxRead d], Throw e).
Proof. intros Hd He. unfold convert_file. rewrite Hd. simpl. rewrite He. reflexivity. Qed.

(** *** The loop *)

Lemma zip_calls_are_loop_events (tr : Trace) :
  forallb is_zip_call tr = true -> forallb is_loop_event tr = true.
Proof.
  induction tr as [|ev tr IH]; simpl; [auto|].
  intros H. apply andb_true_iff in H as [Hev Htr].
  destruct ev; try discriminate. simpl. auto.
Qed.

Lemma convert_file_loop_events (root : JsString.t) (total i : nat) (f : File Data)
  (zip : JSZip) :
  forallb is_loop_event (fst (one root total i f zip)) = true.
Proof.
  destruct (arrayBuffer f) as [d|e] eqn:Hd.
  - destruct (XLSX_read d) as [wb|e] eqn:Hwb.
    + rewrite (convert_file_decoded root total i f zip Hd Hwb).
      pose proof (sheets_step_only_zip (newPathBase root f) wb zip) as Hz.
      apply zip_calls_are_loop_events in Hz.
      destruct (step _ wb zip) as [tr [z|e]]; simpl in *.
      * rewrite forallb_app, Hz. reflexivity.
      * exact Hz.
    + rewrite (convert_file_decode_fails root total i f zip Hd Hwb). reflexivity.
  - rewrite (convert_file_read_fails root total i f zip Hd). reflexivity.
Qed.

Lemma convert_loop_loop_events (root : JsString.t) (total : nat) (fs : list (File Data)) :
  forall i zip, forallb is_loop_event (fst (loop root total i fs zip)) = true.
Proof.
  induction fs as [|f fs IH]; intros i zip; simpl; [reflexivity|].
  pose proof (convert_file_loop_events root total i f zip) as H1.
  destruct (one root total i f zip) as [tr [z|e]]; simpl in *; [|exact H1].
  specialize (IH (S i) z).
  destruct (loop root total (S i) fs z) as [tr' r]. simpl in *.
  rewrite forallb_app, H1, IH. reflexivity.
Qed.

Lemma last_cons_default {A} (l : list A) (a d : A) :
  last (a :: l) d = last l a.
Proof.
  revert a d. induction l as [|b l IH]; intros a d; [reflexivity|].
  change (last (a :: b :: l) d) with (last (b :: l) d).
  rewrite (IH b d). symmetry. apply IH.
Qed.

(** What the events of the loop do to the state and show in the trace. *)
Lemma loop_events_effect (tr : Trace) :
  forallb is_loop_event tr = true ->
  existsb is_finalize tr = false /\ existsb is_download tr = false /\
  existsb is_running tr = false /\
  forall st : AppState Data,
    let st' := fold_left apply_event tr st in
    files st' = files st /\ outputFolderName st' = outputFolderName st /\
    isConverting st' = isConverting st /\ error st' = error st /\
    success st' = success st /\
    progress st' = last (progress_seq tr) (progress st).
Proof.
  induction tr as [|ev tr IH]; simpl.
  - intros _. repeat split; reflexivity.
  - intros H. apply andb_true_iff in H as [Hev Htr].
    destruct (IH Htr) as (Hf & Hd & Hr & Hst).
    destruct ev; try discriminate; simpl;
      (split; [assumption | split; [assumption | split; [assumption|]]]);
      intros st; try apply Hst.
    destruct (Hst (apply_event st (@SetProgress Data Blob p)))
      as (H1 & H2 & H3 & H4 & H5 & H6).
    cbn [apply_event files outputFolderName isConverting error success progress] in *.
    repeat (split; [assumption|]).
    rewrite H6. unfold progress_seq. cbn [collect progress_of].
    symmetry. apply last_cons_default.
Qed.

Lemma convert_loop_app (root : JsString.t) (total : nat) (pre post : list (File Data)) :
  forall i zip,
    loop root total i (pre ++ post) zip =
    bind (loop root total i pre zip)
         (fun z => loop root total (i + List.length pre) post z).
Proof.
  induction pre as [|f pre IH]; intros i zip; simpl.
  - rewrite Nat.add_0_r. destruct (loop root total i post zip). reflexivity.
  - destruct (one root total i f zip) as [tr [z|e]]; simpl; [|reflexivity].
    rewrite IH. replace (i + S (List.length pre)) with (S i + List.length pre) by lia.
    destruct (loop root total (S i) pre z) as [tr1 [z1|e]]; simpl; [|reflexivity].
    destruct (loop root total _ post z1) as [tr2 r].
    rewrite <- app_assoc. reflexivity.
Qed.

(** The loop reads the files in order and reports progress once per
    completed file: on return every file was read and completed, on a
    throw the files up to the failing one were read and those before it
    completed. *)
Lemma convert_loop_shape (root : JsString.t) (total : nat) (fs : list (File Data)) :
  forall i zip,
    let (tr, r) := loop root total i fs zip in
    exists k,
      progress_seq tr = map (fun j => progress_value (i + j) total) (seq 1 k) /\
      match r with
      | Ok _ => k = List.length fs /\ files_read tr = fs
      | Throw _ => k < List.length fs /\ files_read tr = firstn (S k) fs
      end.
Proof.
  induction fs as [|f fs IH]; intros i zip; simpl.
  - exists 0. auto.
  - assert (H1 : let (tr, r) := one root total i f zip in
                 files_read tr = [f] /\
                 progress_seq tr = match r with
                                   | Ok _ => [progress_value (i + 1) total]
                                   | Throw _ => []
                                   end).
    { destruct (arrayBuffer f) as [d|e] eqn:Hd.
      - destruct (XLSX_read d) as [wb|e] eqn:Hwb.
        + rewrite (convert_file_decoded root total i f zip Hd Hwb).
          pose proof (sheets_step_only_zip (newPathBase root f) wb zip) as Hz.
          apply only_zip_calls in Hz as (Hp & Hf & _).
          destruct (step _ wb zip) as [tr [z|e]]; simpl in *.
          * unfold files_read, progress_seq in *. simpl.
            rewrite !collect_app, Hp, Hf. auto.
          * unfold files_read, progress_seq in *. simpl. rewrite Hp, Hf. auto.
        + rewrite (convert_file_decode_fails root total i f zip Hd Hwb). auto.
      - rewrite (convert_file_read_fails root total i f zip Hd). auto. }
    destruct (one root total i f zip) as [tr [z|e]]; simpl.
    + destruct H1 as [Hf Hp]. specialize (IH (S i) z).
      destruct (loop root total (S i) fs z) as [tr' r].
      destruct IH as (k & Hk & Hr). exists (S k).
      unfold files_read, progress_seq in *. rewrite !collect_app, Hp, Hf, Hk.
      split.
      * cbn [seq map app]. f_equal. rewrite <- (seq_shift k 1), map_map.
        apply map_ext. intros j. f_equal. lia.
      * destruct r as [z'|e]; destruct Hr as [Hr1 Hr2]; rewrite Hr2.
        -- split; [lia | reflexivity].
        -- split; [lia | reflexivity].
    + destruct H1 as [Hf Hp]. exists 0. split; [exact Hp|].
      split; [lia | exact Hf].
Qed.

(** *** The handler, unfolded along the outcome of the loop *)

Lemma handle_loop_throws (st : AppState Data) (tl : Trace) (e : Exn) :
  files st <> [] -> trim (outputFolderName st) <> [] ->
  loop (outputFolderName st) (List.length (files st)) 0 (files st) [] = (tl, Throw e) ->
  handle st =
    header ++ tl ++
    [ConsoleError e; SetError (Some (error_text e)); SetIsConverting false].
Proof.
  intros Hf Hr Hl. unfold handleConvert, try_body.
  destruct (files st) as [|f fs] eqn:Ef; [contradiction|].
  destruct (trim (outputFolderName st)) as [|c r] eqn:Er; [contradiction|].
  rewrite Hl. simpl. rewrite <- app_assoc. reflexivity.
Qed.

Lemma handle_loop_returns (st : AppState Data) (tl : Trace) (zip : JSZip) :
  files st <> [] -> trim (outputFolderName st) <> [] ->
  loop (outputFolderName st) (List.length (files st)) 0 (files st) [] = (tl, Ok zip) ->
  handle st =
    header ++ tl ++ GenerateAsync zip ::
    match generateAsync zip with
    | Ok zipBlob =>
        [SaveAs zipBlob (trim (outputFolderName st) ++ str ".zip");
         SetSuccess true; SetIsConverting false]
    | Throw e =>
        [ConsoleError e; SetError (Some (error_text e)); SetIsConverting false]
    end.
Proof.
  intros Hf Hr Hl. unfold handleConvert, try_body.
  destruct (files st) as [|f fs] eqn:Ef; [contradiction|].
  destruct (trim (outputFolderName st)) as [|c r] eqn:Er; [contradiction|].
  rewrite Hl. simpl.
  destruct (generateAsync zip) as [blob|e]; simpl; rewrite <- !app_assoc; reflexivity.
Qed.

(** A run whose loop throws: nothing is finalised or downloaded, the
    state ends in error, and the progress is the last one reported. *)
Lemma run_error (st : AppState Data) (tl : Trace) (e : Exn) :
  files st <> [] -> trim (outputFolderName st) <> [] ->
  loop (outputFolderName st) (List.length (files st)) 0 (files st) [] = (tl, Throw e) ->
  existsb is_finalize (handle st) = false /\
  existsb is_download (handle st) = false /\
  progress_seq (handle st) = 0%Z :: progress_seq tl /\
  files_read (handle st) = files_read tl /\
  success (after st) = false /\
  isConverting (after st) = false /\
  error (after st) = Some (error_text e) /\
  progress (after st) = last (progress_seq (handle st)) 0%Z.
Proof.
  intros Hf Hr Hl. unfold run. rewrite (handle_loop_throws st Hf Hr Hl).
  pose proof (convert_loop_loop_events (outputFolderName st)
                (List.length (files st)) (files st) 0 []) as Hev.
  rewrite Hl in Hev. simpl in Hev.
  destruct (loop_events_effect tl Hev) as (H1 & H2 & _ & Hst).
  rewrite !existsb_app, H1, H2. unfold progress_seq, files_read.
  rewrite !collect_app, !fold_left_app.
  cbn [header existsb is_finalize is_download orb collect progress_of read_of app].
  rewrite !app_nil_r.
  repeat (split; [reflexivity|]).
  cbn [fold_left apply_event].
  match goal with |- context [fold_left apply_event tl ?s] =>
    destruct (Hst s) as (_ & _ & _ & _ & Hs & Hp) end.
  cbn [success isConverting error progress] in *.
  repeat (split; [first [reflexivity | assumption]|]).
  rewrite Hp. symmetry. apply last_cons_default.
Qed.

(** *** Successful runs *)

Lemma run_success_inv (st : AppState Data) :
  files st <> [] -> trim (outputFolderName st) <> [] ->
  success (after st) = true ->
  exists tl zip zipBlob,
    loop (outputFolderName st) (List.length (files st)) 0 (files st) [] = (tl, Ok zip) /\
    generateAsync zip = Ok zipBlob /\
    handle st =
      header ++ tl ++
      [GenerateAsync zip; SaveAs zipBlob (trim (outputFolderName st) ++ str ".zip");
       SetSuccess true; SetIsConverting false].
Proof.
  intros Hf Hr Hs.
  destruct (loop (outputFolderName st) (List.length (files st)) 0 (files st) [])
    as [tl [zip|e]] eqn:Hl.
  - pose proof (handle_loop_returns st Hf Hr Hl) as Hh.
    destruct (generateAsync zip) as [blob|e] eqn:Hg.
    + exists tl, zip, blob. auto.
    + exfalso. unfold run in Hs. rewrite Hh in Hs.
      pose proof (convert_loop_loop_events (outputFolderName st)
                    (List.length (files st)) (files st) 0 []) as Hev.
      rewrite Hl in Hev. simpl in Hev.
      destruct (loop_events_effect tl Hev) as (_ & _ & _ & Hst).
      rewrite !fold_left_app in Hs. cbn [header fold_left apply_event] in Hs.
      match type of Hs with context [fold_left apply_event tl ?s] =>
        destruct (Hst s) as (_ & _ & _ & _ & Hsucc & _) end.
      cbn [success] in *. congruence.
  - destruct (run_error st Hf Hr Hl) as (_ & _ & _ & _ & H5 & _). congruence.
Qed.

(** The state after a run that reached the download. *)
Lemma run_success (st : AppState Data) (tl : Trace) (zip : JSZip) (zipBlob : Blob) :
  files st <> [] -> trim (outputFolderName st) <> [] ->
  loop (outputFolderName st) (List.length (files st)) 0 (files st) [] = (tl, Ok zip) ->
  generateAsync zip = Ok zipBlob ->
  success (after st) = true /\ error (after st) = None /\
  isConverting (after st) = false /\
  progress (after st) = last (progress_seq tl) 0%Z.
Proof.
  intros Hf Hr Hl Hg. unfold run.
  rewrite (handle_loop_returns st Hf Hr Hl), Hg.
  pose proof (convert_loop_loop_events (outputFolderName st)
                (List.length (files st)) (files st) 0 []) as Hev.
  rewrite Hl in Hev. simpl in Hev.
  destruct (loop_events_effect tl Hev) as (_ & _ & _ & Hst).
  rewrite !fold_left_app. cbn [header fold_left apply_event].
  match goal with |- context [fold_left apply_event tl ?s] =>
    destruct (Hst s) as (_ & _ & _ & He & _ & Hp) end.
  cbn [success isConverting error progress] in *. auto.
Qed.

Lemma convert_loop_split (root : JsString.t) (total i : nat)
  (pre post : list (File Data)) (f : File Data) (zip z : JSZip) (tl : Trace) :
  loop root total i (pre ++ f :: post) zip = (tl, Ok z) ->
  exists t1 z1 t2 z2 t3,
    loop root total i pre zip = (t1, Ok z1) /\
    one root total (i + List.length pre) f z1 = (t2, Ok z2) /\
    loop root total (S (i + List.length pre)) post z2 = (t3, Ok z) /\
    tl = t1 ++ t2 ++ t3.
Proof.
  rewrite convert_loop_app. cbn [convert_loop].
  destruct (loop root total i pre zip) as [t1 [z1|e]]; cbn [bind]; [|discriminate].
  destruct (one root total (i + List.length pre) f z1) as [t2 [z2|e]] eqn:E2;
    cbn [bind]; [|discriminate].
  destruct (loop root total (S (i + List.length pre)) post z2) as [t3 r] eqn:E3.
  intros H. injection H as <- ->.
  exists t1, z1, t2, z2, t3. auto.
Qed.

(** *** The archive follows the calls *)

Lemma forEach_sheet_archive (base : JsString.t) (sheets : list (JsString.t * Sheet))
  (names : list JsString.t) :
  forall zip tr z,
    each base sheets names zip = (tr, Ok z) -> z = archive_after (zip_calls tr) zip.
Proof.
  induction names as [|n names IH]; intros zip tr z; cbn [forEach_sheet].
  - intros H. injection H as <- <-. reflexivity.
  - destruct (sheet_to_csv (get_sheet sheets n)) as [csv|e]; cbn [lift bind zip_add emit ret app];
      [|discriminate].
    specialize (IH (zip_file (replace_ext base (str "_" ++ n ++ str ".csv")) csv zip)).
    destruct (each base sheets names _) as [tr' [z'|e]]; [|discriminate].
    intros H. injection H as <- <-. rewrite (IH tr' z' eq_refl). reflexivity.
Qed.

Lemma sheets_step_archive (base : JsString.t) (wb : Workbook Sheet) (zip : JSZip)
  (tr : Trace) (z : JSZip) :
  step base wb zip = (tr, Ok z) -> z = archive_after (zip_calls tr) zip.
Proof.
  unfold sheets_step. destruct (SheetNames wb) as [|n [|n' names]].
  - apply forEach_sheet_archive.
  - destruct (sheet_to_csv _) as [csv|e]; cbn; [|discriminate].
    intros H. injection H as <- <-. reflexivity.
  - apply forEach_sheet_archive.
Qed.

Lemma zip_calls_app (t1 t2 : Trace) : zip_calls (t1 ++ t2) = zip_calls t1 ++ zip_calls t2.
Proof. apply collect_app. Qed.

Lemma convert_file_archive (root : JsString.t) (total i : nat) (f : File Data)
  (zip : JSZip) (tr : Trace) (z : JSZip) :
  one root total i f zip = (tr, Ok z) -> z = archive_after (zip_calls tr) zip.
Proof.
  destruct (arrayBuffer f) as [d|e] eqn:Hd.
  - destruct (XLSX_read d) as [wb|e] eqn:Hwb.
    + rewrite (convert_file_decoded root total i f zip Hd Hwb).
      pose proof (@sheets_step_archive (newPathBase root f) wb zip) as Hs.
      destruct (step _ wb zip) as [ts [zs|e]]; [|discriminate].
      intros H. injection H as <- <-.
      change (ReadFile f :: XlsxRead d :: ts ++ [SetProgress (progress_value (i + 1) total)])
        with ([ReadFile f; XlsxRead d] ++ ts ++ [SetProgress (progress_value (i + 1) total)]).
      rewrite !zip_calls_app. cbn [zip_calls collect zip_call_of app].
      rewrite app_nil_r. apply Hs. reflexivity.
    + rewrite (convert_file_decode_fails root total i f zip Hd Hwb). discriminate.
  - rewrite (convert_file_read_fails root total i f zip Hd). discriminate.
Qed.

Lemma convert_loop_archive (root : JsString.t) (total : nat) (fs : list (File Data)) :
  forall i zip tr z,
    loop root total i fs zip = (tr, Ok z) -> z = archive_after (zip_calls tr) zip.
Proof.
  induction fs as [|f fs IH]; intros i zip tr z; cbn [convert_loop].
  - intros H. injection H as <- <-. reflexivity.
  - pose proof (@convert_file_archive root total i f zip) as H1.
    destruct (one root total i f zip) as [t1 [z1|e]]; cbn [bind]; [|discriminate].
    specialize (IH (S i) z1).
    destruct (loop root total (S i) fs z1) as [t2 r].
    intros H. injection H as <- ->.
    rewrite zip_calls_app, ArchiveFacts.archive_after_app.
    rewrite <- (H1 t1 z1 eq_refl). apply IH. reflexivity.
Qed.

(** *** The rewritten path *)

Lemma newPathBase_first (root : JsString.t) (f : File Data) (a rest : JsString.t) :
  webkitRelativePath f = a ++ slash :: rest -> no_slash a = true ->
  newPathBase root f = trim root ++ slash :: rest.
Proof.
  intros Hp Ha. unfold newPathBase.
  rewrite Hp, (@JsStringFacts.split_slash_first a rest Ha). cbn [set_first].
  rewrite JsStringFacts.join_slash_cons by apply JsStringFacts.split_slash_not_nil.
  rewrite JsStringFacts.join_split. reflexivity.
Qed.

Lemma newPathBase_segments (root : JsString.t) (f : File Data) (a : JsString.t)
  (mids : list JsString.t) (leaf : JsString.t) :
  webkitRelativePath f = join_slash (a :: mids ++ [leaf]) -> no_slash a = true ->
  newPathBase root f = trim root ++ slash :: folders mids ++ leaf.
Proof.
  intros Hp Ha.
  rewrite JsStringFacts.join_slash_cons, JsStringFacts.join_slash_snoc in Hp
    by (destruct mids; discriminate).
  apply (@newPathBase_first root f a _ Hp Ha).
Qed.

(** The step of a file whose workbook has exactly one sheet. *)
Lemma convert_file_one_sheet (root : JsString.t) (total i : nat) (f : File Data)
  (zip : JSZip) (d : Data) (wb : Workbook Sheet) (sheetName : JsString.t) :
  arrayBuffer f = Ok d -> XLSX_read d = Ok wb -> SheetNames wb = [sheetName] ->
  one root total i f zip =
    match sheet_to_csv (get_sheet (Sheets wb) sheetName) with
    | Ok csv =>
        let path := replace_ext (newPathBase root f) (str ".csv") in
        ([ReadFile f; XlsxRead d; ZipFile path csv;
          SetProgress (progress_value (i + 1) total)],
         Ok (zip_file path csv zip))
    | Throw e => ([ReadFile f; XlsxRead d], Throw e)
    end.
Proof.
  intros Hd Hwb Hs. rewrite (convert_file_decoded root total i f zip Hd Hwb).
  unfold sheets_step. rewrite Hs.
  destruct (sheet_to_csv _) as [csv|e]; reflexivity.
Qed.

(** C1. In a run that succeeds, a file at [a/mids/stem.ext] whose
    workbook has one sheet makes exactly one archive call, at the path
    [root/mids/stem.csv] where [root] is the trimmed output folder name
    (first segment replaced, folders in between unchanged, extension of the
    leaf replaced by .csv), and the archive that is finalised and downloaded
    holds exactly one entry at that path. *)
Theorem C1_single_sheet_entry (st : AppState Data)
  (pre post : list (File Data)) (f : File Data)
  (a : JsString.t) (mids : list JsString.t) (stem ext : JsString.t)
  (d : Data) (wb : Workbook Sheet) (sheetName : JsString.t) :
  files st = pre ++ f :: post ->
  trim (outputFolderName st) <> [] ->
  webkitRelativePath f = join_slash (a :: mids ++ [stem ++ dot :: ext]) ->
  no_slash a = true -> ext <> [] -> forallb ext_char ext = true ->
  arrayBuffer f = Ok d -> XLSX_read d = Ok wb -> SheetNames wb = [sheetName] ->
  success (after st) = true ->
  let root := outputFolderName st in
  let target := join_slash (trim root :: mids ++ [stem ++ str ".csv"]) in
  exists csv zip zipBlob,
    sheet_to_csv (get_sheet (Sheets wb) sheetName) = Ok csv /\
    (forall total i z,
       zip_calls (fst (one root total i f z)) = [(target, csv)]) /\
    In (GenerateAsync zip) (handle st) /\
    In (SaveAs zipBlob (trim root ++ str ".zip")) (handle st) /\
    generateAsync zip = Ok zipBlob /\
    count_path target zip = 1.
Proof.
  intros Hfiles Hroot Hpath Ha Hne Hext Hd Hwb Hs Hsucc root target.
  assert (Hnil : files st <> []).
  { rewrite Hfiles. intros H. symmetry in H. exact (app_cons_not_nil _ _ _ H). }
  destruct (run_success_inv st Hnil Hroot Hsucc) as (tl & zip & blob & Hl & Hg & Hh).
  rewrite Hfiles in Hl at 2.
  destruct (@convert_loop_split _ _ _ _ _ _ _ _ _ Hl)
    as (t1 & z1 & t2 & z2 & t3 & Hl1 & H2 & Hl3 & Htl).
  assert (Htarget : replace_ext (newPathBase root f) (str ".csv") = target).
  { rewrite (@newPathBase_segments root f a mids (stem ++ dot :: ext) Hpath Ha).
    replace (trim root ++ slash :: folders mids ++ stem ++ dot :: ext)
      with ((trim root ++ slash :: folders mids ++ stem) ++ dot :: ext)
      by (rewrite <- !app_assoc; cbn [app]; rewrite <- !app_assoc; reflexivity).
    rewrite (@JsStringFacts.replace_ext_found (str ".csv") ext _ Hne Hext).
    rewrite JsStringFacts.getSubstitution_plain by reflexivity.
    unfold target.
    rewrite JsStringFacts.join_slash_cons, JsStringFacts.join_slash_snoc
      by (destruct mids; discriminate).
    rewrite <- !app_assoc. cbn [app]. rewrite <- !app_assoc. reflexivity. }
  pose proof (fun total i z =>
    @convert_file_one_sheet root total i f z d wb sheetName Hd Hwb Hs) as Hone.
  destruct (sheet_to_csv (get_sheet (Sheets wb) sheetName)) as [csv|e] eqn:Hcsv.
  2:{ rewrite Hone in H2. discriminate. }
  exists csv, zip, blob. split; [reflexivity|]. split.
  { intros total i z. rewrite Hone. cbn [fst zip_calls collect zip_call_of].
    rewrite Htarget. reflexivity. }
  split. { rewrite Hh. apply in_or_app. right. apply in_or_app. right. left. reflexivity. }
  split. { rewrite Hh. apply in_or_app. right. apply in_or_app. right. right. left.
           reflexivity. }
  split; [exact Hg|].
  rewrite (@convert_loop_archive _ _ _ _ _ _ _ Hl).
  apply ArchiveFacts.count_path_one.
  - apply ArchiveFacts.archive_after_NoDup. constructor.
  - apply ArchiveFacts.archive_after_has_call.
    rewrite Htl, !zip_calls_app, !map_app. apply in_or_app. right. apply in_or_app. left.
    rewrite Hone in H2. injection H2 as <- _.
    cbn [zip_calls collect zip_call_of map fst]. left. exact Htarget.
Qed.

(** *** The paths handed to the archive *)

Lemma handle_zip_calls (st : AppState Data) :
  zip_calls (handle st) = [] \/
  zip_calls (handle st) =
    zip_calls (fst (loop (outputFolderName st) (List.length (files st)) 0 (files st) [])).
Proof.
  destruct (files st) as [|f fs] eqn:Hf.
  { left. unfold handleConvert. rewrite Hf. reflexivity. }
  destruct (trim (outputFolderName st)) as [|c r] eqn:Hr.
  { left. unfold handleConvert. rewrite Hf, Hr. reflexivity. }
  right. rewrite <- Hf.
  assert (Hne : files st <> []) by (rewrite Hf; discriminate).
  assert (Hrn : trim (outputFolderName st) <> []) by (rewrite Hr; discriminate).
  destruct (loop (outputFolderName st) (List.length (files st)) 0 (files st) [])
    as [tl [z|e]] eqn:Hl.
  - rewrite (handle_loop_returns st Hne Hrn Hl). rewrite !zip_calls_app.
    destruct (generateAsync z); cbn; rewrite app_nil_r; reflexivity.
  - rewrite (handle_loop_throws st Hne Hrn Hl). rewrite !zip_calls_app.
    cbn. rewrite app_nil_r. reflexivity.
Qed.

Lemma forEach_sheet_prefix (base : JsString.t) (sheets : list (JsString.t * Sheet))
  (names : list JsString.t) :
  forall zip, exists rest,
    map (fun n => replace_ext base (str "_" ++ n ++ str ".csv")) names =
      map fst (zip_calls (fst (each base sheets names zip))) ++ rest /\
    (forall z, snd (each base sheets names zip) = Ok z -> rest = []).
Proof.
  induction names as [|n names IH]; intros zip; cbn [forEach_sheet map].
  - exists []. split; reflexivity.
  - destruct (sheet_to_csv (get_sheet sheets n)) as [csv|e]; cbn [lift bind zip_add emit ret app].
    + destruct (IH (zip_file (replace_ext base (str "_" ++ n ++ str ".csv")) csv zip))
        as (rest & Hrest & Hok).
      destruct (each base sheets names _) as [tr r]. cbn [fst snd] in *.
      exists rest. split; [|exact Hok].
      cbn [zip_calls collect zip_call_of map fst app]. f_equal. exact Hrest.
    + eexists. split; [reflexivity | discriminate].
Qed.

Lemma sheets_step_prefix (base : JsString.t) (wb : Workbook Sheet) (zip : JSZip) :
  exists rest,
    planned base wb = map fst (zip_calls (fst (step base wb zip))) ++ rest /\
    (forall z, snd (step base wb zip) = Ok z -> rest = []).
Proof.
  unfold planned, sheets_step. destruct (SheetNames wb) as [|n [|n' names]].
  - apply forEach_sheet_prefix.
  - destruct (sheet_to_csv _) as [csv|e]; cbn.
    + exists []. split; reflexivity.
    + eexists. split; [reflexivity | discriminate].
  - apply forEach_sheet_prefix.
Qed.

Lemma convert_file_prefix (root : JsString.t) (total i : nat) (f : File Data)
  (zip : JSZip) :
  exists rest,
    plan XLSX_read root f = map fst (zip_calls (fst (one root total i f zip))) ++ rest /\
    (forall z, snd (one root total i f zip) = Ok z -> rest = []).
Proof.
  unfold plan. destruct (arrayBuffer f) as [d|e] eqn:Hd.
  - destruct (XLSX_read d) as [wb|e] eqn:Hwb.
    + rewrite (@convert_file_decoded root total i f zip d wb Hd Hwb).
      destruct (sheets_step_prefix (newPathBase root f) wb zip) as (rest & Hrest & Hok).
      destruct (step _ wb zip) as [ts [zs|e]]; cbn [fst snd] in *.
      * exists []. rewrite (Hok zs eq_refl) in Hrest. split; [|reflexivity].
        change (ReadFile f :: XlsxRead d :: ts ++ [SetProgress (progress_value (i + 1) total)])
          with ([ReadFile f; XlsxRead d] ++ ts ++ [SetProgress (progress_value (i + 1) total)]).
        rewrite !zip_calls_app. cbn [zip_calls collect zip_call_of app].
        rewrite !app_nil_r in *. exact Hrest.
      * exists rest. split; [exact Hrest | discriminate].
    + rewrite (@convert_file_decode_fails root total i f zip d e Hd Hwb).
      exists []. split; [reflexivity | discriminate].
  - rewrite (@convert_file_read_fails root total i f zip e Hd).
    exists []. split; [reflexivity | discriminate].
Qed.

(** The paths handed over by the loop are the first ones of the plans of
    the files, in order. *)
Lemma convert_loop_prefix (root : JsString.t) (total : nat) (fs : list (File Data)) :
  forall i zip, exists rest,
    flat_map (plan XLSX_read root) fs =
    map fst (zip_calls (fst (loop root total i fs zip))) ++ rest.
Proof.
  induction fs as [|f fs IH]; intros i zip; cbn [flat_map convert_loop].
  - exists []. reflexivity.
  - destruct (convert_file_prefix root total i f zip) as (rest & Hrest & Hok).
    destruct (one root total i f zip) as [t1 [z1|e]]; cbn [bind fst snd] in *.
    + rewrite (Hok z1 eq_refl), app_nil_r in Hrest.
      destruct (IH (S i) z1) as (rest' & Hrest').
      destruct (loop root total (S i) fs z1) as [t2 r]. cbn [fst] in *.
      exists rest'. rewrite zip_calls_app, map_app, Hrest, Hrest', app_assoc. reflexivity.
    + exists (rest ++ flat_map (plan XLSX_read root) fs).
      rewrite Hrest, app_assoc. reflexivity.
Qed.

(** A file kept by the discovery filter, at a path that ends with its
    name, has an extension for [replace] to find. *)
Lemma base_has_ext (root : JsString.t) (f : File Data) :
  is_excel f = true ->
  (exists dir, webkitRelativePath f = dir ++ slash :: name f) ->
  exists q ext,
    newPathBase root f = q ++ dot :: ext /\ ext <> [] /\ forallb ext_char ext = true.
Proof.
  intros Hx [dir Hp].
  assert (Hn : exists p' ext', name f = p' ++ dot :: ext' /\ ext' <> [] /\
                               forallb ext_char ext' = true).
  { unfold is_excel in Hx. apply orb_true_iff in Hx.
    destruct Hx as [Hx|Hx]; apply JsStringFacts.endsWith_spec in Hx as [p Hx].
    - change (str ".xlsx") with (dot :: str "xlsx") in Hx.
      destruct (@JsStringFacts.lower_suffix _ _ _ Hx eq_refl) as (p' & ext' & H1 & H2 & H3).
      exists p', ext'. split; [exact H1|]. split; [|exact H3].
      intros ->. discriminate H2.
    - change (str ".xls") with (dot :: str "xls") in Hx.
      destruct (@JsStringFacts.lower_suffix _ _ _ Hx eq_refl) as (p' & ext' & H1 & H2 & H3).
      exists p', ext'. split; [exact H1|]. split; [|exact H3].
      intros ->. discriminate H2. }
  destruct Hn as (p' & ext' & Hname & Hne & Hext).
  destruct (JsStringFacts.first_segment dir) as (a & x & Ha & Hax).
  rewrite Hax in Hp.
  rewrite (@newPathBase_first root f a (x ++ name f) Hp Ha), Hname.
  exists (trim root ++ slash :: x ++ p'), ext'. split; [|auto].
  rewrite <- !app_assoc. cbn [app]. rewrite <- !app_assoc. reflexivity.
Qed.

Lemma stem_found (root : JsString.t) (f : File Data) (q ext : JsString.t) :
  newPathBase root f = q ++ dot :: ext -> ext <> [] -> forallb ext_char ext = true ->
  stem root f = q.
Proof.
  intros Hb Hne Hext. unfold stem.
  rewrite Hb, (@JsStringFacts.replace_ext_found [] ext q Hne Hext).
  apply app_nil_r.
Qed.

Lemma NoDup_map_injective {A B} (g : A -> B) (l : list A) :
  (forall x y, g x = g y -> x = y) -> NoDup l -> NoDup (map g l).
Proof.
  intros Hg. induction 1 as [|a l Ha Hl IH]; cbn [map]; constructor; [|exact IH].
  intros Hin. apply in_map_iff in Hin as (y & Hy & Hin).
  apply Hg in Hy. subst y. contradiction.
Qed.

(** The planned paths of a workbook whose sheet names hold no dollar: the
    stem, followed by .csv for one sheet and by an underscore, the sheet
    name and .csv otherwise. *)
Lemma planned_found (q ext : JsString.t) (wb : Workbook Sheet) :
  ext <> [] -> forallb ext_char ext = true ->
  forallb no_dollar (SheetNames wb) = true ->
  planned (q ++ dot :: ext) wb =
    match SheetNames wb with
    | [_] => [q ++ str ".csv"]
    | names => map (fun n => q ++ underscore :: n ++ str ".csv") names
    end.
Proof.
  intros Hne Hext Hd. unfold planned.
  assert (Hmulti : forall names, forallb no_dollar names = true ->
            map (fun n => replace_ext (q ++ dot :: ext) (str "_" ++ n ++ str ".csv")) names =
            map (fun n => q ++ underscore :: n ++ str ".csv") names).
  { intros names Hn. apply map_ext_in. intros n Hin.
    rewrite (@JsStringFacts.replace_ext_found _ ext q Hne Hext).
    rewrite JsStringFacts.getSubstitution_plain; [reflexivity|].
    rewrite forallb_forall in Hn. specialize (Hn n Hin).
    unfold no_dollar in *. cbn [str list_ascii_of_string app forallb].
    rewrite forallb_app, Hn. reflexivity. }
  destruct (SheetNames wb) as [|n [|n' names]].
  - reflexivity.
  - rewrite (@JsStringFacts.replace_ext_found _ ext q Hne Hext).
    rewrite JsStringFacts.getSubstitution_plain; reflexivity.
  - apply Hmulti. exact Hd.
Qed.

Lemma plan_form (root : JsString.t) (f : File Data) :
  is_excel f = true ->
  (exists dir, webkitRelativePath f = dir ++ slash :: name f) ->
  (forall d wb, arrayBuffer f = Ok d -> XLSX_read d = Ok wb ->
     NoDup (SheetNames wb) /\ forallb no_dollar (SheetNames wb) = true) ->
  NoDup (plan XLSX_read root f) /\
  forall p, In p (plan XLSX_read root f) ->
    exists x, ending x /\ p = stem root f ++ x.
Proof.
  intros Hx Hp Hwb.
  destruct (@base_has_ext root f Hx Hp) as (q & ext & Hb & Hne & Hext).
  rewrite (@stem_found root f q ext Hb Hne Hext). unfold plan.
  destruct (arrayBuffer f) as [d|e] eqn:Ed; [|split; [constructor | intros p []]].
  destruct (XLSX_read d) as [wb|e] eqn:Ew; [|split; [constructor | intros p []]].
  destruct (Hwb d wb eq_refl Ew) as [Hnd Hdol].
  rewrite Hb, (@planned_found q ext wb Hne Hext Hdol).
  destruct (SheetNames wb) as [|n [|n' names]].
  - split; [constructor | intros p []].
  - split; [repeat constructor; intros []|].
    intros p [<-|[]]. exists (str ".csv"). split; [left; reflexivity | reflexivity].
  - split.
    + apply NoDup_map_injective; [|exact Hnd].
      intros x y H. apply app_inv_head in H. injection H as H.
      apply app_inv_tail in H. exact H.
    + intros p Hin. apply in_map_iff in Hin as (m & <- & _).
      exists (underscore :: m ++ str ".csv"). split; [right; exists m|]; reflexivity.
Qed.

Lemma plans_NoDup (root : JsString.t) (fs : list (File Data)) :
  (forall f, In f fs -> is_excel f = true /\
     exists dir, webkitRelativePath f = dir ++ slash :: name f) ->
  pairwiseb apartb (map (stem root) fs) = true ->
  (forall f d wb, In f fs -> arrayBuffer f = Ok d -> XLSX_read d = Ok wb ->
     NoDup (SheetNames wb) /\ forallb no_dollar (SheetNames wb) = true) ->
  NoDup (flat_map (plan XLSX_read root) fs).
Proof.
  induction fs as [|f fs IH]; intros Hsel Hap Hwb; cbn [flat_map]; [constructor|].
  cbn [map pairwiseb] in Hap. apply andb_true_iff in Hap as [Hf Hrest].
  destruct (Hsel f (or_introl eq_refl)) as [Hx Hp].
  destruct (@plan_form root f Hx Hp (fun d wb => Hwb f d wb (or_introl eq_refl)))
    as [Hnd Hform].
  apply NoDup_app.
  - exact Hnd.
  - apply IH; [intros g Hg; apply Hsel; right; exact Hg | exact Hrest |].
    intros g d wb Hg. apply Hwb. right. exact Hg.
  - intros p Hin Hin'. apply in_flat_map in Hin' as (g & Hg & Hpg).
    destruct (Hform p Hin) as (x1 & Hx1 & ->).
    destruct (Hsel g (or_intror Hg)) as [Hxg Hpathg].
    destruct (@plan_form root g Hxg Hpathg
                (fun d wb => Hwb g d wb (or_intror Hg))) as [_ Hformg].
    destruct (Hformg _ Hpg) as (x2 & Hx2 & Heq).
    rewrite forallb_forall in Hf.
    specialize (Hf (stem root g) (in_map (stem root) fs g Hg)).
    exact (@JsStringFacts.apart_endings _ _ _ _ Hf Hx1 Hx2 Heq).
Qed.

(** C7, as the code has it.  The paths handed to the archive in one run
    are pairwise distinct when every file was kept by the discovery filter
    at a path that ends with its name, the rewritten paths without their
    extensions are pairwise apart (distinct, and none is another one
    followed by an underscore and more), and in every decoded workbook the
    sheet names are pairwise distinct and hold no dollar. *)
Theorem C7_distinct_paths (st : AppState Data) :
  (forall f, In f (files st) -> is_excel f = true /\
     exists dir, webkitRelativePath f = dir ++ slash :: name f) ->
  pairwiseb apartb (map (stem (outputFolderName st)) (files st)) = true ->
  (forall f d wb, In f (files st) -> arrayBuffer f = Ok d -> XLSX_read d = Ok wb ->
     NoDup (SheetNames wb) /\ forallb no_dollar (SheetNames wb) = true) ->
  NoDup (map fst (zip_calls (handle st))).
Proof.
  intros Hsel Hap Hwb.
  destruct (handle_zip_calls st) as [-> | ->]; [constructor|].
  destruct (convert_loop_prefix (outputFolderName st) (List.length (files st))
              (files st) 0 []) as (rest & Hrest).
  pose proof (@plans_NoDup (outputFolderName st) (files st) Hsel Hap Hwb) as Hnd.
  rewrite Hrest in Hnd. exact (NoDup_app_remove_r _ _ Hnd).
Qed.

(** C6. For every directory selection, a file is in the conversion file
    list if and only if it was selected and its name, lowercased, ends with
    .xlsx or .xls; the list keeps the selection's order, and the handler
    leaves no error: the other files are dropped silently. *)
Theorem C6_discovery_filter (st : AppState Data) (selected : list (File Data)) :
  let st' := handleFolderSelect st (Some selected) in
  error st' = None /\
  files st' = filter is_excel selected /\
  forall f, In f (files st') <->
    In f selected /\
    ((exists p, toLowerCase (name f) = p ++ str ".xlsx") \/
     (exists p, toLowerCase (name f) = p ++ str ".xls")).
Proof.
  simpl. split; [reflexivity|]. split; [reflexivity|].
  intros f. rewrite filter_In. unfold is_excel.
  rewrite orb_true_iff, !JsStringFacts.endsWith_spec. reflexivity.
Qed.

(** C5. A convert request with an empty file list, or with an output
    folder name that is empty once trimmed, only reports a message: the
    run is never marked as converting, no file is read or decoded, no
    progress is emitted, nothing is added to an archive, and no archive is
    finalised or downloaded. *)
Theorem C5_validation_blocks_run (st : AppState Data) :
  files st = [] \/ trim (outputFolderName st) = [] ->
  let tr := handle st in
  (exists msg, tr = [SetError (Some msg)]) /\
  existsb is_running tr = false /\
  existsb is_decode tr = false /\
  progress_seq tr = [] /\
  zip_calls tr = [] /\
  existsb is_finalize tr = false /\
  existsb is_download tr = false /\
  isConverting (after st) = isConverting st /\
  progress (after st) = progress st /\
  success (after st) = success st /\
  (exists msg, error (after st) = Some msg).
Proof.
  intros H. unfold run, handleConvert.
  destruct (files st) as [|f fs] eqn:Ef.
  - simpl. repeat split; eauto.
  - destruct H as [H|H]; [discriminate|]. rewrite H. simpl.
    repeat split; eauto.
Qed.

(** The loop over a list in which some file fails to decode: it throws,
    at that file when the files before it convert, earlier otherwise. *)
Lemma convert_loop_decode_fails (root : JsString.t) (total : nat)
  (pre post : list (File Data)) (f : File Data) (d : Data) (e : Exn) :
  arrayBuffer f = Ok d -> XLSX_read d = Throw e ->
  exists tl e' k,
    loop root total 0 (pre ++ f :: post) [] = (tl, Throw e') /\
    k <= List.length pre /\
    progress_seq tl = map (fun j => progress_value j total) (seq 1 k) /\
    files_read tl = firstn (S k) (pre ++ f :: post) /\
    forall tpre zpre, loop root total 0 pre [] = (tpre, Ok zpre) ->
      tl = tpre ++ [ReadFile f; XlsxRead d] /\ e' = e /\ k = List.length pre.
Proof.
  intros Hd He.
  pose proof (convert_loop_shape root total (pre ++ f :: post) 0 []) as Hall.
  pose proof (convert_loop_shape root total pre 0 []) as Hpre.
  rewrite convert_loop_app in Hall. rewrite convert_loop_app.
  destruct (loop root total 0 pre []) as [t1 [z1|e1]].
  - cbn [bind convert_loop] in *.
    rewrite (convert_file_decode_fails root total (0 + List.length pre) f z1 Hd He) in *.
    cbn [bind] in *.
    destruct Hall as (k & Hk & Hlt & Hfr). destruct Hpre as (k1 & Hk1 & Hlen & _).
    exists (t1 ++ [ReadFile f; XlsxRead d]), e, k.
    assert (Hkk : k = k1).
    { unfold progress_seq in *. rewrite collect_app in Hk. simpl in Hk.
      rewrite app_nil_r, Hk1 in Hk. apply (f_equal (@List.length Z)) in Hk.
      rewrite !length_map, !length_seq in Hk. congruence. }
    split; [reflexivity|]. split; [lia|]. split.
    { rewrite <- Hkk in Hk1. unfold progress_seq in *. rewrite collect_app. simpl.
      rewrite app_nil_r. exact Hk1. }
    split; [exact Hfr|].
    intros tpre zpre Hq. injection Hq as <- <-. repeat split; lia.
  - cbn [bind] in *.
    destruct Hall as (k & Hk & Hlt & Hfr). destruct Hpre as (k1 & Hk1 & Hlen & _).
    exists t1, e1, k.
    assert (Hkk : k = k1).
    { rewrite Hk1 in Hk. apply (f_equal (@List.length Z)) in Hk.
      rewrite !length_map, !length_seq in Hk. congruence. }
    split; [reflexivity|]. split; [lia|]. split; [exact Hk|].
    split; [exact Hfr|]. intros tpre zpre Hq. discriminate.
Qed.

(** C3. When a file fails to decode, the run ends in the error state;
    no archive is finalised and nothing is downloaded; the files after
    the failing one are not read; and the progress stays at the value
    reported for the last completed file (0 when there is none). *)
Theorem C3_decode_failure_aborts_run (st : AppState Data)
  (pre post : list (File Data)) (f : File Data) (d : Data) (e : Exn) :
  files st = pre ++ f :: post ->
  trim (outputFolderName st) <> [] ->
  arrayBuffer f = Ok d -> XLSX_read d = Throw e ->
  let tr := handle st in
  let total := List.length (files st) in
  existsb is_finalize tr = false /\
  existsb is_download tr = false /\
  success (after st) = false /\
  isConverting (after st) = false /\
  (exists err, error (after st) = Some (error_text err)) /\
  (exists k, k <= List.length pre /\
     files_read tr = firstn (S k) (files st) /\
     progress_seq tr = 0%Z :: map (fun j => progress_value j total) (seq 1 k) /\
     progress (after st) = last (progress_seq tr) 0%Z) /\
  (forall tpre zpre,
     loop (outputFolderName st) total 0 pre [] = (tpre, Ok zpre) ->
     tr = header ++ tpre ++
          [ReadFile f; XlsxRead d; ConsoleError e;
           SetError (Some (error_text e)); SetIsConverting false] /\
     error (after st) = Some (error_text e)).
Proof.
  intros Hfiles Hroot Hd He tr total.
  assert (Hne : files st <> []).
  { rewrite Hfiles. intros H. symmetry in H. exact (app_cons_not_nil _ _ _ H). }
  destruct (@convert_loop_decode_fails (outputFolderName st) total pre post f d e Hd He)
    as (tl & e' & k & Hl & Hk & Hp & Hfr & Hfirst).
  rewrite <- Hfiles in Hl, Hfr.
  destruct (run_error st Hne Hroot Hl)
    as (H1 & H2 & H3 & H4 & H5 & H6 & H7 & H8).
  subst tr. repeat (split; [assumption|]).
  split; [exists e'; exact H7|]. split.
  - exists k. rewrite H3, H4, Hp. repeat (split; [assumption|]).
    split; [reflexivity|]. rewrite H8, H3, Hp. reflexivity.
  - intros tpre zpre Hq. destruct (Hfirst tpre zpre Hq) as (Htl & Hee & _).
    subst tl e'. split; [|exact H7].
    rewrite (handle_loop_throws st Hne Hroot Hl), <- app_assoc. reflexivity.
Qed.

(** C10. A file that decodes to a workbook without sheets adds nothing
    to the archive and does not stop the loop: its step reads and decodes
    it, reports the progress of the next completed count, and the loop goes
    on with the archive unchanged; a run over that file alone ends in
    success at progress 100, with an archive without entries. *)
Theorem C10_zero_sheets_file_is_skipped (root : JsString.t) (total i : nat)
  (f : File Data) (rest : list (File Data)) (zip : JSZip)
  (d : Data) (wb : Workbook Sheet) :
  arrayBuffer f = Ok d -> XLSX_read d = Ok wb -> SheetNames wb = [] ->
  one root total i f zip =
    ([ReadFile f; XlsxRead d; SetProgress (progress_value (i + 1) total)], Ok zip) /\
  zip_calls (fst (one root total i f zip)) = [] /\
  loop root total i (f :: rest) zip =
    (let (tr, r) := loop root total (S i) rest zip in
     (ReadFile f :: XlsxRead d :: SetProgress (progress_value (i + 1) total) :: tr, r)) /\
  forall (st : AppState Data) (zipBlob : Blob),
    files st = [f] -> trim (outputFolderName st) <> [] ->
    generateAsync [] = Ok zipBlob ->
    success (after st) = true /\ error (after st) = None /\
    progress (after st) = 100%Z /\
    zip_calls (handle st) = [] /\ finalized (handle st) = [[]] /\
    existsb is_download (handle st) = true.
Proof.
  intros Hd Hwb Hs.
  assert (H1 : forall root total i zip, one root total i f zip =
    ([ReadFile f; XlsxRead d; SetProgress (progress_value (i + 1) total)], Ok zip)).
  { intros root' total' i' zip'.
    rewrite (@convert_file_decoded root' total' i' f zip' d wb Hd Hwb).
    unfold sheets_step. rewrite Hs. reflexivity. }
  split; [apply H1|]. split; [rewrite H1; reflexivity|]. split.
  - cbn [convert_loop]. rewrite H1. cbn [bind].
    destruct (loop root total (S i) rest zip) as [tr r]. reflexivity.
  - intros st blob Hf Hr Hg.
    assert (Hne : files st <> []) by (rewrite Hf; discriminate).
    assert (Hl : loop (outputFolderName st) (List.length (files st)) 0 (files st) [] =
                 ([ReadFile f; XlsxRead d; SetProgress 100], Ok [])).
    { rewrite Hf. cbn [convert_loop List.length]. rewrite H1. reflexivity. }
    destruct (run_success st Hne Hr Hl Hg) as (Ha & Hb & _ & Hc).
    rewrite (handle_loop_returns st Hne Hr Hl), Hg.
    repeat split; assumption || reflexivity.
Qed.

(** *** The progress values *)

Lemma progress_value_mono (j k n : nat) :
  1 <= j -> j <= k -> k <= n -> (Z.of_nat n < 2 ^ 32)%Z ->
  (progress_value j n <= progress_value k n)%Z.
Proof.
  intros Hj Hjk Hkn Hn. unfold progress_value.
  apply JsNumberFacts.progress_float_mono; lia.
Qed.

Lemma progress_value_last (n : nat) :
  1 <= n -> (Z.of_nat n < 2 ^ 32)%Z -> progress_value n n = 100%Z.
Proof.
  intros H1 Hn. unfold progress_value.
  apply JsNumberFacts.progress_float_last; [lia|].
  assert (2 ^ 32 < 2 ^ 53)%Z by reflexivity. lia.
Qed.

Lemma last_map_seq (g : nat -> Z) (n : nat) (d : Z) :
  1 <= n -> last (map g (seq 1 n)) d = g n.
Proof.
  intros Hn. destruct n as [|n]; [lia|].
  rewrite seq_S, map_app. cbn [map]. rewrite last_last. f_equal.
Qed.

(** C4, as the code has it.  A successful run over at most 2^32 - 1
    files sets the progress to 0 and then to one value per file, the
    double-precision [Math.round((completed / total) * 100)]; the values
    do not decrease and the last one is exactly 100; the first one of a
    file is positive when there are at most 200 files and is 0 when there
    are more. *)
Theorem C4_progress_sequence (st : AppState Data) :
  files st <> [] -> trim (outputFolderName st) <> [] ->
  (Z.of_nat (List.length (files st)) < 2 ^ 32)%Z ->
  success (after st) = true ->
  let n := List.length (files st) in
  progress_seq (handle st) = 0%Z :: map (fun j => progress_value j n) (seq 1 n) /\
  (forall j k, 1 <= j -> j <= k -> k <= n ->
     (progress_value j n <= progress_value k n)%Z) /\
  last (progress_seq (handle st)) 0%Z = 100%Z /\
  progress (after st) = 100%Z /\
  (n <= 200 -> (0 < progress_value 1 n)%Z) /\
  (200 < n -> progress_value 1 n = 0%Z).
Proof.
  intros Hf Hr Hlen Hs n.
  assert (Hn1 : 1 <= n).
  { unfold n. destruct (files st); [contradiction | cbn; lia]. }
  destruct (run_success_inv st Hf Hr Hs) as (tl & zip & blob & Hl & Hg & Hh).
  pose proof (convert_loop_shape (outputFolderName st) n (files st) 0 []) as Hshape.
  fold n in Hl. rewrite Hl in Hshape. destruct Hshape as (k & Hk & -> & _).
  fold n in Hk. cbn [Nat.add] in Hk.
  assert (Hseq : progress_seq (handle st) =
                 0%Z :: map (fun j => progress_value j n) (seq 1 n)).
  { rewrite Hh. unfold progress_seq in *. rewrite !collect_app, Hk.
    cbn [header collect progress_of app]. rewrite app_nil_r. reflexivity. }
  split; [exact Hseq|]. split.
  { intros j k' Hj Hjk Hkn. apply progress_value_mono; assumption. }
  split.
  { rewrite Hseq, last_cons_default, last_map_seq by exact Hn1.
    apply progress_value_last; assumption. }
  split.
  { destruct (run_success st Hf Hr Hl Hg) as (_ & _ & _ & Hp).
    fold n in Hp. rewrite Hp, Hk, last_map_seq by exact Hn1.
    apply progress_value_last; assumption. }
  split.
  - intros H200. unfold progress_value.
    apply (JsNumberFacts.progress_float_first_pos n). lia.
  - intros H200. unfold progress_value.
    apply JsNumberFacts.progress_float_first_zero; lia.
Qed.

(** *** Several sheets *)

(** When the sheets step returns for a workbook that has not exactly one
    sheet and whose sheet names hold no dollar, the paths handed over are,
    in order, the stem followed by an underscore, the sheet name and
    .csv. *)
Lemma multi_sheet_paths (q ext : JsString.t) (wb : Workbook Sheet) (zip z : JSZip)
  (tr : Trace) :
  ext <> [] -> forallb ext_char ext = true ->
  forallb no_dollar (SheetNames wb) = true ->
  List.length (SheetNames wb) <> 1 ->
  step (q ++ dot :: ext) wb zip = (tr, Ok z) ->
  map fst (zip_calls tr) =
    map (fun n => q ++ underscore :: n ++ str ".csv") (SheetNames wb) /\
  ~ In (q ++ str ".csv") (map fst (zip_calls tr)).
Proof.
  intros Hne Hext Hd Hlen Hstep.
  destruct (sheets_step_prefix (q ++ dot :: ext) wb zip) as (rest & Hrest & Hok).
  rewrite Hstep in Hrest, Hok. cbn [fst snd] in *.
  rewrite (Hok z eq_refl), app_nil_r in Hrest.
  rewrite (@planned_found q ext wb Hne Hext Hd) in Hrest.
  assert (Hmap : map fst (zip_calls tr) =
                 map (fun n => q ++ underscore :: n ++ str ".csv") (SheetNames wb)).
  { rewrite <- Hrest. destruct (SheetNames wb) as [|n [|n' names]];
      [reflexivity | contradiction Hlen; reflexivity | reflexivity]. }
  split; [exact Hmap|].
  rewrite Hmap. intros Hin. apply in_map_iff in Hin as (n & Hn & _).
  apply app_inv_head in Hn. discriminate Hn.
Qed.

(** ** Beyond the path of one file: the rest of the handlers *)

(** *** What a trace leaves untouched *)


Lemma fold_keeps_converting (tr : Trace) :
  forallb (fun ev => negb (is_set_converting ev)) tr = true ->
  forall st : AppState Data,
    isConverting (fold_left apply_event tr st) = isConverting st.
Proof.
  induction tr as [|ev tr IH]; intros H st; [reflexivity|].
  cbn [forallb] in H. apply andb_true_iff in H as [Hev Htr].
  cbn [fold_left]. rewrite (IH Htr). destruct ev; try reflexivity. discriminate Hev.
Qed.

Lemma loop_events_not_converting (tr : Trace) :
  forallb is_loop_event tr = true ->
  forallb (fun ev => negb (is_set_converting ev)) tr = true.
Proof.
  induction tr as [|ev tr IH]; [reflexivity|].
  cbn [forallb]. intros H. apply andb_true_iff in H as [Hev Htr].
  rewrite (IH Htr). destruct ev; try discriminate Hev; reflexivity.
Qed.

(** *** The output folder name is read through [trim] only *)





(** *** A run whose finalisation throws *)

Lemma run_finalize_error (st : AppState Data) (tl : Trace) (zip : JSZip) (e : Exn) :
  files st <> [] -> trim (outputFolderName st) <> [] ->
  loop (outputFolderName st) (List.length (files st)) 0 (files st) [] = (tl, Ok zip) ->
  generateAsync zip = Throw e ->
  handle st =
    header ++ tl ++
    [GenerateAsync zip; ConsoleError e; SetError (Some (error_text e));
     SetIsConverting false] /\
  success (after st) = false /\ error (after st) = Some (error_text e) /\
  isConverting (after st) = false /\
  progress (after st) = last (progress_seq tl) 0%Z.
Proof.
  intros Hf Hr Hl Hg.
  pose proof (handle_loop_returns st Hf Hr Hl) as Hh. rewrite Hg in Hh.
  split; [exact Hh|]. unfold run. rewrite Hh.
  pose proof (convert_loop_loop_events (outputFolderName st)
                (List.length (files st)) (files st) 0 []) as Hev.
  rewrite Hl in Hev. simpl in Hev.
  destruct (loop_events_effect tl Hev) as (_ & _ & _ & Hst).
  rewrite !fold_left_app. cbn [header fold_left apply_event].
  match goal with |- context [fold_left apply_event tl ?s] =>
    destruct (Hst s) as (_ & _ & _ & _ & Hs & Hp) end.
  cbn [success isConverting error progress] in *. auto.
Qed.

Lemma error_text_not_empty (e : Exn) : error_text e <> [].
Proof.
  unfold error_text. destruct (message e) as [[|c m]|]; discriminate.
Qed.

(** *** The three outcomes of a run that was started *)

Lemma run_outcome (st : AppState Data) :
  files st <> [] -> trim (outputFolderName st) <> [] ->
  let root := outputFolderName st in
  let n := List.length (files st) in
  (exists tl zip zipBlob,
     loop root n 0 (files st) [] = (tl, Ok zip) /\ generateAsync zip = Ok zipBlob /\
     handle st = header ++ tl ++
       [GenerateAsync zip; SaveAs zipBlob (trim root ++ str ".zip");
        SetSuccess true; SetIsConverting false] /\
     success (after st) = true /\ error (after st) = None /\
     isConverting (after st) = false) \/
  (exists tl zip e,
     loop root n 0 (files st) [] = (tl, Ok zip) /\ generateAsync zip = Throw e /\
     handle st = header ++ tl ++
       [GenerateAsync zip; ConsoleError e; SetError (Some (error_text e));
        SetIsConverting false] /\
     success (after st) = false /\ error (after st) = Some (error_text e) /\
     isConverting (after st) = false) \/
  (exists tl e,
     loop root n 0 (files st) [] = (tl, Throw e) /\
     handle st = header ++ tl ++
       [ConsoleError e; SetError (Some (error_text e)); SetIsConverting false] /\
     success (after st) = false /\ error (after st) = Some (error_text e) /\
     isConverting (after st) = false).
Proof.
  intros Hf Hr root n.
  destruct (loop root n 0 (files st) []) as [tl [zip|e]] eqn:Hl.
  - destruct (generateAsync zip) as [blob|e] eqn:Hg.
    + left. exists tl, zip, blob.
      destruct (run_success st Hf Hr Hl Hg) as (H1 & H2 & H3 & _).
      pose proof (handle_loop_returns st Hf Hr Hl) as Hh. rewrite Hg in Hh. auto 10.
    + right. left. exists tl, zip, e.
      destruct (run_finalize_error st Hf Hr Hl Hg) as (H0 & H1 & H2 & H3 & _). auto 10.
  - right. right. exists tl, e.
    destruct (run_error st Hf Hr Hl) as (_ & _ & _ & _ & H1 & H2 & H3 & _).
    pose proof (handle_loop_throws st Hf Hr Hl) as Hh. auto 10.
Qed.

(** *** Selecting a folder *)

(** Lines 36 to 43.  The proposed output folder name is the first path
    segment of the first spreadsheet file of the selection, followed by
    [_csv]. *)
Theorem default_output_folder_name (st : AppState Data)
  (selected : list (File Data)) (first : File Data) (others : list (File Data))
  (root rest : JsString.t) :
  filter is_excel selected = first :: others ->
  webkitRelativePath first = root ++ slash :: rest ->
  no_slash root = true -> root <> [] ->
  outputFolderName (handleFolderSelect st (Some selected)) = root ++ str "_csv".
Proof.
  intros Hsel Hpath Hroot Hne. unfold handleFolderSelect.
  cbn [outputFolderName]. rewrite Hsel, Hpath.
  rewrite (@JsStringFacts.split_slash_first root rest Hroot).
  destruct root as [|c r]; [contradiction | reflexivity].
Qed.

Lemma default_name_not_blank (root : JsString.t) : trim (root ++ str "_csv") <> [].
Proof.
  intros H. apply JsStringLaws.trim_nil_blank in H.
  rewrite forallb_app in H. apply andb_true_iff in H as [_ H]. discriminate H.
Qed.

Lemma handle_started (st : AppState Data) :
  files st <> [] -> trim (outputFolderName st) <> [] ->
  exists mid,
    handle st = SetIsConverting true :: mid ++ [SetIsConverting false] /\
    forallb (fun ev => negb (is_set_converting ev)) mid = true.
Proof.
  intros Hf Hr.
  pose proof (convert_loop_loop_events (outputFolderName st)
                (List.length (files st)) (files st) 0 []) as Hev.
  destruct (run_outcome st Hf Hr)
    as [(tl & zip & blob & Hl & _ & Hh & _)
       |[(tl & zip & e & Hl & _ & Hh & _)|(tl & e & Hl & Hh & _)]];
    rewrite Hl in Hev; cbn [fst] in Hev;
    apply loop_events_not_converting in Hev; rewrite Hh.
  - exists ([SetError None; SetSuccess false; SetProgress 0] ++ tl ++
            [GenerateAsync zip; SaveAs blob (trim (outputFolderName st) ++ str ".zip");
             SetSuccess true]).
    split; [cbn [header app]; rewrite <- !app_assoc; reflexivity|].
    rewrite !forallb_app, Hev. reflexivity.
  - exists ([SetError None; SetSuccess false; SetProgress 0] ++ tl ++
            [GenerateAsync zip; ConsoleError e; SetError (Some (error_text e))]).
    split; [cbn [header app]; rewrite <- !app_assoc; reflexivity|].
    rewrite !forallb_app, Hev. reflexivity.
  - exists ([SetError None; SetSuccess false; SetProgress 0] ++ tl ++
            [ConsoleError e; SetError (Some (error_text e))]).
    split; [cbn [header app]; rewrite <- !app_assoc; reflexivity|].
    rewrite !forallb_app, Hev. reflexivity.
Qed.

Lemma handle_not_started (st : AppState Data) :
  files st = [] \/ trim (outputFolderName st) = [] ->
  existsb is_running (handle st) = false /\ progress_seq (handle st) = [] /\
  files_read (handle st) = [].
Proof.
  intros H. unfold handleConvert. destruct (files st) as [|f fs].
  - repeat split.
  - destruct H as [H|H]; [discriminate H|]. rewrite H. repeat split.
Qed.

(** Lines 22 to 60 and 236.  After a folder selection that holds a
    spreadsheet file under a root folder, made while no run is going on,
    the convert button is enabled and a click starts a run: the proposed
    name is never blank. *)
Theorem selection_makes_convert_runnable (st : AppState Data)
  (selected : list (File Data)) (first : File Data) (others : list (File Data))
  (root rest : JsString.t) :
  filter is_excel selected = first :: others ->
  webkitRelativePath first = root ++ slash :: rest ->
  no_slash root = true -> root <> [] ->
  isConverting st = false ->
  let st' := handleFolderSelect st (Some selected) in
  convert_disabled st' = false /\
  existsb is_running (handle st') = true /\
  error st' = None /\ success st' = false /\ progress st' = 0%Z.
Proof.
  intros Hsel Hpath Hroot Hne Hconv st'.
  assert (Hname : outputFolderName st' = root ++ str "_csv").
  { unfold st', handleFolderSelect. cbn [outputFolderName]. rewrite Hsel, Hpath.
    rewrite (@JsStringFacts.split_slash_first root rest Hroot).
    destruct root as [|c r]; [contradiction | reflexivity]. }
  assert (Hfiles : files st' = first :: others) by exact Hsel.
  assert (Htrim : trim (outputFolderName st') <> []).
  { rewrite Hname. apply default_name_not_blank. }
  split.
  - unfold convert_disabled. rewrite Hfiles.
    replace (isConverting st') with false by (symmetry; exact Hconv).
    destruct (trim (outputFolderName st')); [contradiction | reflexivity].
  - split; [|repeat split].
    destruct (handle_started st') as (mid & Hh & _);
      [rewrite Hfiles; discriminate | exact Htrim |].
    rewrite Hh. reflexivity.
Qed.

(** *** The convert button *)

(** Lines 46 to 60 and 236.  A click starts a run exactly when there are
    files and the name is not blank; the button is enabled exactly when no
    run is going on and a click would start one, so a click on an enabled
    button is never turned down by the validation. *)
Theorem button_guard_matches_validation (st : AppState Data) :
  (existsb is_running (handle st) = true <->
   files st <> [] /\ trim (outputFolderName st) <> []) /\
  (convert_disabled st = false <->
   isConverting st = false /\ existsb is_running (handle st) = true).
Proof.
  assert (Hrun : existsb is_running (handle st) = true <->
                 files st <> [] /\ trim (outputFolderName st) <> []).
  { split.
    - intros H. destruct (files st) as [|f fs] eqn:Hf.
      + destruct (handle_not_started st (or_introl Hf)) as [H' _]. congruence.
      + destruct (trim (outputFolderName st)) as [|c r] eqn:Hr.
        * destruct (handle_not_started st (or_intror Hr)) as [H' _]. congruence.
        * split; discriminate.
    - intros [Hf Hr]. destruct (handle_started st Hf Hr) as (mid & Hh & _).
      rewrite Hh. reflexivity. }
  split; [exact Hrun|]. rewrite Hrun. unfold convert_disabled.
  destruct (isConverting st); cbn [orb].
  - split; [discriminate | intros [H _]; discriminate H].
  - destruct (files st) as [|f fs]; cbn [List.length Nat.eqb orb].
    + split; [discriminate | intros [_ [H _]]; contradiction].
    + destruct (trim (outputFolderName st)) as [|c r].
      * split; [discriminate | intros [_ [_ H]]; contradiction].
      * split; [intros _; repeat split; discriminate | reflexivity].
Qed.

Lemma app_snoc_prefix {A} (pre suf mid : list A) (x : A) :
  pre ++ suf = mid ++ [x] -> suf <> [] -> exists suf', mid = pre ++ suf'.
Proof.
  intros H Hne. destruct (exists_last Hne) as (suf' & y & ->).
  rewrite app_assoc in H. apply app_inj_tail in H as [H _].
  exists suf'. symmetry. exact H.
Qed.

(** Lines 57, 99 and 236.  From the first event of a run to the one
    before its last, the state has [isConverting] set, so the button is
    disabled and no second run can be started in between. *)
Theorem button_disabled_while_converting (st : AppState Data)
  (pre suf : Trace) :
  files st <> [] -> trim (outputFolderName st) <> [] ->
  handle st = pre ++ suf -> pre <> [] -> suf <> [] ->
  isConverting (fold_left apply_event pre st) = true /\
  convert_disabled (fold_left apply_event pre st) = true.
Proof.
  intros Hf Hr Hsplit Hpre Hsuf.
  destruct (handle_started st Hf Hr) as (mid & Hh & Hmid).
  rewrite Hh in Hsplit. destruct pre as [|ev pre]; [contradiction|].
  cbn [app] in Hsplit. injection Hsplit as <- Hsplit. symmetry in Hsplit.
  destruct (@app_snoc_prefix _ pre suf mid _ Hsplit Hsuf) as (suf' & Hmid').
  rewrite Hmid', forallb_app in Hmid. apply andb_true_iff in Hmid as [Hp _].
  assert (Hc : isConverting (fold_left apply_event (SetIsConverting true :: pre) st) = true).
  { cbn [fold_left]. rewrite (fold_keeps_converting pre Hp). reflexivity. }
  split; [exact Hc|]. unfold convert_disabled. rewrite Hc. reflexivity.
Qed.

(** *** Finalisation, download and the final status *)

Lemma loop_events_silent (tr : Trace) :
  forallb is_loop_event tr = true -> downloads tr = [] /\ finalized tr = [].
Proof.
  induction tr as [|ev tr IH]; [split; reflexivity|].
  cbn [forallb]. intros H. apply andb_true_iff in H as [Hev Htr].
  destruct (IH Htr) as [Hd Hz]. unfold downloads, finalized in *.
  destruct ev; try discriminate Hev; cbn [collect download_of finalize_of]; auto.
Qed.

(** Lines 92 to 100.  In a run that was started, the archive is handed
    to the browser exactly when the run ends in success: then there is one
    finalisation, of the archive built by the calls of this run, and one
    download, of its blob, named after the trimmed output folder name; a run
    that does not end in success downloads nothing. *)
Theorem download_iff_success (st : AppState Data) :
  files st <> [] -> trim (outputFolderName st) <> [] ->
  (success (after st) = true ->
   exists zip zipBlob,
     finalized (handle st) = [zip] /\
     zip = archive_after (zip_calls (handle st)) [] /\
     generateAsync zip = Ok zipBlob /\
     downloads (handle st) = [(zipBlob, trim (outputFolderName st) ++ str ".zip")]) /\
  (success (after st) = false -> downloads (handle st) = []).
Proof.
  intros Hf Hr.
  pose proof (convert_loop_loop_events (outputFolderName st)
                (List.length (files st)) (files st) 0 []) as Hev.
  destruct (run_outcome st Hf Hr)
    as [(tl & zip & blob & Hl & Hg & Hh & Hs & _)
       |[(tl & zip & e & Hl & Hg & Hh & Hs & _)|(tl & e & Hl & Hh & Hs & _)]];
    rewrite Hl in Hev; cbn [fst] in Hev;
    destruct (loop_events_silent tl Hev) as [Hd Hz];
    rewrite Hs, Hh; unfold downloads, finalized, zip_calls in *;
    rewrite !collect_app, ?Hd, ?Hz.
  - split; [intros _ | discriminate].
    exists zip, blob. cbn [header collect download_of finalize_of zip_call_of app].
    rewrite app_nil_r. repeat split; try assumption.
    apply (@convert_loop_archive _ _ _ _ _ _ _ Hl).
  - split; [discriminate | intros _]. reflexivity.
  - split; [discriminate | intros _]. reflexivity.
Qed.

(** Lines 57 to 100, 258 and 270.  When a run that was started is over,
    [isConverting] is cleared and exactly one of the two banners is shown:
    the success banner, or the error banner with a message that is not
    empty. *)
Theorem one_banner_after_run (st : AppState Data) :
  files st <> [] -> trim (outputFolderName st) <> [] ->
  isConverting (after st) = false /\
  show_success (after st) = negb (show_error (after st)) /\
  (success (after st) = false ->
   exists e, error (after st) = Some (error_text e) /\ error_text e <> []).
Proof.
  intros Hf Hr.
  destruct (run_outcome st Hf Hr)
    as [(tl & zip & blob & _ & _ & _ & Hs & He & Hc)
       |[(tl & zip & e & _ & _ & _ & Hs & He & Hc)|(tl & e & _ & _ & Hs & He & Hc)]];
    unfold show_success, show_error; rewrite Hs, He, Hc.
  - repeat split. discriminate.
  - split; [reflexivity|]. pose proof (error_text_not_empty e) as Hne. split.
    + destruct (error_text e); [contradiction | reflexivity].
    + intros _. exists e. auto.
  - split; [reflexivity|]. pose proof (error_text_not_empty e) as Hne. split.
    + destruct (error_text e); [contradiction | reflexivity].
    + intros _. exists e. auto.
Qed.

(** Lines 92 to 99.  When every file converts and the finalisation of the
    archive throws, the run ends in error with the message of that
    exception, nothing is downloaded, and the progress stays at 100. *)
Theorem finalize_failure_is_run_error (st : AppState Data) (tl : Trace)
  (zip : JSZip) (e : Exn) :
  files st <> [] -> trim (outputFolderName st) <> [] ->
  (Z.of_nat (List.length (files st)) < 2 ^ 32)%Z ->
  loop (outputFolderName st) (List.length (files st)) 0 (files st) [] = (tl, Ok zip) ->
  generateAsync zip = Throw e ->
  finalized (handle st) = [zip] /\ downloads (handle st) = [] /\
  success (after st) = false /\ error (after st) = Some (error_text e) /\
  isConverting (after st) = false /\ progress (after st) = 100%Z.
Proof.
  intros Hf Hr Hlen Hl Hg.
  destruct (run_finalize_error st Hf Hr Hl Hg) as (Hh & Hs & He & Hc & Hp).
  pose proof (convert_loop_loop_events (outputFolderName st)
                (List.length (files st)) (files st) 0 []) as Hev.
  rewrite Hl in Hev. cbn [fst] in Hev.
  destruct (loop_events_silent tl Hev) as [Hd Hz].
  pose proof (convert_loop_shape (outputFolderName st) (List.length (files st))
                (files st) 0 []) as Hshape.
  rewrite Hl in Hshape. destruct Hshape as (k & Hk & -> & _).
  assert (Hn1 : 1 <= List.length (files st)).
  { destruct (files st); [contradiction | cbn; lia]. }
  rewrite Hh. unfold downloads, finalized in *. rewrite !collect_app, Hd, Hz.
  repeat split; try assumption.
  rewrite Hp, Hk. cbn [Nat.add]. rewrite (last_map_seq _ _ Hn1).
  apply progress_value_last; assumption.
Qed.

(** Lines 65 to 100.  Whatever throws in the step of a file (reading it,
    decoding it, serialising one of its sheets), when the files before it
    converted: the trace is theirs, then that of the failing step, then the
    error; that file is the last one read, nothing is finalised or
    downloaded, and the error shown is that of the exception. *)
Theorem first_failure_aborts_run (st : AppState Data)
  (pre post : list (File Data)) (f : File Data)
  (tpre tf : Trace) (zpre : JSZip) (e : Exn) :
  files st = pre ++ f :: post -> trim (outputFolderName st) <> [] ->
  loop (outputFolderName st) (List.length (files st)) 0 pre [] = (tpre, Ok zpre) ->
  one (outputFolderName st) (List.length (files st)) (List.length pre) f zpre
    = (tf, Throw e) ->
  handle st =
    header ++ tpre ++ tf ++
    [ConsoleError e; SetError (Some (error_text e)); SetIsConverting false] /\
  files_read (handle st) = pre ++ [f] /\
  finalized (handle st) = [] /\ downloads (handle st) = [] /\
  success (after st) = false /\ error (after st) = Some (error_text e).
Proof.
  intros Hfiles Hr Hpre Hone.
  assert (Hf : files st <> []).
  { rewrite Hfiles. intros H. symmetry in H. exact (app_cons_not_nil _ _ _ H). }
  assert (Hl : loop (outputFolderName st) (List.length (files st)) 0 (files st) []
               = (tpre ++ tf, Throw e)).
  { rewrite Hfiles at 2. rewrite convert_loop_app, Hpre. cbn [bind convert_loop Nat.add].
    rewrite Hone. reflexivity. }
  pose proof (handle_loop_throws st Hf Hr Hl) as Hh.
  destruct (run_error st Hf Hr Hl) as (_ & _ & _ & Hfr & Hs & _ & He & _).
  pose proof (convert_loop_loop_events (outputFolderName st)
                (List.length (files st)) (files st) 0 []) as Hev.
  rewrite Hl in Hev. cbn [fst] in Hev.
  destruct (loop_events_silent _ Hev) as [Hd Hz].
  pose proof (convert_loop_shape (outputFolderName st) (List.length (files st)) pre 0 [])
    as Hs1.
  rewrite Hpre in Hs1. destruct Hs1 as (k1 & _ & _ & Hfr1).
  pose proof (convert_loop_shape (outputFolderName st) (List.length (files st)) [f]
                (List.length pre) zpre) as Hs2.
  cbn [convert_loop] in Hs2. rewrite Hone in Hs2. cbn [bind] in Hs2.
  destruct Hs2 as (k2 & _ & Hk2 & Hfr2).
  assert (k2 = 0) by (cbn in Hk2; lia). subst k2. cbn [firstn] in Hfr2.
  split; [rewrite Hh, <- !app_assoc; reflexivity|].
  split.
  { rewrite Hfr. unfold files_read in *. rewrite collect_app, Hfr1, Hfr2. reflexivity. }
  rewrite Hh. unfold downloads, finalized in *.
  rewrite collect_app in Hd. rewrite collect_app in Hz.
  rewrite !collect_app, Hd, Hz.
  repeat split; assumption.
Qed.

(** *** Two runs, and the same run twice *)



(** *** The order of reading, and the range of the progress *)

(** Lines 65 to 68.  The files are read one by one in the order of the
    list, each at most once: the files read in a run are the first ones of
    the list, all of them when the run ends in success. *)
Theorem files_read_in_order (st : AppState Data) :
  files st <> [] -> trim (outputFolderName st) <> [] ->
  (exists k, 1 <= k <= List.length (files st) /\
     files_read (handle st) = firstn k (files st)) /\
  (success (after st) = true -> files_read (handle st) = files st).
Proof.
  intros Hf Hr.
  assert (Hn1 : 1 <= List.length (files st)).
  { destruct (files st); [contradiction | cbn; lia]. }
  pose proof (convert_loop_shape (outputFolderName st) (List.length (files st))
                (files st) 0 []) as Hshape.
  destruct (run_outcome st Hf Hr)
    as [(tl & zip & blob & Hl & _ & Hh & Hs & _)
       |[(tl & zip & e & Hl & _ & Hh & Hs & _)|(tl & e & Hl & Hh & Hs & _)]];
    rewrite Hl in Hshape; destruct Hshape as (k & _ & Hk & Hfr);
    rewrite Hh, Hs; unfold files_read in *; rewrite !collect_app, Hfr;
    cbn [header collect read_of app]; rewrite app_nil_r.
  - split; [|reflexivity]. exists (List.length (files st)).
    split; [lia | symmetry; apply firstn_all].
  - split; [|discriminate]. exists (List.length (files st)).
    split; [lia | symmetry; apply firstn_all].
  - split; [|discriminate]. exists (S k). split; [lia | reflexivity].
Qed.

Lemma progress_value_range (j n : nat) :
  1 <= j -> j <= n -> (Z.of_nat n < 2 ^ 32)%Z ->
  (0 <= progress_value j n <= 100)%Z.
Proof.
  intros Hj Hjn Hn.
  assert (H53 : (2 ^ 32 < 2 ^ 53)%Z) by reflexivity.
  split.
  - unfold progress_value. apply JsNumberLaws.progress_float_nonneg; lia.
  - rewrite <- (progress_value_last (n := n)) by (assumption || lia).
    apply progress_value_mono; (assumption || lia).
Qed.

(** Lines 60 and 89.  With fewer than 2^32 files, every progress value
    that a click sets, in a run that succeeds or fails or is turned down,
    lies between 0 and 100, and so does the progress left in the state by a
    run that was started. *)
Theorem progress_stays_in_range (st : AppState Data) :
  (Z.of_nat (List.length (files st)) < 2 ^ 32)%Z ->
  (forall p, In p (progress_seq (handle st)) -> (0 <= p <= 100)%Z) /\
  (files st <> [] -> trim (outputFolderName st) <> [] ->
   (0 <= progress (after st) <= 100)%Z).
Proof.
  intros Hlen.
  assert (Hloop : forall tl r,
    loop (outputFolderName st) (List.length (files st)) 0 (files st) [] = (tl, r) ->
    forall p, In p (0%Z :: progress_seq tl) -> (0 <= p <= 100)%Z).
  { intros tl r Hl p Hin.
    pose proof (convert_loop_shape (outputFolderName st) (List.length (files st))
                  (files st) 0 []) as Hshape.
    rewrite Hl in Hshape. destruct Hshape as (k & Hk & Hr).
    assert (Hkn : k <= List.length (files st)) by (destruct r; lia).
    destruct Hin as [<-|Hin]; [lia|].
    rewrite Hk in Hin. apply in_map_iff in Hin as (j & <- & Hj).
    apply in_seq in Hj. cbn [Nat.add]. apply progress_value_range; lia. }
  assert (Hlast : forall l : list Z,
    (forall p, In p (0%Z :: l) -> (0 <= p <= 100)%Z) -> (0 <= last l 0 <= 100)%Z).
  { intros l H. destruct l as [|a l]; [cbn; lia|].
    apply H. right. destruct (exists_last (l := a :: l) ltac:(discriminate))
      as (l' & x & Hx). rewrite Hx, last_last. apply in_or_app. right. left. reflexivity. }
  destruct (files st) as [|f fs] eqn:Ef.
  { split; [|intros H; contradiction].
    destruct (handle_not_started st (or_introl Ef)) as (_ & Hp & _).
    rewrite Hp. intros p []. }
  destruct (trim (outputFolderName st)) as [|c r] eqn:Er.
  { split; [|intros _ H; contradiction].
    destruct (handle_not_started st (or_intror Er)) as (_ & Hp & _).
    rewrite Hp. intros p []. }
  assert (Hf : files st <> []) by (rewrite Ef; discriminate).
  assert (Hr : trim (outputFolderName st) <> []) by (rewrite Er; discriminate).
  rewrite <- Ef in Hloop.
  destruct (loop (outputFolderName st) (List.length (files st)) 0 (files st) [])
    as [tl [zip|e]] eqn:Hl.
  - assert (Hseq : progress_seq (handle st) = 0%Z :: progress_seq tl).
    { rewrite (handle_loop_returns st Hf Hr Hl). unfold progress_seq.
      rewrite !collect_app. destruct (generateAsync zip);
        cbn [header collect progress_of app]; rewrite app_nil_r; reflexivity. }
    split; [rewrite Hseq; apply (Hloop tl _ eq_refl)|]. intros _ _.
    destruct (generateAsync zip) as [blob|e] eqn:Hg.
    + destruct (run_success st Hf Hr Hl Hg) as (_ & _ & _ & Hp).
      rewrite Hp. apply Hlast. apply (Hloop tl _ eq_refl).
    + destruct (run_finalize_error st Hf Hr Hl Hg) as (_ & _ & _ & _ & Hp).
      rewrite Hp. apply Hlast. apply (Hloop tl _ eq_refl).
  - destruct (run_error st Hf Hr Hl) as (_ & _ & Hseq & _ & _ & _ & _ & Hp).
    split; [rewrite Hseq; apply (Hloop tl _ eq_refl)|]. intros _ _.
    rewrite Hp, Hseq, last_cons_default. apply Hlast. apply (Hloop tl _ eq_refl).
Qed.

(** *** The entries of a run *)

Lemma convert_loop_planned (root : JsString.t) (total : nat) (fs : list (File Data)) :
  forall i zip tr z,
    loop root total i fs zip = (tr, Ok z) ->
    map fst (zip_calls tr) = flat_map (plan XLSX_read root) fs.
Proof.
  induction fs as [|f fs IH]; intros i zip tr z; cbn [convert_loop flat_map].
  - intros H. injection H as <- _. reflexivity.
  - destruct (convert_file_prefix root total i f zip) as (rest & Hrest & Hok).
    destruct (one root total i f zip) as [t1 [z1|e]]; cbn [bind fst snd] in *;
      [|discriminate].
    rewrite (Hok z1 eq_refl), app_nil_r in Hrest.
    specialize (IH (S i) z1).
    destruct (loop root total (S i) fs z1) as [t2 r].
    intros H. injection H as <- ->.
    rewrite zip_calls_app, map_app, Hrest, (IH t2 z eq_refl). reflexivity.
Qed.

(** Lines 65 to 87.  The entries are written file by file in the order
    of the list and, within a file, sheet by sheet in the order of the
    workbook: the paths of the calls of a run are the first ones of the
    planned paths of the files, and all of them, each once, when the run
    ends in success. *)
Theorem calls_follow_files_and_sheets (st : AppState Data) :
  files st <> [] -> trim (outputFolderName st) <> [] ->
  (exists rest,
     flat_map (plan XLSX_read (outputFolderName st)) (files st) =
     map fst (zip_calls (handle st)) ++ rest) /\
  (success (after st) = true ->
   map fst (zip_calls (handle st)) =
   flat_map (plan XLSX_read (outputFolderName st)) (files st)).
Proof.
  intros Hf Hr.
  assert (Hz : zip_calls (handle st) =
    zip_calls (fst (loop (outputFolderName st) (List.length (files st)) 0 (files st) []))).
  { destruct (handle_zip_calls st) as [H|H]; [|exact H].
    destruct (run_outcome st Hf Hr)
      as [(tl & zip & blob & Hl & _ & Hh & _)
         |[(tl & zip & e & Hl & _ & Hh & _)|(tl & e & Hl & Hh & _)]];
      rewrite Hl; cbn [fst]; rewrite Hh; rewrite !zip_calls_app;
      cbn [header zip_calls collect zip_call_of app]; rewrite app_nil_r; reflexivity. }
  rewrite Hz. split.
  - apply convert_loop_prefix.
  - intros Hs.
    destruct (run_success_inv st Hf Hr Hs) as (tl & zip & blob & Hl & _ & _).
    rewrite Hl. cbn [fst]. apply (@convert_loop_planned _ _ _ _ _ _ _ Hl).
Qed.

Lemma forEach_sheet_calls (base : JsString.t) (sheets : list (JsString.t * Sheet))
  (names : list JsString.t) (p csv : JsString.t) :
  forall zip,
    In (p, csv) (zip_calls (fst (each base sheets names zip))) ->
    exists n, In n names /\ sheet_to_csv (get_sheet sheets n) = Ok csv /\
      p = replace_ext base (str "_" ++ n ++ str ".csv").
Proof.
  induction names as [|n names IH]; intros zip; cbn [forEach_sheet].
  - intros [].
  - destruct (sheet_to_csv (get_sheet sheets n)) as [c|e] eqn:Ec;
      cbn [lift bind zip_add emit ret app]; [|intros []].
    specialize (IH (zip_file (replace_ext base (str "_" ++ n ++ str ".csv")) c zip)).
    destruct (each base sheets names _) as [tr r]. cbn [fst app] in *.
    cbn [zip_calls collect zip_call_of app].
    intros [H|H].
    + injection H as <- <-. exists n. split; [left; reflexivity|]. split; [exact Ec|].
      reflexivity.
    + destruct (IH H) as (m & Hm & Hcsv & Hp). exists m.
      split; [right; exact Hm|]. split; assumption.
Qed.

(** Lines 66 to 86.  Every entry written in the step of a file holds the
    serialisation of one sheet of the workbook decoded from that file,
    looked up by its name: at the path with [.csv] when the workbook has
    exactly one sheet, at the path with the sheet name otherwise. *)
Theorem entry_holds_its_sheet (root : JsString.t) (total i : nat) (f : File Data)
  (zip : JSZip) (p csv : JsString.t) :
  In (p, csv) (zip_calls (fst (one root total i f zip))) ->
  exists d wb n,
    arrayBuffer f = Ok d /\ XLSX_read d = Ok wb /\ In n (SheetNames wb) /\
    sheet_to_csv (get_sheet (Sheets wb) n) = Ok csv /\
    ((SheetNames wb = [n] /\ p = replace_ext (newPathBase root f) (str ".csv")) \/
     (List.length (SheetNames wb) <> 1 /\
      p = replace_ext (newPathBase root f) (str "_" ++ n ++ str ".csv"))).
Proof.
  destruct (arrayBuffer f) as [d|e] eqn:Hd.
  2:{ rewrite (convert_file_read_fails root total i f zip Hd). intros []. }
  destruct (XLSX_read d) as [wb|e] eqn:Hwb.
  2:{ rewrite (convert_file_decode_fails root total i f zip Hd Hwb). intros []. }
  rewrite (convert_file_decoded root total i f zip Hd Hwb).
  intros Hin.
  assert (Hstep : In (p, csv) (zip_calls (fst (step (newPathBase root f) wb zip)))).
  { destruct (step (newPathBase root f) wb zip) as [ts [zs|e]]; cbn [fst] in *.
    - change (ReadFile f :: XlsxRead d :: ts ++ [SetProgress (progress_value (i + 1) total)])
        with ([ReadFile f; XlsxRead d] ++ ts ++ [SetProgress (progress_value (i + 1) total)])
        in Hin.
      rewrite !zip_calls_app in Hin. cbn [zip_calls collect zip_call_of app] in Hin.
      rewrite app_nil_r in Hin. exact Hin.
    - exact Hin. }
  clear Hin. exists d, wb. unfold sheets_step in Hstep.
  destruct (SheetNames wb) as [|n [|n' names]] eqn:Hn.
  - destruct Hstep.
  - destruct (sheet_to_csv (get_sheet (Sheets wb) n)) as [c|e] eqn:Ec;
      cbn [lift bind zip_add emit ret app fst zip_calls collect zip_call_of] in Hstep;
      [|destruct Hstep].
    destruct Hstep as [H|[]]. injection H as <- <-.
    exists n. split; [reflexivity|]. split; [exact Hwb|].
    split; [left; reflexivity|]. split; [exact Ec|]. left. split; reflexivity.
  - destruct (forEach_sheet_calls _ _ _ _ _ _ Hstep) as (m & Hm & Hcsv & Hp).
    exists m. split; [reflexivity|]. split; [exact Hwb|].
    split; [exact Hm|]. split; [exact Hcsv|]. right. split; [cbn; lia | exact Hp].
Qed.

(** *** The rewritten path, whatever the sheets are called *)

Lemma is_excel_name (f : File Data) :
  is_excel f = true ->
  exists p ext, name f = p ++ dot :: ext /\ ext <> [] /\ forallb ext_char ext = true.
Proof.
  intros Hx. unfold is_excel in Hx. apply orb_true_iff in Hx.
  destruct Hx as [Hx|Hx]; apply JsStringFacts.endsWith_spec in Hx as [p Hx].
  - change (str ".xlsx") with (dot :: str "xlsx") in Hx.
    destruct (@JsStringFacts.lower_suffix _ _ _ Hx eq_refl) as (p' & ext' & H1 & H2 & H3).
    exists p', ext'. split; [exact H1|]. split; [|exact H3].
    intros ->. discriminate H2.
  - change (str ".xls") with (dot :: str "xls") in Hx.
    destruct (@JsStringFacts.lower_suffix _ _ _ Hx eq_refl) as (p' & ext' & H1 & H2 & H3).
    exists p', ext'. split; [exact H1|]. split; [|exact H3].
    intros ->. discriminate H2.
Qed.

Lemma planned_replace (base : JsString.t) (wb : Workbook Sheet) (p : JsString.t) :
  In p (planned base wb) -> exists repl, p = replace_ext base repl.
Proof.
  unfold planned.
  assert (Hmulti : forall names,
    In p (map (fun n => replace_ext base (str "_" ++ n ++ str ".csv")) names) ->
    exists repl, p = replace_ext base repl).
  { intros names Hin. apply in_map_iff in Hin as (n & <- & _). eexists. reflexivity. }
  destruct (SheetNames wb) as [|n [|n' names]]; [apply Hmulti | | apply Hmulti].
  intros [<-|[]]. eexists. reflexivity.
Qed.

Lemma call_paths_replace (root : JsString.t) (total i : nat) (f : File Data)
  (zip : JSZip) (p : JsString.t) :
  In p (map fst (zip_calls (fst (one root total i f zip)))) ->
  exists repl, p = replace_ext (newPathBase root f) repl.
Proof.
  intros Hin.
  destruct (convert_file_prefix root total i f zip) as (rest & Hrest & _).
  assert (Hp : In p (plan XLSX_read root f)).
  { rewrite Hrest. apply in_or_app. left. exact Hin. }
  unfold plan in Hp. destruct (arrayBuffer f) as [d|e]; [|destruct Hp].
  destruct (XLSX_read d) as [wb|e]; [|destruct Hp].
  apply (@planned_replace _ wb p Hp).
Qed.

(** Lines 70 to 86.  Every entry of a spreadsheet file keeps the folders
    of the file below the root and the file name up to its last dot, under
    the trimmed output folder name, whatever the sheets are called and
    whether or not the step of the file comes to its end. *)
Theorem entries_keep_folders_and_stem (root : JsString.t) (total i : nat)
  (f : File Data) (zip : JSZip) (a dirs : JsString.t) :
  is_excel f = true ->
  webkitRelativePath f = a ++ slash :: dirs ++ name f -> no_slash a = true ->
  exists base ext,
    name f = base ++ dot :: ext /\ ext <> [] /\ forallb ext_char ext = true /\
    forall p, In p (map fst (zip_calls (fst (one root total i f zip)))) ->
      prefixb (trim root ++ slash :: dirs ++ base) p = true.
Proof.
  intros Hx Hp Ha.
  destruct (is_excel_name f Hx) as (base & ext & Hname & Hne & Hext).
  exists base, ext. repeat split; try assumption.
  intros p Hin. destruct (call_paths_replace root total i f zip p Hin) as (repl & ->).
  rewrite (@newPathBase_first root f a (dirs ++ name f) Hp Ha), Hname.
  replace (trim root ++ slash :: dirs ++ base ++ dot :: ext)
    with ((trim root ++ slash :: dirs ++ base) ++ dot :: ext)
    by (rewrite <- !app_assoc; cbn [app]; rewrite <- !app_assoc; reflexivity).
  rewrite (@JsStringFacts.replace_ext_found repl ext _ Hne Hext).
  apply JsStringFacts.prefixb_spec. eexists. reflexivity.
Qed.

(** Lines 70 to 73.  Only the first segment of the relative path is
    replaced: the segments of the rewritten path are those of the trimmed
    output folder name, several when it holds slashes, followed by the
    segments of the relative path after the first one. *)
Theorem rewrite_replaces_first_segment_only (root : JsString.t) (f : File Data) :
  split_slash (newPathBase root f) =
  split_slash (trim root) ++ tl (split_slash (webkitRelativePath f)).
Proof.
  unfold newPathBase.
  pose proof (JsStringLaws.split_slash_segments (webkitRelativePath f)) as Hall.
  destruct (split_slash (webkitRelativePath f)) as [|seg segs]; cbn [set_first tl].
  - cbn [join_slash]. rewrite app_nil_r. reflexivity.
  - destruct segs as [|s2 segs].
    + cbn [join_slash]. rewrite app_nil_r. reflexivity.
    + rewrite JsStringFacts.join_slash_cons by discriminate.
      rewrite JsStringLaws.split_slash_app. f_equal.
      apply JsStringLaws.split_join; [discriminate|].
      inversion Hall. assumption.
Qed.

(** Lines 70 to 86.  A file whose relative path has no slash loses its
    name: the whole path is replaced by the trimmed output folder name, so
    every entry of the file is derived from that name alone, and is that
    name itself when it has no extension. *)
Theorem path_without_folder_loses_name (root : JsString.t) (total i : nat)
  (f : File Data) (zip : JSZip) :
  no_slash (webkitRelativePath f) = true ->
  newPathBase root f = trim root /\
  (forall p, In p (map fst (zip_calls (fst (one root total i f zip)))) ->
     exists repl, p = replace_ext (trim root) repl) /\
  (has_ext (trim root) = false ->
   forall p, In p (map fst (zip_calls (fst (one root total i f zip)))) ->
     p = trim root).
Proof.
  intros Hns.
  assert (Hb : newPathBase root f = trim root).
  { unfold newPathBase. rewrite (JsStringLaws.split_slash_no_slash _ Hns). reflexivity. }
  split; [exact Hb|]. split.
  - intros p Hin. rewrite <- Hb. apply (call_paths_replace root total i f zip p Hin).
  - intros He p Hin.
    destruct (call_paths_replace root total i f zip p Hin) as (repl & ->).
    rewrite Hb. unfold replace_ext.
    rewrite (JsStringLaws.replace_ext_from_none repl _ He). reflexivity.
Qed.

(** *** Selecting a folder, again *)

(** Lines 31 to 43.  A selection without any spreadsheet file, or whose
    first spreadsheet file has a relative path that is empty or starts
    with a slash, keeps the output folder name that was there; with no
    spreadsheet file the convert button is disabled and a click starts
    nothing. *)
Theorem selection_without_root_keeps_name (st : AppState Data)
  (selected : list (File Data)) :
  let st' := handleFolderSelect st (Some selected) in
  (filter is_excel selected = [] ->
   outputFolderName st' = outputFolderName st /\ files st' = [] /\
   convert_disabled st' = true /\ existsb is_running (handle st') = false) /\
  (forall first others rest,
     filter is_excel selected = first :: others ->
     webkitRelativePath first = [] \/ webkitRelativePath first = slash :: rest ->
     outputFolderName st' = outputFolderName st).
Proof.
  cbn zeta. split.
  - intros Hsel. unfold handleFolderSelect, convert_disabled.
    cbn [outputFolderName files isConverting]. rewrite Hsel.
    split; [reflexivity|]. split; [reflexivity|].
    split; [cbn [List.length Nat.eqb]; rewrite orb_true_r; reflexivity|].
    apply handle_not_started. left. reflexivity.
  - intros first others rest Hsel Hpath. unfold handleFolderSelect.
    cbn [outputFolderName]. rewrite Hsel.
    destruct Hpath as [-> | ->]; [reflexivity|].
    cbn [split_slash]. rewrite JsStringFacts.eqb_char_refl. reflexivity.
Qed.

(** Lines 26 to 43.  Selecting again the files that a selection kept
    changes nothing: the filter keeps all of them and the proposed name is
    the same. *)
Theorem reselecting_kept_files_changes_nothing (st : AppState Data)
  (selected : list (File Data)) :
  let st' := handleFolderSelect st (Some selected) in
  handleFolderSelect st' (Some (files st')) = st'.
Proof.
  cbn zeta. unfold handleFolderSelect at 1.
  assert (Hfil : filter is_excel (files (handleFolderSelect st (Some selected)))
                 = files (handleFolderSelect st (Some selected))).
  { cbn [handleFolderSelect files].
    apply forallb_filter_id. apply forallb_forall.
    intros x Hx. apply filter_In in Hx. apply Hx. }
  rewrite Hfil. unfold handleFolderSelect. cbn [files outputFolderName isConverting].
  destruct (filter is_excel selected) as [|first others]; [reflexivity|].
  destruct (split_slash (webkitRelativePath first)) as [|[|c r] segs]; reflexivity.
Qed.

(** *** The list of files on the page *)

(** Lines 305 to 325.  The page lists the first 50 files, in order, and
    counts the others: the files listed and the number announced add up
    to the file list, and nothing is announced exactly when all the files
    are listed. *)
Theorem preview_accounts_for_all_files (st : AppState Data) :
  (exists others, files st = preview_files st ++ others /\
     List.length others = match more_files st with Some k => k | None => 0 end) /\
  List.length (preview_files st) <= 50 /\
  (more_files st = None <-> preview_files st = files st) /\
  (forall k, more_files st = Some k -> 1 <= k).
Proof.
  unfold preview_files, more_files.
  destruct (Nat.ltb_spec 50 (List.length (files st))) as [Hlt|Hle].
  - split; [|split; [|split]].
    + exists (skipn 50 (files st)). split; [symmetry; apply firstn_skipn|].
      apply length_skipn.
    + apply firstn_le_length.
    + split; [discriminate|]. intros H. apply (f_equal (@List.length _)) in H.
      rewrite length_firstn in H. lia.
    + intros k H. injection H as <-. lia.
  - split; [|split; [|split]].
    + exists []. rewrite app_nil_r. split; [|reflexivity].
      symmetry. apply firstn_all2. exact Hle.
    + apply firstn_le_length.
    + split; [intros _; apply firstn_all2; exact Hle | reflexivity].
    + intros k H. discriminate H.
Qed.

(** *** The entries of a run, with their texts *)

Lemma forEach_sheet_entries (base : JsString.t) (wb : Workbook Sheet)
  (names : list JsString.t) :
  forall zip tr z,
    each base (Sheets wb) names zip = (tr, Ok z) ->
    zip_calls tr =
    flat_map (fun n => sheet_entry sheet_to_csv base wb (str "_" ++ n ++ str ".csv") n)
             names.
Proof.
  induction names as [|n names IH]; intros zip tr z; cbn [forEach_sheet flat_map].
  - intros H. injection H as <- _. reflexivity.
  - unfold sheet_entry at 1.
    destruct (sheet_to_csv (get_sheet (Sheets wb) n)) as [csv|e];
      cbn [lift bind zip_add emit ret app]; [|discriminate].
    specialize (IH (zip_file (replace_ext base (str "_" ++ n ++ str ".csv")) csv zip)).
    destruct (each base (Sheets wb) names _) as [t2 r].
    intros H. injection H as <- ->.
    cbn [zip_calls collect zip_call_of app]. f_equal. apply (IH t2 z eq_refl).
Qed.

Lemma sheets_step_entries (base : JsString.t) (wb : Workbook Sheet)
  (zip z : JSZip) (tr : Trace) :
  step base wb zip = (tr, Ok z) ->
  zip_calls tr = planned_entries sheet_to_csv base wb.
Proof.
  unfold sheets_step, planned_entries.
  destruct (SheetNames wb) as [|n [|n' names]].
  - apply forEach_sheet_entries.
  - unfold sheet_entry.
    destruct (sheet_to_csv (get_sheet (Sheets wb) n)) as [csv|e];
      cbn [lift bind zip_add emit ret app]; [|discriminate].
    intros H. injection H as <- _. reflexivity.
  - apply forEach_sheet_entries.
Qed.

Lemma convert_file_entries (root : JsString.t) (total i : nat) (f : File Data)
  (zip z : JSZip) (tr : Trace) :
  one root total i f zip = (tr, Ok z) ->
  zip_calls tr = plan_entries XLSX_read sheet_to_csv root f.
Proof.
  unfold plan_entries. destruct (arrayBuffer f) as [d|e] eqn:Hd.
  - destruct (XLSX_read d) as [wb|e] eqn:Hwb.
    + rewrite (convert_file_decoded root total i f zip Hd Hwb).
      pose proof (@sheets_step_entries (newPathBase root f) wb zip) as Hs.
      destruct (step _ wb zip) as [ts [zs|e]]; [|discriminate].
      intros H. injection H as <- _.
      change (ReadFile f :: XlsxRead d :: ts ++ [SetProgress (progress_value (i + 1) total)])
        with ([ReadFile f; XlsxRead d] ++ ts ++ [SetProgress (progress_value (i + 1) total)]).
      rewrite !zip_calls_app. cbn [zip_calls collect zip_call_of app].
      rewrite app_nil_r. apply (Hs zs ts eq_refl).
    + rewrite (convert_file_decode_fails root total i f zip Hd Hwb). discriminate.
  - rewrite (convert_file_read_fails root total i f zip Hd). discriminate.
Qed.

Lemma convert_loop_entries (root : JsString.t) (total : nat) (fs : list (File Data)) :
  forall i zip tr z,
    loop root total i fs zip = (tr, Ok z) ->
    zip_calls tr = flat_map (plan_entries XLSX_read sheet_to_csv root) fs.
Proof.
  induction fs as [|f fs IH]; intros i zip tr z; cbn [convert_loop flat_map].
  - intros H. injection H as <- _. reflexivity.
  - pose proof (@convert_file_entries root total i f zip) as H1.
    destruct (one root total i f zip) as [t1 [z1|e]]; cbn [bind]; [|discriminate].
    specialize (IH (S i) z1).
    destruct (loop root total (S i) fs z1) as [t2 r].
    intros H. injection H as <- ->.
    rewrite zip_calls_app, (H1 z1 t1 eq_refl), (IH t2 z eq_refl). reflexivity.
Qed.

End PipelineFacts.

(** ** Two independent runs *)

Section IndependentRuns.

Context {Data Sheet Blob : Type}.
Variable XLSX_read : Data -> result (Workbook Sheet).
Variable sheet_to_csv : option Sheet -> result JsString.t.

(** C8, as amended.  Two successful runs over the same file list and the
    same output folder name, each with the archive library of its own
    environment and whatever an earlier run left in the other fields of
    the state, make the same archive calls: those of the files in order,
    one per sheet, with paths and texts that are functions of the files
    and of the name; they read the same files, report the same progress,
    finalise the same archive and download under the same file name.  The
    blobs, and with them the traces, are identical exactly when the two
    finalisations return the same blob for that archive. *)
Theorem C8_run_is_deterministic (generateAsync1 generateAsync2 : JSZip -> result Blob)
  (st1 st2 : AppState Data) :
  files st1 <> [] -> trim (outputFolderName st1) <> [] ->
  files st1 = files st2 -> outputFolderName st1 = outputFolderName st2 ->
  success (run XLSX_read sheet_to_csv generateAsync1 st1) = true ->
  success (run XLSX_read sheet_to_csv generateAsync2 st2) = true ->
  let tr1 := handleConvert XLSX_read sheet_to_csv generateAsync1 st1 in
  let tr2 := handleConvert XLSX_read sheet_to_csv generateAsync2 st2 in
  let calls :=
    flat_map (plan_entries XLSX_read sheet_to_csv (outputFolderName st1)) (files st1) in
  let zip := archive_after calls [] in
  let filename := trim (outputFolderName st1) ++ str ".zip" in
  zip_calls tr1 = calls /\ zip_calls tr2 = calls /\
  files_read tr1 = files st1 /\ files_read tr2 = files st1 /\
  progress_seq tr1 = progress_seq tr2 /\
  finalized tr1 = [zip] /\ finalized tr2 = [zip] /\
  exists blob1 blob2,
    generateAsync1 zip = Ok blob1 /\ generateAsync2 zip = Ok blob2 /\
    downloads tr1 = [(blob1, filename)] /\ downloads tr2 = [(blob2, filename)] /\
    (blob1 = blob2 <-> tr1 = tr2).
Proof.
  intros Hf Hr Hfs Hn Hs1 Hs2. cbv zeta.
  assert (Hf2 : files st2 <> []) by (rewrite <- Hfs; exact Hf).
  assert (Hr2 : trim (outputFolderName st2) <> []) by (rewrite <- Hn; exact Hr).
  destruct (run_success_inv XLSX_read sheet_to_csv generateAsync1 st1 Hf Hr Hs1)
    as (tl & zip & blob1 & Hl & Hg1 & Hh1).
  destruct (run_success_inv XLSX_read sheet_to_csv generateAsync2 st2 Hf2 Hr2 Hs2)
    as (tl2 & zip2 & blob2 & Hl2 & Hg2 & Hh2).
  rewrite <- Hfs, <- Hn in Hl2. rewrite <- Hn in Hh2. rewrite Hl in Hl2. injection Hl2 as <- <-.
  pose proof Hl as Hcalls. apply convert_loop_entries in Hcalls.
  pose proof Hl as Hzip. apply convert_loop_archive in Hzip. rewrite Hcalls in Hzip.
  pose proof (convert_loop_shape (Blob := Blob) XLSX_read sheet_to_csv (outputFolderName st1)
                (List.length (files st1)) (files st1) 0 []) as Hshape.
  rewrite Hl in Hshape. destruct Hshape as (k & _ & _ & Hread).
  pose proof (convert_loop_loop_events (Blob := Blob) XLSX_read sheet_to_csv (outputFolderName st1)
                (List.length (files st1)) (files st1) 0 []) as Hev.
  rewrite Hl in Hev. cbn [fst] in Hev.
  destruct (loop_events_silent tl Hev) as [Hd Hz].
  subst zip. rewrite Hh1, Hh2.
  unfold zip_calls, files_read, progress_seq, finalized, downloads in *.
  rewrite !collect_app, Hcalls, Hread, Hd, Hz.
  cbn [header collect zip_call_of read_of progress_of finalize_of download_of app].
  rewrite !app_nil_r.
  repeat (split; [reflexivity|]).
  exists blob1, blob2. repeat (split; [assumption || reflexivity|]).
  split.
  - intros ->. reflexivity.
  - intros H. injection H as H. apply app_inv_head in H.
    injection H as H. exact H.
Qed.

End IndependentRuns.

(** ** Instances on the concrete collaborators *)

Lemma C5_validation_blocks_run_witness :
  let st := Sample.state_of [Sample.report] "   " in
  isConverting (Sample.after st) = false /\
  progress_seq (Sample.convert st) = [].
Proof.
  pose proof (C5_validation_blocks_run Sample.XLSX_read Sample.sheet_to_csv
                Sample.generateAsync (Sample.state_of [Sample.report] "   ")
                (or_intror eq_refl)) as H.
  simpl in H. destruct H as (_ & _ & _ & Hp & _ & _ & _ & Hc & _).
  split; [exact Hc | exact Hp].
Defined.

Lemma C1_single_sheet_entry_witness :
  let st := Sample.state_of [Sample.report] " out " in
  exists csv zip zipBlob,
    Sample.sheet_to_csv (Some Sample.grid1) = Ok csv /\
    (forall total i z,
       zip_calls (fst (convert_file (Blob := Sample.Blob) Sample.XLSX_read
                         Sample.sheet_to_csv (str " out ") total i Sample.report z))
       = [(str "out/B/report.csv", csv)]) /\
    In (GenerateAsync zip) (Sample.convert st) /\
    In (SaveAs zipBlob (str "out.zip")) (Sample.convert st) /\
    Sample.generateAsync zip = Ok zipBlob /\
    count_path (str "out/B/report.csv") zip = 1.
Proof.
  apply (@C1_single_sheet_entry _ _ _ Sample.XLSX_read Sample.sheet_to_csv
           Sample.generateAsync (Sample.state_of [Sample.report] " out ")
           [] [] Sample.report (str "A") [str "B"] (str "report") (str "xlsx")
           (Some [(str "Sheet1", Sample.grid1)])
           (Build_Workbook [str "Sheet1"] [(str "Sheet1", Sample.grid1)])
           (str "Sheet1"));
    try reflexivity; discriminate.
Defined.

(** C2, at a workbook whose sheets are named [a$] and [a$$]: the
    replacement text of [replace] reads [$$] as one dollar, both sheets are
    handed over at [out/data_a$.csv], and the archive of the successful run
    holds one entry for the two sheets (the second one's text). *)
Theorem C2_dollar_sheet_names_collide :
  let st := Sample.state_of [Sample.dollars] "out" in
  map fst (zip_calls (Sample.convert st)) =
    [str "out/data_a$.csv"; str "out/data_a$.csv"] /\
  finalized (Sample.convert st) =
    [[(str "out/data_a$.csv", SheetSerializer.sheet_to_csv Sample.grid2)]] /\
  success (Sample.after st) = true.
Proof. repeat split. Qed.

Lemma C3_decode_failure_aborts_run_witness :
  let st := Sample.state_of
              [Sample.report; Sample.corrupt "A/x.xls"; Sample.data2] "out" in
  existsb is_download (Sample.convert st) = false /\
  success (Sample.after st) = false /\
  progress_seq (Sample.convert st) = [0%Z; 33%Z] /\
  progress (Sample.after st) = 33%Z /\
  error (Sample.after st) = Some (str "Unsupported file").
Proof.
  pose proof (@C3_decode_failure_aborts_run _ _ _ Sample.XLSX_read Sample.sheet_to_csv
                Sample.generateAsync
                (Sample.state_of
                   [Sample.report; Sample.corrupt "A/x.xls"; Sample.data2] "out")
                [Sample.report] [Sample.data2] (Sample.corrupt "A/x.xls")
                None Sample.parse_error eq_refl ltac:(discriminate) eq_refl eq_refl) as H.
  cbv zeta in H. destruct H as (_ & H2 & H3 & _ & _ & _ & H7).
  destruct (H7 _ _ eq_refl) as [Htr Herr].
  change (Sample.convert ?s) with
    (handleConvert Sample.XLSX_read Sample.sheet_to_csv Sample.generateAsync s).
  unfold Sample.after.
  split; [exact H2|]. split; [exact H3|]. split; [rewrite Htr; reflexivity|].
  split; [reflexivity | exact Herr].
Defined.

Lemma C10_zero_sheets_file_is_skipped_witness :
  let st := Sample.state_of [Sample.empty_book] "out" in
  success (Sample.after st) = true /\ progress (Sample.after st) = 100%Z /\
  zip_calls (Sample.convert st) = [].
Proof.
  destruct (@C10_zero_sheets_file_is_skipped _ _ _ Sample.XLSX_read Sample.sheet_to_csv
              Sample.generateAsync (str "out") 1 0 Sample.empty_book [] []
              (Some []) (Build_Workbook [] []) eq_refl eq_refl eq_refl)
    as (_ & _ & _ & H).
  destruct (H (Sample.state_of [Sample.empty_book] "out") []
              eq_refl ltac:(discriminate) eq_refl) as (Ha & _ & Hp & Hz & _).
  repeat split; assumption.
Defined.


(** C7 as stated fails: two files kept by the discovery filter that
    differ in their extension only are both handed over at
    [out/data.csv]. *)
Lemma C7_same_stem_collides :
  let st := Sample.state_of [Sample.data_xlsx; Sample.data_xls] "out" in
  forallb is_excel (files st) = true /\
  map fst (zip_calls (Sample.convert st)) = [str "out/data.csv"; str "out/data.csv"] /\
  ~ NoDup (map fst (zip_calls (Sample.convert st))).
Proof.
  cbv zeta. split; [reflexivity|]. split; [reflexivity|].
  intros H. inversion H as [|x l Hx _]. apply Hx. left. reflexivity.
Qed.

Lemma C7_distinct_paths_witness :
  NoDup (map fst (zip_calls
    (Sample.convert (Sample.state_of [Sample.report; Sample.data2] "out")))).
Proof.
  apply (@C7_distinct_paths _ _ _ Sample.XLSX_read Sample.sheet_to_csv
           Sample.generateAsync (Sample.state_of [Sample.report; Sample.data2] "out")).
  - intros f [<-|[<-|[]]].
    + split; [reflexivity | exists (str "A/B"); reflexivity].
    + split; [reflexivity | exists (str "A"); reflexivity].
  - reflexivity.
  - intros f d wb [<-|[<-|[]]] Hd Hw; injection Hd as <-; injection Hw as <-;
      (split; [apply JsStringFacts.nodupb_spec|]; reflexivity).
Defined.

(** C4 as stated fails: in a successful run over 201 files the value
    reported for the first file is 0, not above 0. *)
Lemma C4_first_value_zero_at_201_files :
  let st := Sample.state_of (Sample.many 201) "out" in
  files st <> [] /\ trim (outputFolderName st) <> [] /\
  success (Sample.after st) = true /\
  List.length (progress_seq (Sample.convert st)) = 202 /\
  nth 1 (progress_seq (Sample.convert st)) 1%Z = 0%Z /\
  progress_value 1 201 = 0%Z.
Proof.
  cbv zeta. split; [discriminate|]. split; [discriminate|].
  vm_compute. repeat split.
Qed.

(** The values are those of the double-precision expression of the
    source, which is not the exactly rounded percentage: at 29 of 200 files
    the quotient times 100 is just below 14.5. *)
Remark progress_value_29_of_200 :
  progress_value 29 200 = 14%Z /\ exact_percent 29 200 = 15%Z.
Proof. split; reflexivity. Qed.

Lemma C4_progress_sequence_witness :
  let st := Sample.state_of [Sample.report; Sample.data2] "out" in
  progress_seq (Sample.convert st) = [0%Z; 50%Z; 100%Z] /\
  progress (Sample.after st) = 100%Z.
Proof.
  destruct (@C4_progress_sequence _ _ _ Sample.XLSX_read Sample.sheet_to_csv
              Sample.generateAsync
              (Sample.state_of [Sample.report; Sample.data2] "out")
              ltac:(discriminate) ltac:(discriminate) eq_refl eq_refl)
    as (Hseq & _ & _ & Hp & _).
  cbv zeta. unfold Sample.convert, Sample.after.
  split; [rewrite Hseq; reflexivity | exact Hp].
Defined.

Lemma C8_run_is_deterministic_witness :
  let st1 := Sample.state_of [Sample.report; Sample.data2] "out" in
  let st2 := {| files := [Sample.report; Sample.data2]; outputFolderName := str "out";
                isConverting := false; progress := 100;
                error := Some (str "Unsupported file"); success := true |} in
  zip_calls (Sample.convert st1) =
    [(str "out/B/report.csv", SheetSerializer.sheet_to_csv Sample.grid1);
     (str "out/data_Sheet1.csv", SheetSerializer.sheet_to_csv Sample.grid1);
     (str "out/data_Sheet2.csv", SheetSerializer.sheet_to_csv Sample.grid2)] /\
  zip_calls (Sample.convert st2) = zip_calls (Sample.convert st1) /\
  downloads (Sample.convert st2) = downloads (Sample.convert st1).
Proof.
  cbv zeta.
  destruct (@C8_run_is_deterministic _ _ _ Sample.XLSX_read Sample.sheet_to_csv
              Sample.generateAsync Sample.generateAsync
              (Sample.state_of [Sample.report; Sample.data2] "out")
              {| files := [Sample.report; Sample.data2]; outputFolderName := str "out";
                 isConverting := false; progress := 100;
                 error := Some (str "Unsupported file"); success := true |}
              ltac:(discriminate) ltac:(discriminate) eq_refl eq_refl eq_refl eq_refl)
    as (H1 & H2 & _ & _ & _ & _ & _ & b1 & b2 & Hg1 & Hg2 & Hd1 & Hd2 & _).
  unfold Sample.convert.
  split; [exact H1|]. split; [rewrite H1; exact H2|].
  rewrite Hd1, Hd2. rewrite Hg1 in Hg2. injection Hg2 as <-. reflexivity.
Defined.

(** C8 as stated fails: with an archive library that writes the time of
    the run into the blob, two successful runs over the same file and the
    same name, made at different times, make the same calls and finalise
    the same archive, and download blobs that differ. *)
Lemma C8_blobs_differ_between_runs :
  let st := Sample.state_of [Sample.report] "out" in
  let run_at now :=
    handleConvert Sample.XLSX_read Sample.sheet_to_csv (Sample.generateAsync_at now) st in
  let state_at now :=
    run Sample.XLSX_read Sample.sheet_to_csv (Sample.generateAsync_at now) st in
  success (state_at 0%Z) = true /\ success (state_at 2%Z) = true /\
  zip_calls (run_at 0%Z) = zip_calls (run_at 2%Z) /\
  finalized (run_at 0%Z) = finalized (run_at 2%Z) /\
  map snd (downloads (run_at 0%Z)) = map snd (downloads (run_at 2%Z)) /\
  map fst (downloads (run_at 0%Z)) <> map fst (downloads (run_at 2%Z)).
Proof.
  cbv zeta. repeat (split; [reflexivity|]). vm_compute. discriminate.
Qed.


(** ** Instances of the further properties *)

Lemma replace_ext_needs_dot_in_leaf_witness :
  replace_ext (str "out/v1.2/README") (str ".csv") = str "out/v1.2/README".
Proof.
  exact (JsStringLaws.replace_ext_needs_dot_in_leaf
           (str "out/v1.2") (str "README") (str ".csv") eq_refl).
Defined.

Lemma default_output_folder_name_witness :
  outputFolderName
    (handleFolderSelect (Sample.state_of [] "")
       (Some [Sample.notes; Sample.report; Sample.data2]))
  = str "A_csv".
Proof.
  exact (@default_output_folder_name _ (Sample.state_of [] "")
           [Sample.notes; Sample.report; Sample.data2]
           Sample.report [Sample.data2] (str "A") (str "B/report.xlsx")
           eq_refl eq_refl eq_refl ltac:(discriminate)).
Defined.

Lemma selection_makes_convert_runnable_witness :
  let st' := handleFolderSelect (Sample.state_of [] "")
               (Some [Sample.notes; Sample.report]) in
  convert_disabled st' = false /\
  existsb is_running (Sample.convert st') = true /\
  error st' = None /\ success st' = false /\ progress st' = 0%Z.
Proof.
  exact (@selection_makes_convert_runnable _ _ _ Sample.XLSX_read Sample.sheet_to_csv
           Sample.generateAsync (Sample.state_of [] "")
           [Sample.notes; Sample.report] Sample.report [] (str "A")
           (str "B/report.xlsx") eq_refl eq_refl eq_refl ltac:(discriminate) eq_refl).
Defined.

Lemma button_disabled_while_converting_witness :
  let st := Sample.state_of [Sample.report] "out" in
  let shown := fold_left apply_event (firstn 5 (Sample.convert st)) st in
  isConverting shown = true /\ convert_disabled shown = true.
Proof.
  cbv zeta.
  apply (@button_disabled_while_converting _ _ _ Sample.XLSX_read Sample.sheet_to_csv
           Sample.generateAsync (Sample.state_of [Sample.report] "out")
           (firstn 5 (Sample.convert (Sample.state_of [Sample.report] "out")))
           (skipn 5 (Sample.convert (Sample.state_of [Sample.report] "out")))).
  - discriminate.
  - discriminate.
  - symmetry. apply firstn_skipn.
  - vm_compute. discriminate.
  - vm_compute. discriminate.
Defined.

Lemma download_iff_success_witness :
  let st := Sample.state_of [Sample.report; Sample.data2] " out " in
  exists zip,
    finalized (Sample.convert st) = [zip] /\
    downloads (Sample.convert st) = [(zip, str "out.zip")].
Proof.
  cbv zeta.
  destruct (@download_iff_success _ _ _ Sample.XLSX_read Sample.sheet_to_csv
              Sample.generateAsync
              (Sample.state_of [Sample.report; Sample.data2] " out ")
              ltac:(discriminate) ltac:(discriminate)) as [H _].
  destruct (H eq_refl) as (zip & blob & Hz & _ & Hg & Hd).
  injection Hg as <-. exists zip. split; [exact Hz | exact Hd].
Defined.

Lemma one_banner_after_run_witness :
  let st := Sample.state_of [Sample.corrupt "A/x.xls"] "out" in
  isConverting (Sample.after st) = false /\
  show_success (Sample.after st) = negb (show_error (Sample.after st)) /\
  (success (Sample.after st) = false ->
   exists e, error (Sample.after st) = Some (error_text e) /\ error_text e <> []).
Proof.
  exact (@one_banner_after_run _ _ _ Sample.XLSX_read Sample.sheet_to_csv
           Sample.generateAsync (Sample.state_of [Sample.corrupt "A/x.xls"] "out")
           ltac:(discriminate) ltac:(discriminate)).
Defined.

Lemma finalize_failure_is_run_error_witness :
  let st := Sample.state_of [Sample.report] "out" in
  let tr := handleConvert Sample.XLSX_read Sample.sheet_to_csv
              Sample.generateAsync_fails st in
  let st' := run Sample.XLSX_read Sample.sheet_to_csv Sample.generateAsync_fails st in
  downloads tr = [] /\
  error st' = Some (str "An error occurred during conversion.") /\
  progress st' = 100%Z.
Proof.
  cbv zeta.
  destruct (@finalize_failure_is_run_error _ _ _ Sample.XLSX_read Sample.sheet_to_csv
              Sample.generateAsync_fails (Sample.state_of [Sample.report] "out")
              _ _ _ ltac:(discriminate) ltac:(discriminate) eq_refl eq_refl eq_refl)
    as (_ & Hd & _ & He & _ & Hp).
  split; [exact Hd|]. split; [exact He | exact Hp].
Defined.

Lemma first_failure_aborts_run_witness :
  let st := Sample.state_of
              [Sample.report; Sample.unreadable "A/locked.xlsx"; Sample.data2] "out" in
  files_read (Sample.convert st) = [Sample.report; Sample.unreadable "A/locked.xlsx"] /\
  downloads (Sample.convert st) = [] /\
  error (Sample.after st) = Some (str "The file could not be read").
Proof.
  cbv zeta.
  destruct (@first_failure_aborts_run _ _ _ Sample.XLSX_read Sample.sheet_to_csv
              Sample.generateAsync
              (Sample.state_of
                 [Sample.report; Sample.unreadable "A/locked.xlsx"; Sample.data2] "out")
              [Sample.report] [Sample.data2] (Sample.unreadable "A/locked.xlsx")
              _ _ _ _ eq_refl ltac:(discriminate) eq_refl eq_refl)
    as (_ & Hr & _ & Hd & _ & He).
  split; [exact Hr|]. split; [exact Hd | exact He].
Defined.


Lemma files_read_in_order_witness :
  let st := Sample.state_of [Sample.report; Sample.data2] "out" in
  files_read (Sample.convert st) = [Sample.report; Sample.data2].
Proof.
  cbv zeta.
  exact (proj2 (@files_read_in_order _ _ _ Sample.XLSX_read Sample.sheet_to_csv
                  Sample.generateAsync
                  (Sample.state_of [Sample.report; Sample.data2] "out")
                  ltac:(discriminate) ltac:(discriminate)) eq_refl).
Defined.

Lemma progress_stays_in_range_witness :
  let st := Sample.state_of (Sample.many 7) "out" in
  Forall (fun p => (0 <= p <= 100)%Z) (progress_seq (Sample.convert st)).
Proof.
  cbv zeta. apply Forall_forall.
  exact (proj1 (@progress_stays_in_range _ _ _ Sample.XLSX_read Sample.sheet_to_csv
                  Sample.generateAsync (Sample.state_of (Sample.many 7) "out")
                  eq_refl)).
Defined.

Lemma calls_follow_files_and_sheets_witness :
  let st := Sample.state_of [Sample.report; Sample.data2] "out" in
  map fst (zip_calls (Sample.convert st)) =
    [str "out/B/report.csv"; str "out/data_Sheet1.csv"; str "out/data_Sheet2.csv"].
Proof.
  cbv zeta.
  exact (proj2 (@calls_follow_files_and_sheets _ _ _ Sample.XLSX_read
                  Sample.sheet_to_csv Sample.generateAsync
                  (Sample.state_of [Sample.report; Sample.data2] "out")
                  ltac:(discriminate) ltac:(discriminate)) eq_refl).
Defined.

Lemma entry_holds_its_sheet_witness :
  exists d wb n,
    arrayBuffer Sample.data2 = Ok d /\ Sample.XLSX_read d = Ok wb /\
    In n (SheetNames wb) /\
    Sample.sheet_to_csv (get_sheet (Sheets wb) n)
      = Ok (SheetSerializer.sheet_to_csv Sample.grid2) /\
    ((SheetNames wb = [n] /\
      str "out/data_Sheet2.csv"
        = replace_ext (newPathBase (str "out") Sample.data2) (str ".csv")) \/
     (List.length (SheetNames wb) <> 1 /\
      str "out/data_Sheet2.csv"
        = replace_ext (newPathBase (str "out") Sample.data2)
            (str "_" ++ n ++ str ".csv"))).
Proof.
  apply (@entry_holds_its_sheet _ _ Sample.Blob Sample.XLSX_read Sample.sheet_to_csv
           (str "out") 1 0 Sample.data2 []
           (str "out/data_Sheet2.csv") (SheetSerializer.sheet_to_csv Sample.grid2)).
  vm_compute. right. left. reflexivity.
Defined.

Lemma entries_keep_folders_and_stem_witness :
  exists base ext,
    name Sample.report = base ++ dot :: ext /\ ext <> [] /\
    forallb ext_char ext = true /\
    forall p,
      In p (map fst (zip_calls (fst (convert_file (Blob := Sample.Blob)
              Sample.XLSX_read Sample.sheet_to_csv (str " out ") 1 0
              Sample.report [])))) ->
      prefixb (str "out/B/" ++ base) p = true.
Proof.
  exact (@entries_keep_folders_and_stem _ _ Sample.Blob Sample.XLSX_read
           Sample.sheet_to_csv (str " out ") 1 0 Sample.report []
           (str "A") (str "B/") eq_refl eq_refl eq_refl).
Defined.

Lemma path_without_folder_loses_name_witness :
  newPathBase (str "out") Sample.bare = str "out" /\
  forall p,
    In p (map fst (zip_calls (fst (convert_file (Blob := Sample.Blob)
      Sample.XLSX_read Sample.sheet_to_csv (str "out") 1 0 Sample.bare [])))) ->
    p = str "out".
Proof.
  destruct (@path_without_folder_loses_name _ _ Sample.Blob Sample.XLSX_read
              Sample.sheet_to_csv (str "out") 1 0 Sample.bare [] eq_refl)
    as (Hb & _ & Hp).
  split; [exact Hb | exact (Hp eq_refl)].
Defined.
